(** * JustEat food ordering: cart, order placement, popularity, order status

    A shallow embedding of the cart-to-order pipeline of the Flask
    application: the SQLAlchemy models of [models.py], the customer routes
    [add_to_cart], [update_cart], [place_order] and [view_restaurant] of
    [routes/customer.py], and [update_order_status], [edit_menu_item] and
    [restaurant_detail] of [routes/restaurant.py].

    Conventions.
    - Integer columns are [Z].  [Numeric(10, 2)] columns (prices, totals)
      are [Z] counted in hundredths, so Decimal arithmetic is exact.
    - [DateTime] values are [Z] microseconds on the naive time line; a
      [date] is the number of the day, [func_date].
    - A table is the list of its rows in insertion order.  Nothing in the
      schema makes (user_id, menu_item_id) unique in [cart], so rows are
      kept as a list and duplicates are representable.
    - A request runs against a session: [working] is what the session sees
      (pending and flushed rows included), [committed] is what every other
      request sees.  Write statements and [commit] may be refused by the
      database; the request environment [Env] names the write that fails.
    - The login and role decorators are outside the embedding: the bodies
      are run for an authenticated [current_user] of the right role. *)

From Stdlib Require Import ZArith List String Bool Lia DecimalString Permutation.
Import ListNotations.
Local Open Scope Z_scope.

(** ** models.py *)

Module MenuItem.
Record t := mk {
  id : Z;
  price : Z;
  is_available : bool;
  restaurant_id : Z }.
End MenuItem.

Module Restaurant.
Record t := mk {
  id : Z;
  owner_id : Z }.
End Restaurant.

Module Order.
Record t := mk {
  id : Z;
  order_number : string;
  status : string;
  total_amount : Z;
  created_at : Z;
  updated_at : Z;
  customer_id : Z;
  restaurant_id : Z }.
End Order.

Module OrderItem.
Record t := mk {
  id : Z;
  quantity : Z;
  price : Z;
  order_id : Z;
  menu_item_id : Z }.
End OrderItem.

Module Cart.
Record t := mk {
  id : Z;
  quantity : Z;
  user_id : Z;
  menu_item_id : Z }.
End Cart.

(** The tables the pipeline reads and writes. *)
Record DB := mkDB {
  restaurants : list Restaurant.t;
  menu_items : list MenuItem.t;
  orders : list Order.t;
  order_items : list OrderItem.t;
  cart : list Cart.t }.

(** The auto-increment counters of the primary keys.  They are not part of
    a transaction: a rolled back insert still uses up its value. *)
Record Seqs := mkSeqs {
  order_seq : Z;
  order_item_seq : Z;
  cart_seq : Z }.

Record Store := mkStore {
  tables : DB;
  seqs : Seqs }.

Definition set_menu_items (l : list MenuItem.t) (db : DB) : DB :=
  mkDB (restaurants db) l (orders db) (order_items db) (cart db).

Definition set_orders (l : list Order.t) (db : DB) : DB :=
  mkDB (restaurants db) (menu_items db) l (order_items db) (cart db).

Definition set_order_items (l : list OrderItem.t) (db : DB) : DB :=
  mkDB (restaurants db) (menu_items db) (orders db) l (cart db).

Definition set_cart (l : list Cart.t) (db : DB) : DB :=
  mkDB (restaurants db) (menu_items db) (orders db) (order_items db) l.

(** ** JSON responses ([jsonify]) *)

#[local] Unset Elimination Schemes.
Inductive json :=
| JBool (b : bool)
| JStr (s : string)
| JNum (z : Z)
| JArr (l : list json)
| JObj (fields : list (string * json)).
#[local] Set Elimination Schemes.

Definition jsonify (success : bool) (message : string) : json :=
  JObj [("success"%string, JBool success); ("message"%string, JStr message)].

(** ** The session: exceptions and pending writes *)

Inductive Exc := NotFound | AttributeError | StorageFailure.

Inductive Result (A : Type) :=
| Ok (a : A)
| Raise (e : Exc).
Arguments Ok {A} a.
Arguments Raise {A} e.

Record Session := mkSession {
  committed : DB;
  working : DB;
  autoinc : Seqs;
  step : nat }.

Definition M (A : Type) : Type := Session -> Result A * Session.

Definition ret {A} (a : A) : M A := fun s => (Ok a, s).

Definition bind {A B} (m : M A) (f : A -> M B) : M B :=
  fun s => match m s with
           | (Ok a, s1) => f a s1
           | (Raise e, s1) => (Raise e, s1)
           end.

Definition raise {A} (e : Exc) : M A := fun s => (Raise e, s).

Declare Scope session_scope.
Delimit Scope session_scope with session.
Notation "x <- c1 ;; c2" := (bind c1 (fun x => c2))
  (at level 100, c1 at next level, right associativity) : session_scope.
Notation "c1 ;;; c2" := (bind c1 (fun _ => c2))
  (at level 100, right associativity) : session_scope.
Local Open Scope session_scope.

(** A read of the session's view of the database. *)
Definition query {A} (q : DB -> A) : M A := fun s => (Ok (q (working s)), s).

(** [Model.query.get_or_404] and [first_or_404]. *)
Definition or_404 {A} (q : DB -> option A) : M A :=
  r <- query q ;;
  match r with
  | Some a => ret a
  | None => raise NotFound
  end.

(** [db.session.rollback()]: pending work is dropped. *)
Definition rollback (s : Session) : Session :=
  mkSession (committed s) (committed s) (autoinc s) (step s).

Definition begin_request (st : Store) : Session :=
  mkSession (tables st) (tables st) (seqs st) 0.

(** What is visible once the request is over: the session is removed at
    teardown, work that was not committed is lost. *)
Definition end_request (s : Session) : Store :=
  mkStore (committed s) (autoinc s).

(** What a request takes from its environment: the clocks, the random
    numbers, and the write the database refuses, all indexed by the number
    of writes done so far in the request. *)
Record Env := mkEnv {
  utcnow : nat -> Z;
  strftime_now : nat -> string;
  randint : nat -> Z;
  fault : option nat }.

Definition str (z : Z) : string := NilZero.string_of_int (Z.to_int z).

Section Requests.

Variable env : Env.

Definition fault_at (k : nat) : bool :=
  match fault env with
  | Some j => Nat.eqb j k
  | None => false
  end.

(** One write statement: refused as a whole, or applied to the session's
    view. *)
Definition write (upd : nat -> Seqs -> DB -> DB * Seqs) : M unit :=
  fun s =>
    if fault_at (step s) then (Raise StorageFailure, s)
    else let '(db, sq) := upd (step s) (autoinc s) (working s) in
         (Ok tt, mkSession (committed s) db sq (S (step s))).

(** [db.session.commit()]. *)
Definition commit : M unit :=
  fun s =>
    if fault_at (step s) then (Raise StorageFailure, s)
    else (Ok tt, mkSession (working s) (working s) (autoinc s) (S (step s))).

Definition written : M nat := fun s => (Ok (step s), s).

Definition next_order_id : M Z := fun s => (Ok (order_seq (autoinc s)), s).

(** *** Lookups *)

Definition MenuItem_get (mid : Z) (db : DB) : option MenuItem.t :=
  find (fun m => MenuItem.id m =? mid) (menu_items db).

Definition Cart_get (cid : Z) (db : DB) : option Cart.t :=
  find (fun c => Cart.id c =? cid) (cart db).

Definition Order_get (oid : Z) (db : DB) : option Order.t :=
  find (fun o => Order.id o =? oid) (orders db).

Definition Restaurant_get (rid : Z) (db : DB) : option Restaurant.t :=
  find (fun r => Restaurant.id r =? rid) (restaurants db).

Definition cart_of (uid mid : Z) (c : Cart.t) : bool :=
  (Cart.user_id c =? uid) && (Cart.menu_item_id c =? mid).

Definition cart_of_user (uid : Z) (c : Cart.t) : bool :=
  Cart.user_id c =? uid.

(** *** Write statements *)

Definition insert_cart (uid mid quantity : Z) : M unit :=
  write (fun _ sq db =>
    (set_cart (cart db ++ [Cart.mk (cart_seq sq) quantity uid mid]) db,
     mkSeqs (order_seq sq) (order_item_seq sq) (cart_seq sq + 1))).

Definition update_cart_quantity (cid quantity : Z) : M unit :=
  write (fun _ sq db =>
    (set_cart
       (map (fun c => if Cart.id c =? cid
                      then Cart.mk (Cart.id c) quantity
                                   (Cart.user_id c) (Cart.menu_item_id c)
                      else c) (cart db)) db,
     sq)).

Definition delete_cart_row (cid : Z) : M unit :=
  write (fun _ sq db =>
    (set_cart (filter (fun c => negb (Cart.id c =? cid)) (cart db)) db, sq)).

Definition delete_cart_of_user (uid : Z) : M unit :=
  write (fun _ sq db =>
    (set_cart (filter (fun c => negb (cart_of_user uid c)) (cart db)) db, sq)).

(** [db.session.add(order)] and [db.session.flush()], after which
    [order.id] is known. *)
Definition insert_order (number : string) (total uid rid : Z) : M Z :=
  order_id <- next_order_id ;;
  write (fun k sq db =>
    (set_orders
       (orders db ++ [Order.mk (order_seq sq) number "pending" total
                               (utcnow env k) (utcnow env k) uid rid]) db,
     mkSeqs (order_seq sq + 1) (order_item_seq sq) (cart_seq sq))) ;;;
  ret order_id.

Definition insert_order_item (oid mid quantity price : Z) : M unit :=
  write (fun _ sq db =>
    (set_order_items
       (order_items db ++ [OrderItem.mk (order_item_seq sq) quantity price
                                        oid mid]) db,
     mkSeqs (order_seq sq) (order_item_seq sq + 1) (cart_seq sq))).

Definition update_order (oid : Z) (new_status : string) : M unit :=
  write (fun k sq db =>
    (set_orders
       (map (fun o => if Order.id o =? oid
                      then Order.mk (Order.id o) (Order.order_number o)
                             new_status (Order.total_amount o)
                             (Order.created_at o) (utcnow env k)
                             (Order.customer_id o) (Order.restaurant_id o)
                      else o) (orders db)) db,
     sq)).

Definition update_menu_item (mid price : Z) (available : bool) : M unit :=
  write (fun _ sq db =>
    (set_menu_items
       (map (fun m => if MenuItem.id m =? mid
                      then MenuItem.mk (MenuItem.id m) price available
                                       (MenuItem.restaurant_id m)
                      else m) (menu_items db)) db,
     sq)).

(** ** routes/customer.py: the cart *)

Definition add_to_cart_body (current_user menu_item_id quantity : Z) : M json :=
  _menu_item <- or_404 (MenuItem_get menu_item_id) ;;
  existing_cart_item <-
    query (fun db => find (cart_of current_user menu_item_id) (cart db)) ;;
  match existing_cart_item with
  | Some c => update_cart_quantity (Cart.id c) (Cart.quantity c + quantity)
  | None => insert_cart current_user menu_item_id quantity
  end ;;;
  commit ;;;
  ret (jsonify true "Item added to cart!").

Definition add_to_cart (current_user menu_item_id quantity : Z) (st : Store)
  : json * Store :=
  match add_to_cart_body current_user menu_item_id quantity (begin_request st) with
  | (Ok resp, s) => (resp, end_request s)
  | (Raise _, s) => (jsonify false "Error adding item to cart", end_request s)
  end.

Definition update_cart_body (current_user cart_item_id quantity : Z) : M json :=
  cart_item <- or_404 (Cart_get cart_item_id) ;;
  if negb (Cart.user_id cart_item =? current_user)
  then ret (jsonify false "Unauthorized")
  else
    (if quantity <=? 0
     then delete_cart_row (Cart.id cart_item)
     else update_cart_quantity (Cart.id cart_item) quantity) ;;;
    commit ;;;
    ret (jsonify true "Cart updated!").

Definition update_cart (current_user cart_item_id quantity : Z) (st : Store)
  : json * Store :=
  match update_cart_body current_user cart_item_id quantity (begin_request st) with
  | (Ok resp, s) => (resp, end_request s)
  | (Raise _, s) => (jsonify false "Error updating cart", end_request s)
  end.

(** ** routes/customer.py: place_order *)

(** [item.menu_item.<attribute>]: the relationship loads the row, an
    attribute of [None] raises. *)
Definition menu_item_of (item : Cart.t) : M MenuItem.t :=
  r <- query (MenuItem_get (Cart.menu_item_id item)) ;;
  match r with
  | Some m => ret m
  | None => raise AttributeError
  end.

(** [restaurants.setdefault(rid, []).append(item)] on a dict, which keeps
    its keys in insertion order. *)
Fixpoint setdefault_append (rid : Z) (item : Cart.t)
  (d : list (Z * list Cart.t)) : list (Z * list Cart.t) :=
  match d with
  | [] => [(rid, [item])]
  | (k, v) :: d' =>
      if k =? rid then (k, v ++ [item]) :: d'
      else (k, v) :: setdefault_append rid item d'
  end.

Fixpoint group_by_restaurant (cart_items : list Cart.t)
  (restaurants : list (Z * list Cart.t)) : M (list (Z * list Cart.t)) :=
  match cart_items with
  | [] => ret restaurants
  | item :: rest =>
      m <- menu_item_of item ;;
      group_by_restaurant rest
        (setdefault_append (MenuItem.restaurant_id m) item restaurants)
  end.

(** [sum(item.menu_item.price * item.quantity for item in items)]. *)
Fixpoint sum_prices (items : list Cart.t) (acc : Z) : M Z :=
  match items with
  | [] => ret acc
  | item :: rest =>
      m <- menu_item_of item ;;
      sum_prices rest (acc + MenuItem.price m * Cart.quantity item)
  end.

Fixpoint add_order_items (order_id : Z) (items : list Cart.t) : M unit :=
  match items with
  | [] => ret tt
  | item :: rest =>
      m <- menu_item_of item ;;
      insert_order_item order_id (Cart.menu_item_id item)
                        (Cart.quantity item) (MenuItem.price m) ;;;
      add_order_items order_id rest
  end.

Fixpoint create_orders (current_user : Z) (restaurants : list (Z * list Cart.t))
  : M unit :=
  match restaurants with
  | [] => ret tt
  | (restaurant_id, items) :: rest =>
      k <- written ;;
      let order_number :=
        ("ORD" ++ strftime_now env k ++ str current_user
               ++ str (randint env k))%string in
      total <- sum_prices items 0 ;;
      order_id <- insert_order order_number total current_user restaurant_id ;;
      add_order_items order_id items ;;;
      create_orders current_user rest
  end.

Definition place_order_body (current_user : Z) : M json :=
  cart_items <- query (fun db => filter (cart_of_user current_user) (cart db)) ;;
  match cart_items with
  | [] => ret (jsonify false "Your cart is empty.")
  | _ :: _ =>
      restaurants <- group_by_restaurant cart_items [] ;;
      create_orders current_user restaurants ;;;
      delete_cart_of_user current_user ;;;
      commit ;;;
      ret (jsonify true "Order placed successfully!")
  end.

Definition place_order (current_user : Z) (st : Store) : json * Store :=
  match place_order_body current_user (begin_request st) with
  | (Ok resp, s) => (resp, end_request s)
  | (Raise _, s) =>
      (jsonify false "Error placing order. Please try again.",
       end_request (rollback s))
  end.

(** ** routes/restaurant.py: update_order_status, edit_menu_item *)

Definition valid_statuses : list string :=
  ["pending"; "confirmed"; "preparing"; "ready"; "delivered"; "cancelled"]%string.

Definition status_in (s : string) (l : list string) : bool :=
  existsb (String.eqb s) l.

(** [order.restaurant.owner_id]. *)
Definition restaurant_of (o : Order.t) : M Restaurant.t :=
  r <- query (Restaurant_get (Order.restaurant_id o)) ;;
  match r with
  | Some x => ret x
  | None => raise AttributeError
  end.

Definition update_order_status_body (current_user order_id : Z)
  (new_status : string) : M json :=
  order <- or_404 (Order_get order_id) ;;
  restaurant <- restaurant_of order ;;
  if negb (Restaurant.owner_id restaurant =? current_user)
  then ret (jsonify false "Unauthorized")
  else if negb (status_in new_status valid_statuses)
  then ret (jsonify false "Invalid status")
  else
    update_order (Order.id order) new_status ;;;
    commit ;;;
    ret (jsonify true "Order status updated!").

Definition update_order_status (current_user order_id : Z) (new_status : string)
  (st : Store) : json * Store :=
  match update_order_status_body current_user order_id new_status
          (begin_request st) with
  | (Ok resp, s) => (resp, end_request s)
  | (Raise _, s) => (jsonify false "Error updating order status", end_request s)
  end.

(** The fields of the validated form that the pipeline depends on. *)
Record MenuItemForm := mkForm {
  form_price : Z;
  form_is_available : bool }.

Definition edit_menu_item_body (current_user restaurant_id item_id : Z)
  (form : MenuItemForm) : M string :=
  restaurant <- or_404 (fun db =>
    find (fun r => (Restaurant.id r =? restaurant_id)
                   && (Restaurant.owner_id r =? current_user))
         (restaurants db)) ;;
  menu_item <- or_404 (fun db =>
    find (fun m => (MenuItem.id m =? item_id)
                   && (MenuItem.restaurant_id m =? Restaurant.id restaurant))
         (menu_items db)) ;;
  fun s =>
    match (update_menu_item (MenuItem.id menu_item) (form_price form)
                            (form_is_available form) ;;;
           commit) s with
    | (Ok _, s1) => (Ok "Menu item updated successfully!"%string, s1)
    | (Raise _, s1) => (Ok "Error updating menu item."%string, rollback s1)
    end.

Definition edit_menu_item (current_user restaurant_id item_id : Z)
  (form : MenuItemForm) (st : Store) : Result string * Store :=
  let '(r, s) := edit_menu_item_body current_user restaurant_id item_id form
                   (begin_request st) in
  (r, end_request s).

End Requests.

(** ** The "mostly ordered" tag, three times *)

Definition microseconds_per_day : Z := 86400000000.

(** [func.date(ts)], and the day of a Python [date]. *)
Definition func_date (ts : Z) : Z := ts / microseconds_per_day.

(** [datetime.combine(today, datetime.min.time())]: 00:00:00.000000. *)
Definition start_of_day (today : Z) : Z := today * microseconds_per_day.

(** [datetime.combine(today, datetime.max.time())]: 23:59:59.999999. *)
Definition end_of_day (today : Z) : Z :=
  today * microseconds_per_day + (microseconds_per_day - 1).

(** [query(...).join(Order)]: the inner join on
    [Order.id == OrderItem.order_id]. *)
Definition join_Order (db : DB) : list (OrderItem.t * Order.t) :=
  flat_map (fun oi =>
              map (fun o => (oi, o))
                  (filter (fun o => Order.id o =? OrderItem.order_id oi)
                          (orders db)))
           (order_items db).

(** SQL aggregates are NULL over no rows. *)
Definition func_sum (l : list Z) : option Z :=
  match l with
  | [] => None
  | _ :: _ => Some (fold_left Z.add l 0)
  end.

Definition func_max (l : list Z) : option Z :=
  match l with
  | [] => None
  | x :: l' => Some (fold_left Z.max l' x)
  end.

Definition func_coalesce (x : option Z) (d : Z) : Z :=
  match x with
  | Some v => v
  | None => d
  end.

(** Python's [x or d] on an optional integer: [None] and [0] are falsy. *)
Definition py_or (x : option Z) (d : Z) : Z :=
  match x with
  | Some v => if v =? 0 then d else v
  | None => d
  end.

Definition quantities (rows : list (OrderItem.t * Order.t)) : list Z :=
  map (fun r => OrderItem.quantity (fst r)) rows.

(** The rows both filters of [models.py] and of [view_restaurant] keep. *)
Definition on_date (today : Z) (item : MenuItem.t) (r : OrderItem.t * Order.t)
  : bool :=
  (OrderItem.menu_item_id (fst r) =? MenuItem.id item)
  && (func_date (Order.created_at (snd r)) =? today).

(** *** models.py: the properties of MenuItem *)

Definition order_quantity_today (today : Z) (item : MenuItem.t) (db : DB) : Z :=
  py_or (func_sum (quantities (filter (on_date today item) (join_Order db)))) 0.

Definition has_large_single_order_today (today : Z) (item : MenuItem.t)
  (db : DB) : bool :=
  match
    filter (fun r => on_date today item r && (OrderItem.quantity (fst r) >? 10))
           (join_Order db)
  with
  | [] => false
  | _ :: _ => true
  end.

Definition is_mostly_ordered (today : Z) (item : MenuItem.t) (db : DB) : bool :=
  (order_quantity_today today item db >? 10)
  || has_large_single_order_today today item db.

(** *** routes/customer.py: view_restaurant, the body of the loop *)

Definition view_restaurant_mostly_ordered (today : Z) (item : MenuItem.t)
  (db : DB) : bool :=
  let total_quantity :=
    func_coalesce
      (func_sum (quantities (filter (on_date today item) (join_Order db)))) 0 in
  let single_large_order :=
    hd_error
      (map (fun r => OrderItem.id (fst r))
           (filter (fun r => on_date today item r
                             && (OrderItem.quantity (fst r) >? 10))
                   (join_Order db))) in
  (total_quantity >? 10)
  || match single_large_order with
     | Some _ => true
     | None => false
     end.

(** *** routes/restaurant.py: restaurant_detail, the body of the loop *)

Definition in_day_of (today : Z) (restaurant : Restaurant.t) (item : MenuItem.t)
  (r : OrderItem.t * Order.t) : bool :=
  (OrderItem.menu_item_id (fst r) =? MenuItem.id item)
  && (Order.restaurant_id (snd r) =? Restaurant.id restaurant)
  && (start_of_day today <=? Order.created_at (snd r))
  && (Order.created_at (snd r) <=? end_of_day today).

Definition restaurant_detail_mostly_ordered (today : Z)
  (restaurant : Restaurant.t) (item : MenuItem.t) (db : DB) : bool :=
  let total_quantity :=
    func_coalesce
      (func_sum (quantities (filter (in_day_of today restaurant item)
                                    (join_Order db)))) 0 in
  let max_single_order :=
    func_coalesce
      (func_max (quantities (filter (in_day_of today restaurant item)
                                    (join_Order db)))) 0 in
  (total_quantity >? 10) || (max_single_order >? 10).


(** * Vocabulary of the properties *)

(** A computation that never commits: whatever it returns or raises, the
    committed tables are the ones it started from. *)
Definition keeps_committed {A} (m : M A) : Prop :=
  forall s r s', m s = (r, s') -> committed s' = committed s.

(** Everything [place_order] does before its [commit]. *)
Definition place_order_writes (env : Env) (current_user : Z)
  (cart_items : list Cart.t) : M unit :=
  restaurants <- group_by_restaurant cart_items [] ;;
  create_orders env current_user restaurants ;;;
  delete_cart_of_user env current_user.

Definition zsum (l : list Z) : Z := fold_right Z.add 0 l.

(** The identifiers an auto-increment counter hands out. *)
Fixpoint z_seq (start : Z) (n : nat) : list Z :=
  match n with
  | O => []
  | S k => start :: z_seq (start + 1) k
  end.

(** The restaurant a cart row belongs to, through its menu item. *)
Definition restaurant_of_item (db : DB) (item : Cart.t) : option Z :=
  option_map MenuItem.restaurant_id (MenuItem_get (Cart.menu_item_id item) db).

(** What the rows of a cart row's price times its quantity come to. *)
Definition line_total (db : DB) (item : Cart.t) : Z :=
  match MenuItem_get (Cart.menu_item_id item) db with
  | Some m => MenuItem.price m * Cart.quantity item
  | None => 0
  end.

(** The dict [place_order] builds: distinct keys, and under each key a
    non-empty list of cart rows of that restaurant. *)
Definition grouped (db : DB) (d : list (Z * list Cart.t)) : Prop :=
  NoDup (map fst d) /\
  Forall (fun g => snd g <> [] /\
                   Forall (fun item => restaurant_of_item db item = Some (fst g))
                          (snd g)) d.

(** An order line made from a cart row. *)
Definition line_of (db : DB) (order_id : Z) (item : Cart.t) (oi : OrderItem.t)
  : Prop :=
  OrderItem.order_id oi = order_id /\
  OrderItem.menu_item_id oi = Cart.menu_item_id item /\
  OrderItem.quantity oi = Cart.quantity item /\
  exists m, MenuItem_get (Cart.menu_item_id item) db = Some m /\
            OrderItem.price oi = MenuItem.price m.

Definition order_lines_total (ois : list OrderItem.t) : Z :=
  zsum (map (fun oi => OrderItem.price oi * OrderItem.quantity oi) ois).

(** An order and its lines made from one entry of the dict. *)
Definition order_of (db : DB) (uid : Z) (g : Z * list Cart.t)
  (c : Order.t * list OrderItem.t) : Prop :=
  Order.restaurant_id (fst c) = fst g /\
  Order.customer_id (fst c) = uid /\
  Order.status (fst c) = "pending"%string /\
  Forall2 (line_of db (Order.id (fst c))) (snd g) (snd c) /\
  Order.total_amount (fst c) = order_lines_total (snd c).

(** The orders a call of [place_order] for [uid] adds to [st], one per
    entry of the dict [groups], and what the tables are afterwards. *)
Definition placement (uid : Z) (st st' : Store)
  (groups : list (Z * list Cart.t))
  (created : list (Order.t * list OrderItem.t)) : Prop :=
  grouped (tables st) groups /\
  (forall r, In r (map fst groups) <->
             exists item, In item (filter (cart_of_user uid) (cart (tables st)))
                          /\ restaurant_of_item (tables st) item = Some r) /\
  Forall2 (order_of (tables st) uid) groups created /\
  map (fun c => Order.id (fst c)) created =
    z_seq (order_seq (seqs st)) (List.length groups) /\
  tables st' =
    mkDB (restaurants (tables st)) (menu_items (tables st))
         (orders (tables st) ++ map fst created)
         (order_items (tables st) ++ List.concat (map snd created))
         (filter (fun c => negb (cart_of_user uid c)) (cart (tables st))).

(** The restaurants of the rows of a user's cart, with repetitions. *)
Definition restaurants_in_cart (db : DB) (uid : Z) : list Z :=
  flat_map (fun item => match restaurant_of_item db item with
                        | Some r => [r]
                        | None => []
                        end)
           (filter (cart_of_user uid) (cart db)).

(** [order.order_items]: the lines whose foreign key is the order. *)
Definition order_lines (db : DB) (o : Order.t) : list OrderItem.t :=
  filter (fun oi => OrderItem.order_id oi =? Order.id o) (order_items db).

(** The auto-increment counter of [orders] is above every order id in use,
    in [orders] and in the foreign keys of [order_items]. *)
Definition Store_wf (st : Store) : Prop :=
  Forall (fun o => Order.id o < order_seq (seqs st)) (orders (tables st)) /\
  Forall (fun oi => OrderItem.order_id oi < order_seq (seqs st))
         (order_items (tables st)).

Definition order_placed : json := jsonify true "Order placed successfully!".

Definition placement_failed : json :=
  jsonify false "Error placing order. Please try again.".

Definition cart_is_empty : json := jsonify false "Your cart is empty.".

(** A later edit of a menu item by its owner. *)
Record Edit := mkEdit {
  edit_env : Env;
  edit_user : Z;
  edit_restaurant : Z;
  edit_item : Z;
  edit_form : MenuItemForm }.

Definition apply_edits (edits : list Edit) (st : Store) : Store :=
  fold_left (fun acc e =>
               snd (edit_menu_item (edit_env e) (edit_user e) (edit_restaurant e)
                                   (edit_item e) (edit_form e) acc))
            edits st.

(** *** The scenario of the specification

    User 5 holds 3 of item 1 (restaurant 1, 10.00) and 1 of item 2
    (restaurant 2, 5.00). *)

Definition example_env (f : option nat) : Env :=
  mkEnv (fun k => 1000 + Z.of_nat k)
        (fun _ => "20260101120000000000"%string)
        (fun k => 100 + Z.of_nat k)
        f.

Definition example_catalog : DB :=
  mkDB [Restaurant.mk 1 7; Restaurant.mk 2 8]
       [MenuItem.mk 1 1000 true 1; MenuItem.mk 2 500 true 2]
       [] [] [].

Definition example_store : Store :=
  mkStore (set_cart [Cart.mk 1 3 5 1; Cart.mk 2 1 5 2] example_catalog)
          (mkSeqs 1 1 3).

(** The quantities of the order lines of [item] in orders created on the
    day [today]. *)
Definition day_quantities (today : Z) (item : MenuItem.t) (db : DB) : list Z :=
  quantities (filter (on_date today item) (join_Order db)).

Definition any_large (qs : list Z) : bool := existsb (fun q => q >? 10) qs.

(** A day with one order holding the given quantities of item 1. *)
Definition example_day (qs : list Z) : DB :=
  mkDB [Restaurant.mk 1 7] [MenuItem.mk 1 1000 true 1]
       [Order.mk 1 "ORD1" "pending" 0 (3 * microseconds_per_day + 5)
                 (3 * microseconds_per_day + 5) 5 1]
       (map (fun q => OrderItem.mk 1 q 1000 1 1) qs)
       [].

(** [order.status = new_status] and [order.updated_at = now] on one row. *)
Definition with_status (new_status : string) (now : Z) (o : Order.t) : Order.t :=
  Order.mk (Order.id o) (Order.order_number o) new_status (Order.total_amount o)
           (Order.created_at o) now (Order.customer_id o) (Order.restaurant_id o).

(** A delivered order of restaurant 1, whose owner is user 7. *)
Definition example_delivered : Store :=
  mkStore
    (set_orders [Order.mk 1 "ORD1" "delivered" 3000 10 20 5 1] example_catalog)
    (mkSeqs 2 1 1).

(** At most one cart row per (user_id, menu_item_id). *)
Definition cart_unique (db : DB) : Prop :=
  forall uid mid,
    (List.length (filter (cart_of uid mid) (cart db)) <= 1)%nat.

(** One request to [add_to_cart]. *)
Record AddCall := mkAddCall {
  add_env : Env;
  add_user : Z;
  add_item : Z;
  add_quantity : Z }.

Definition run_adds (calls : list AddCall) (st : Store) : Store :=
  fold_left (fun acc c =>
               snd (add_to_cart (add_env c) (add_user c) (add_item c)
                                (add_quantity c) acc))
            calls st.

Definition add_failed : json := jsonify false "Error adding item to cart".

Definition item_added : json := jsonify true "Item added to cart!".

(** [existing_cart_item.quantity += quantity] on the rows with one id. *)
Definition bump_quantity (cid new_quantity : Z) (c : Cart.t) : Cart.t :=
  if Cart.id c =? cid
  then Cart.mk (Cart.id c) new_quantity (Cart.user_id c) (Cart.menu_item_id c)
  else c.

(** The catalog with an empty cart, and item 3 of restaurant 1 that is
    not available. *)
Definition example_empty_cart : Store :=
  mkStore
    (set_menu_items
       [MenuItem.mk 1 1000 true 1; MenuItem.mk 2 500 true 2;
        MenuItem.mk 3 700 false 1] example_catalog)
    (mkSeqs 1 1 1).

(** * More of the routes and helpers *)

(** ** routes/customer.py: remove_from_cart and view_cart;
       utils.py: get_cart_total *)

Definition remove_from_cart_body (env : Env) (current_user cart_item_id : Z)
  : M string :=
  cart_item <- or_404 (Cart_get cart_item_id) ;;
  if negb (Cart.user_id cart_item =? current_user)
  then ret "Unauthorized access."%string
  else
    delete_cart_row env (Cart.id cart_item) ;;;
    commit env ;;;
    ret "Item removed from cart."%string.

(** The answer is the flashed message. *)
Definition remove_from_cart (env : Env) (current_user cart_item_id : Z)
  (st : Store) : string * Store :=
  match remove_from_cart_body env current_user cart_item_id (begin_request st) with
  | (Ok flash, s) => (flash, end_request s)
  | (Raise _, s) => ("Error removing item from cart."%string, end_request s)
  end.

Definition get_cart_total (user_id : Z) : M Z :=
  cart_items <- query (fun db => filter (cart_of_user user_id) (cart db)) ;;
  sum_prices cart_items 0.

(** [view_cart] renders the rows and their total, or flashes an error. *)
Definition view_cart (current_user : Z) (st : Store) : option (list Cart.t * Z) :=
  match
    (cart_items <- query (fun db => filter (cart_of_user current_user) (cart db)) ;;
     total <- sum_prices cart_items 0 ;;
     ret (cart_items, total)) (begin_request st)
  with
  | (Ok r, _) => Some r
  | (Raise _, _) => None
  end.

(** ** routes/restaurant.py: delete_menu_item and delete_restaurant *)

Definition set_restaurants (l : list Restaurant.t) (db : DB) : DB :=
  mkDB l (menu_items db) (orders db) (order_items db) (cart db).

Definition delete_menu_item_row (env : Env) (mid : Z) : M unit :=
  write env (fun _ sq db =>
    (set_menu_items (filter (fun m => negb (MenuItem.id m =? mid))
                            (menu_items db)) db, sq)).

Definition delete_restaurant_row (env : Env) (rid : Z) : M unit :=
  write env (fun _ sq db =>
    (set_restaurants (filter (fun r => negb (Restaurant.id r =? rid))
                             (restaurants db)) db, sq)).

Definition delete_menu_item_body (env : Env)
  (current_user restaurant_id item_id : Z) : M string :=
  restaurant <- or_404 (Restaurant_get restaurant_id) ;;
  menu_item <- or_404 (MenuItem_get item_id) ;;
  if negb (Restaurant.owner_id restaurant =? current_user)
     || negb (MenuItem.restaurant_id menu_item =? Restaurant.id restaurant)
  then ret "Unauthorized access."%string
  else
    existing_orders <-
      query (fun db =>
               Z.of_nat (List.length
                 (filter (fun oi => OrderItem.menu_item_id oi
                                    =? MenuItem.id menu_item)
                         (order_items db)))) ;;
    if existing_orders >? 0
    then ret "Cannot delete this menu item because it is part of existing orders."%string
    else
      delete_menu_item_row env (MenuItem.id menu_item) ;;;
      commit env ;;;
      ret "Menu item deleted successfully!"%string.

Definition delete_menu_item (env : Env) (current_user restaurant_id item_id : Z)
  (st : Store) : string * Store :=
  match delete_menu_item_body env current_user restaurant_id item_id
          (begin_request st) with
  | (Ok flash, s) => (flash, end_request s)
  | (Raise _, s) => ("Error deleting menu item."%string, end_request s)
  end.

(** [for item in menu_items: db.session.delete(item)]. *)
Fixpoint delete_menu_items (env : Env) (items : list MenuItem.t) : M unit :=
  match items with
  | [] => ret tt
  | item :: rest =>
      delete_menu_item_row env (MenuItem.id item) ;;;
      delete_menu_items env rest
  end.

Definition delete_restaurant_body (env : Env) (current_user restaurant_id : Z)
  : M string :=
  restaurant <- or_404 (Restaurant_get restaurant_id) ;;
  if negb (Restaurant.owner_id restaurant =? current_user)
  then ret "Unauthorized access."%string
  else
    existing_orders <-
      query (fun db =>
               Z.of_nat (List.length
                 (filter (fun o => Order.restaurant_id o
                                   =? Restaurant.id restaurant)
                         (orders db)))) ;;
    if existing_orders >? 0
    then ret "Cannot delete this restaurant because it has existing orders."%string
    else
      items <- query (fun db =>
                 filter (fun m => MenuItem.restaurant_id m
                                  =? Restaurant.id restaurant)
                        (menu_items db)) ;;
      delete_menu_items env items ;;;
      delete_restaurant_row env (Restaurant.id restaurant) ;;;
      commit env ;;;
      ret "Restaurant deleted successfully."%string.

Definition delete_restaurant (env : Env) (current_user restaurant_id : Z)
  (st : Store) : string * Store :=
  match delete_restaurant_body env current_user restaurant_id
          (begin_request st) with
  | (Ok flash, s) => (flash, end_request s)
  | (Raise _, s) => ("Error deleting restaurant."%string, end_request s)
  end.

(** ** routes/restaurant.py: dashboard, the revenue of one restaurant *)

Definition total_revenue (restaurant : Restaurant.t) (db : DB) : Z :=
  py_or (func_sum (map Order.total_amount
                       (filter (fun o => Order.restaurant_id o
                                         =? Restaurant.id restaurant)
                               (orders db)))) 0.

(** ** utils.py *)

Definition progress_map : list (string * Z) :=
  [("pending", 20); ("confirmed", 40); ("preparing", 60); ("ready", 80);
   ("delivered", 100); ("cancelled", 0)]%string.

(** [d.get(key, default)]. *)
Definition dict_get (key : string) (d : list (string * Z)) (default : Z) : Z :=
  match find (fun p => String.eqb (fst p) key) d with
  | Some p => snd p
  | None => default
  end.

Definition get_order_status_progress (status : string) : Z :=
  dict_get status progress_map 0.

(** [s.replace(old, new)] for a one-character [old], on the bytes of the
    text: a byte below 128 is never part of a longer UTF-8 sequence. *)
Fixpoint replace_char (old : Ascii.ascii) (new : string) (s : string) : string :=
  match s with
  | EmptyString => EmptyString
  | String c rest =>
      if Ascii.eqb c old
      then (new ++ replace_char old new rest)%string
      else String c (replace_char old new rest)
  end.

Definition amp : Ascii.ascii := Ascii.ascii_of_nat 38.
Definition lt_sign : Ascii.ascii := Ascii.ascii_of_nat 60.
Definition gt_sign : Ascii.ascii := Ascii.ascii_of_nat 62.
Definition double_quote : Ascii.ascii := Ascii.ascii_of_nat 34.
Definition single_quote : Ascii.ascii := Ascii.ascii_of_nat 39.

(** [sanitize_input]; [None] and the empty text are falsy. *)
Definition sanitize_input (text : option string) : string :=
  match text with
  | None => EmptyString
  | Some EmptyString => EmptyString
  | Some t =>
      replace_char single_quote "&#x27;"
        (replace_char double_quote "&quot;"
           (replace_char gt_sign "&gt;"
              (replace_char lt_sign "&lt;"
                 (replace_char amp "&amp;" t))))
  end.

(** * More vocabulary *)

(** A request on the cart. *)
Inductive CartOp :=
| OpAdd (env : Env) (user item quantity : Z)
| OpUpdate (env : Env) (user cart_item quantity : Z)
| OpRemove (env : Env) (user cart_item : Z).

Definition run_cart_op (op : CartOp) (st : Store) : Store :=
  match op with
  | OpAdd env u m q => snd (add_to_cart env u m q st)
  | OpUpdate env u c q => snd (update_cart env u c q st)
  | OpRemove env u c => snd (remove_from_cart env u c st)
  end.

Definition run_cart_ops (ops : list CartOp) (st : Store) : Store :=
  fold_left (fun acc op => run_cart_op op acc) ops st.

(** The cart rows whose menu item is in the catalog. *)
Definition resolvable (db : DB) (item : Cart.t) : bool :=
  match MenuItem_get (Cart.menu_item_id item) db with
  | Some _ => true
  | None => false
  end.

(** The sum of [f] over the rows of a dict of cart rows, and over the rows
    under one key. *)
Definition dict_sum (f : Cart.t -> Z) (d : list (Z * list Cart.t)) : Z :=
  zsum (map (fun g => zsum (map f (snd g))) d).

Definition dict_sum_at (rid : Z) (f : Cart.t -> Z) (d : list (Z * list Cart.t))
  : Z :=
  zsum (map (fun g => if fst g =? rid then zsum (map f (snd g)) else 0) d).

(** The number of writes of a successful placement: one per order, one per
    order line, the deletion of the cart and the commit. *)
Definition placement_writes (db : DB) (uid : Z) : nat :=
  List.length (nodup Z.eq_dec (restaurants_in_cart db uid))
  + List.length (filter (cart_of_user uid) (cart db)) + 2.

(** Every order line names a menu item of the catalog. *)
Definition lines_resolve (db : DB) : Prop :=
  Forall (fun oi => MenuItem_get (OrderItem.menu_item_id oi) db <> None)
         (order_items db).

(** Every order is an order of a restaurant of the catalog. *)
Definition orders_resolve (db : DB) : Prop :=
  Forall (fun o => Restaurant_get (Order.restaurant_id o) db <> None)
         (orders db).

Definition special_chars : list Ascii.ascii :=
  [lt_sign; gt_sign; double_quote; single_quote].

Fixpoint string_has (c : Ascii.ascii) (s : string) : bool :=
  match s with
  | EmptyString => false
  | String x rest => Ascii.eqb x c || string_has c rest
  end.

(** A computation under which the auto-increment counter of [orders]
    never goes back. *)
Definition order_seq_grows {A} (m : M A) : Prop :=
  forall s r s', m s = (r, s') -> order_seq (autoinc s) <= order_seq (autoinc s').

(** The writes [from], [from + 1], ..., [from + n - 1] of a request are
    accepted. *)
Definition writes_accepted (env : Env) (from n : nat) : Prop :=
  forall k, (from <= k < from + n)%nat -> fault_at env k = false.

(** A cart row of user 5 for a menu item that is not in the catalog. *)
Definition example_dangling : Store :=
  mkStore (set_cart [Cart.mk 1 3 5 1; Cart.mk 2 1 5 9] example_catalog)
          (mkSeqs 1 1 3).

(** What a status update must not change in an order. *)
Definition order_core (o : Order.t) : Z * string * Z * Z * Z * Z :=
  (Order.id o, Order.order_number o, Order.total_amount o, Order.created_at o,
   Order.customer_id o, Order.restaurant_id o).

(** The catalog with one order of restaurant 1 and its line of item 1. *)
Definition example_ordered : Store :=
  mkStore
    (set_order_items [OrderItem.mk 1 3 1000 1 1]
       (set_orders [Order.mk 1 "ORD1" "pending" 3000 10 10 5 1] example_catalog))
    (mkSeqs 2 2 1).

(** The five replacements of [sanitize_input], in its order. *)
Definition escape_all (t : string) : string :=
  replace_char single_quote "&#x27;"
    (replace_char double_quote "&quot;"
       (replace_char gt_sign "&gt;"
          (replace_char lt_sign "&lt;"
             (replace_char amp "&amp;" t)))).
(** * Properties *)

(** ** Running the session monad *)

Lemma bind_Ok {A B} (m : M A) (f : A -> M B) s b s' :
  bind m f s = (Ok b, s') ->
  exists a s1, m s = (Ok a, s1) /\ f a s1 = (Ok b, s').
Proof.
  unfold bind. destruct (m s) as [[a|e] s1]; intros H.
  - exists a, s1. split; [reflexivity | exact H].
  - discriminate H.
Qed.

Lemma bind_Raise {A B} (m : M A) (f : A -> M B) s e s' :
  bind m f s = (Raise e, s') ->
  m s = (Raise e, s') \/ exists a s1, m s = (Ok a, s1) /\ f a s1 = (Raise e, s').
Proof.
  unfold bind. destruct (m s) as [[a|e0] s1]; intros H.
  - right. exists a, s1. split; [reflexivity | exact H].
  - left. inversion H. reflexivity.
Qed.

Lemma keeps_ret {A} (a : A) : keeps_committed (ret a).
Proof. intros s r s' H. inversion H. reflexivity. Qed.

Lemma keeps_raise {A} (e : Exc) : keeps_committed (@raise A e).
Proof. intros s r s' H. inversion H. reflexivity. Qed.

Lemma keeps_query {A} (q : DB -> A) : keeps_committed (query q).
Proof. intros s r s' H. inversion H. reflexivity. Qed.

Lemma keeps_bind {A B} (m : M A) (f : A -> M B) :
  keeps_committed m -> (forall a, keeps_committed (f a)) ->
  keeps_committed (bind m f).
Proof.
  intros Hm Hf s r s'. unfold bind.
  destruct (m s) as [[a|e] s1] eqn:E; intros H.
  - rewrite (Hf a _ _ _ H). exact (Hm _ _ _ E).
  - inversion H; subst. exact (Hm _ _ _ E).
Qed.

Lemma keeps_written : keeps_committed written.
Proof. intros s r s' H. inversion H. reflexivity. Qed.

Lemma keeps_next_order_id : keeps_committed next_order_id.
Proof. intros s r s' H. inversion H. reflexivity. Qed.

Section RequestFacts.

Variable env : Env.

Lemma keeps_write upd : keeps_committed (write env upd).
Proof.
  intros s r s'. unfold write.
  destruct (fault_at env (step s)).
  - intros H. inversion H. reflexivity.
  - destruct (upd (step s) (autoinc s) (working s)) as [db sq].
    intros H. inversion H. reflexivity.
Qed.

Lemma keeps_menu_item_of item : keeps_committed (menu_item_of item).
Proof.
  apply keeps_bind; [apply keeps_query|].
  intros [m|]; [apply keeps_ret | apply keeps_raise].
Qed.

Lemma keeps_group_by_restaurant items :
  forall d, keeps_committed (group_by_restaurant items d).
Proof.
  induction items as [|item rest IH]; intros d; simpl.
  - apply keeps_ret.
  - apply keeps_bind; [apply keeps_menu_item_of | intros m; apply IH].
Qed.

Lemma keeps_sum_prices items : forall acc, keeps_committed (sum_prices items acc).
Proof.
  induction items as [|item rest IH]; intros acc; simpl.
  - apply keeps_ret.
  - apply keeps_bind; [apply keeps_menu_item_of | intros m; apply IH].
Qed.

Lemma keeps_add_order_items oid items :
  keeps_committed (add_order_items env oid items).
Proof.
  induction items as [|item rest IH]; simpl.
  - apply keeps_ret.
  - apply keeps_bind; [apply keeps_menu_item_of | intros m].
    apply keeps_bind; [apply keeps_write | intros _; exact IH].
Qed.

Lemma keeps_insert_order number total uid rid :
  keeps_committed (insert_order env number total uid rid).
Proof.
  apply keeps_bind; [apply keeps_next_order_id | intros oid].
  apply keeps_bind; [apply keeps_write | intros _; apply keeps_ret].
Qed.

Lemma keeps_create_orders uid groups :
  keeps_committed (create_orders env uid groups).
Proof.
  induction groups as [|[rid items] rest IH]; simpl.
  - apply keeps_ret.
  - apply keeps_bind; [apply keeps_written | intros k].
    apply keeps_bind; [apply keeps_sum_prices | intros total].
    apply keeps_bind; [apply keeps_insert_order | intros oid].
    apply keeps_bind; [apply keeps_add_order_items | intros _; exact IH].
Qed.

(** When [commit] raises, nothing was committed. *)
Lemma commit_Raise s e s' :
  commit env s = (Raise e, s') -> s' = s.
Proof.
  unfold commit. destruct (fault_at env (step s)); intros H; inversion H.
  reflexivity.
Qed.

Lemma commit_Ok s u s' :
  commit env s = (Ok u, s') ->
  fault_at env (step s) = false /\
  s' = mkSession (working s) (working s) (autoinc s) (S (step s)).
Proof.
  unfold commit. destruct (fault_at env (step s)); intros H; inversion H.
  split; reflexivity.
Qed.

Lemma keeps_place_order_writes uid items :
  keeps_committed (place_order_writes env uid items).
Proof.
  apply keeps_bind; [apply keeps_group_by_restaurant | intros d].
  apply keeps_bind; [apply keeps_create_orders | intros _; apply keeps_write].
Qed.

Lemma place_order_body_nonempty uid s c l :
  filter (cart_of_user uid) (cart (working s)) = c :: l ->
  place_order_body env uid s =
  (place_order_writes env uid (c :: l) ;;;
   commit env ;;;
   ret (jsonify true "Order placed successfully!")) s.
Proof.
  intros H. unfold place_order_body, place_order_writes, bind at 1, query.
  rewrite H. unfold bind.
  destruct (group_by_restaurant (c :: l) [] s) as [[d|e] s1]; [|reflexivity].
  destruct (create_orders env uid d s1) as [[u|e] s2]; [|reflexivity].
  destruct (delete_cart_of_user env uid s2) as [[u'|e] s3]; reflexivity.
Qed.

Lemma place_order_body_empty uid s :
  filter (cart_of_user uid) (cart (working s)) = [] ->
  place_order_body env uid s = (Ok (jsonify false "Your cart is empty."), s).
Proof.
  intros H. unfold place_order_body, bind, query. rewrite H. reflexivity.
Qed.

(** An exception anywhere in the body leaves the committed tables alone. *)
Lemma place_order_body_Raise uid s e s' :
  place_order_body env uid s = (Raise e, s') -> committed s' = committed s.
Proof.
  destruct (filter (cart_of_user uid) (cart (working s))) as [|c l] eqn:E.
  - rewrite (place_order_body_empty _ _ E). discriminate.
  - rewrite (place_order_body_nonempty _ _ _ _ E). intros H.
    apply bind_Raise in H. destruct H as [H | (u & s1 & H1 & H)].
    + exact (keeps_place_order_writes _ _ _ _ _ H).
    + apply bind_Raise in H. destruct H as [H | (u' & s2 & H2 & H)].
      * apply commit_Raise in H. subst s'.
        exact (keeps_place_order_writes _ _ _ _ _ H1).
      * discriminate H.
Qed.

End RequestFacts.

(** ** What a successful [place_order] writes *)

Lemma menu_item_of_Ok item s m s' :
  menu_item_of item s = (Ok m, s') ->
  s' = s /\ MenuItem_get (Cart.menu_item_id item) (working s) = Some m.
Proof.
  unfold menu_item_of, bind, query.
  destruct (MenuItem_get (Cart.menu_item_id item) (working s)) as [m0|];
    cbn; intros H; inversion H; subst; auto.
Qed.

Lemma setdefault_append_keys rid item d r :
  In r (map fst (setdefault_append rid item d)) <-> r = rid \/ In r (map fst d).
Proof.
  induction d as [|[k v] d IH]; simpl.
  - intuition.
  - destruct (k =? rid) eqn:E; simpl.
    + apply Z.eqb_eq in E. subst k. intuition.
    + rewrite IH. intuition.
Qed.

Lemma setdefault_append_NoDup rid item d :
  NoDup (map fst d) -> NoDup (map fst (setdefault_append rid item d)).
Proof.
  induction d as [|[k v] d IH]; simpl; intros H.
  - constructor; [intros [] | constructor].
  - inversion H as [|? ? Hk Hd]; subst.
    destruct (k =? rid) eqn:E; simpl.
    + constructor; assumption.
    + constructor; [|auto].
      rewrite setdefault_append_keys. intros [->|Hin]; [|contradiction].
      rewrite Z.eqb_refl in E. discriminate.
Qed.

Lemma setdefault_append_grouped db rid item d :
  restaurant_of_item db item = Some rid ->
  grouped db d -> grouped db (setdefault_append rid item d).
Proof.
  intros Hr [Hnd Hall]. split; [apply setdefault_append_NoDup, Hnd|].
  clear Hnd. induction d as [|[k v] d IH]; simpl.
  - constructor; [|constructor]. simpl. split; [discriminate|].
    constructor; [exact Hr | constructor].
  - inversion Hall as [|? ? [Hne Hv] Hd]; subst. simpl in *.
    destruct (k =? rid) eqn:E.
    + apply Z.eqb_eq in E. subst k. constructor; [|exact Hd]. simpl. split.
      * destruct v; discriminate.
      * apply Forall_app. split; [exact Hv|]. constructor; [exact Hr|constructor].
    + constructor; [simpl; auto | auto].
Qed.

Lemma group_by_restaurant_Ok db items :
  forall d s d' s',
    working s = db -> grouped db d ->
    group_by_restaurant items d s = (Ok d', s') ->
    s' = s /\ grouped db d' /\
    (forall r, In r (map fst d') <->
               In r (map fst d) \/
               exists item, In item items /\ restaurant_of_item db item = Some r) /\
    Forall (fun item => exists r, restaurant_of_item db item = Some r) items.
Proof.
  induction items as [|item rest IH]; intros d s d' s' Hw Hg H; simpl in H.
  - inversion H; subst. split; [reflexivity|]. split; [exact Hg|].
    split; [|constructor].
    intros r. split; [auto|]. intros [Hin|(x & [] & _)]. exact Hin.
  - apply bind_Ok in H. destruct H as (m & s1 & Hm & H).
    apply menu_item_of_Ok in Hm. destruct Hm as [-> Hm]. rewrite Hw in Hm.
    assert (Hr : restaurant_of_item db item = Some (MenuItem.restaurant_id m)).
    { unfold restaurant_of_item. rewrite Hm. reflexivity. }
    destruct (IH _ _ _ _ Hw (setdefault_append_grouped _ _ _ _ Hr Hg) H)
      as (-> & Hg' & Hk & Hall).
    split; [reflexivity|]. split; [exact Hg'|].
    split; [|constructor; [eexists; exact Hr | exact Hall]].
    intros r. rewrite Hk, setdefault_append_keys. split.
    + intros [[->|Hin]|(x & Hx & Hxr)].
      * right. exists item. split; [left; reflexivity | exact Hr].
      * left. exact Hin.
      * right. exists x. split; [right; exact Hx | exact Hxr].
    + intros [Hin|(x & [<-|Hx] & Hxr)].
      * left. right. exact Hin.
      * left. left. congruence.
      * right. exists x. split; assumption.
Qed.

Lemma sum_prices_Ok items :
  forall acc s t s',
    sum_prices items acc s = (Ok t, s') ->
    s' = s /\ t = acc + zsum (map (line_total (working s)) items).
Proof.
  induction items as [|item rest IH]; intros acc s t s' H; simpl in H.
  - inversion H; subst. simpl. split; [reflexivity | lia].
  - apply bind_Ok in H. destruct H as (m & s1 & Hm & H).
    apply menu_item_of_Ok in Hm. destruct Hm as [-> Hm].
    apply IH in H. destruct H as [-> ->]. split; [reflexivity|].
    simpl. unfold line_total at 2. rewrite Hm. lia.
Qed.

Lemma MenuItem_get_same mid db db' :
  menu_items db' = menu_items db -> MenuItem_get mid db' = MenuItem_get mid db.
Proof. unfold MenuItem_get. intros ->. reflexivity. Qed.

Lemma line_of_same db db' oid item oi :
  menu_items db' = menu_items db -> line_of db' oid item oi -> line_of db oid item oi.
Proof.
  intros E (H1 & H2 & H3 & m & H4 & H5). repeat split; try assumption.
  exists m. rewrite <- (MenuItem_get_same _ _ _ E). auto.
Qed.

Lemma order_of_same db db' uid g c :
  menu_items db' = menu_items db -> order_of db' uid g c -> order_of db uid g c.
Proof.
  intros E (H1 & H2 & H3 & H4 & H5). repeat split; try assumption.
  eapply Forall2_impl; [|exact H4]. intros a b. apply line_of_same, E.
Qed.

Lemma line_of_total db oid items ois :
  Forall2 (line_of db oid) items ois ->
  zsum (map (line_total db) items) = order_lines_total ois.
Proof.
  unfold order_lines_total.
  induction 1 as [|item oi items ois (_ & _ & Hq & m & Hm & Hp) _ IH]; simpl.
  - reflexivity.
  - rewrite IH. unfold line_total. rewrite Hm, Hp, Hq. reflexivity.
Qed.

Lemma z_seq_bounds start n i : In i (z_seq start n) -> start <= i < start + Z.of_nat n.
Proof.
  revert start. induction n as [|n IH]; intros start; simpl.
  - intros [].
  - intros [<-|H]; [lia|]. apply IH in H. lia.
Qed.

Lemma z_seq_NoDup start n : NoDup (z_seq start n).
Proof.
  revert start. induction n as [|n IH]; intros start; simpl; constructor.
  - intros H. apply z_seq_bounds in H. lia.
  - apply IH.
Qed.

Lemma z_seq_length start n : List.length (z_seq start n) = n.
Proof. revert start. induction n; intros; simpl; auto. Qed.

Section PlacementFacts.

Variable env : Env.

Lemma write_Ok upd s u s' :
  write env upd s = (Ok u, s') ->
  fault_at env (step s) = false /\
  s' = mkSession (committed s)
                 (fst (upd (step s) (autoinc s) (working s)))
                 (snd (upd (step s) (autoinc s) (working s)))
                 (S (step s)).
Proof.
  unfold write. destruct (fault_at env (step s)); [discriminate|].
  destruct (upd (step s) (autoinc s) (working s)) as [db sq].
  intros H. inversion H. split; reflexivity.
Qed.

Lemma add_order_items_Ok oid items :
  forall s u s',
    add_order_items env oid items s = (Ok u, s') ->
    exists ois,
      Forall2 (line_of (working s) oid) items ois /\
      working s' = set_order_items (order_items (working s) ++ ois) (working s) /\
      committed s' = committed s /\
      order_seq (autoinc s') = order_seq (autoinc s).
Proof.
  induction items as [|item rest IH]; intros s u s' H; simpl in H.
  - inversion H; subst. exists []. split; [constructor|].
    rewrite app_nil_r. destruct (working s'); auto.
  - apply bind_Ok in H. destruct H as (m & s1 & Hm & H).
    apply menu_item_of_Ok in Hm. destruct Hm as [-> Hm].
    apply bind_Ok in H. destruct H as (u1 & s2 & Hw & H).
    apply write_Ok in Hw. destruct Hw as [_ ->].
    apply IH in H. destruct H as (ois & Hl & Hwk & Hc & Hs). cbn in *.
    exists (OrderItem.mk (order_item_seq (autoinc s)) (Cart.quantity item)
                         (MenuItem.price m) oid (Cart.menu_item_id item) :: ois).
    split; [constructor|].
    + unfold line_of. cbn. do 3 (split; [reflexivity|]).
      exists m. split; [exact Hm | reflexivity].
    + eapply Forall2_impl; [|exact Hl]. intros a b.
      apply line_of_same. reflexivity.
    + rewrite Hwk, Hc, Hs. destruct (working s). cbn.
      rewrite <- app_assoc. auto.
Qed.

Lemma insert_order_Ok number total uid rid s oid s' :
  insert_order env number total uid rid s = (Ok oid, s') ->
  oid = order_seq (autoinc s) /\
  s' = mkSession (committed s)
         (set_orders (orders (working s) ++
                      [Order.mk oid number "pending" total
                                (utcnow env (step s)) (utcnow env (step s))
                                uid rid]) (working s))
         (mkSeqs (oid + 1) (order_item_seq (autoinc s)) (cart_seq (autoinc s)))
         (S (step s)).
Proof.
  unfold insert_order. intros H.
  apply bind_Ok in H. destruct H as (i & s1 & Hi & H). inversion Hi; subst.
  apply bind_Ok in H. destruct H as (u & s2 & Hw & H).
  apply write_Ok in Hw. destruct Hw as [_ ->]. inversion H; subst.
  split; reflexivity.
Qed.

Lemma create_orders_Ok uid groups :
  forall s u s',
    create_orders env uid groups s = (Ok u, s') ->
    exists created,
      Forall2 (order_of (working s) uid) groups created /\
      map (fun c => Order.id (fst c)) created =
        z_seq (order_seq (autoinc s)) (List.length groups) /\
      working s' =
        set_order_items (order_items (working s) ++ List.concat (map snd created))
          (set_orders (orders (working s) ++ map fst created) (working s)) /\
      order_seq (autoinc s') = order_seq (autoinc s) + Z.of_nat (List.length groups).
Proof.
  induction groups as [|[rid items] rest IH]; intros s u s' H; simpl in H.
  - inversion H; subst. exists []. split; [constructor|]. split; [reflexivity|].
    cbn [map List.concat List.length]. rewrite !app_nil_r. destruct (working s').
    split; [reflexivity | cbn; lia].
  - apply bind_Ok in H. destruct H as (k & s1 & Hk & H). inversion Hk; subst.
    apply bind_Ok in H. destruct H as (total & s2 & Ht & H).
    apply sum_prices_Ok in Ht. destruct Ht as [-> Ht].
    apply bind_Ok in H. destruct H as (oid & s3 & Ho & H).
    apply insert_order_Ok in Ho. destruct Ho as [Hoid ->].
    apply bind_Ok in H. destruct H as (u1 & s4 & Ha & H).
    apply add_order_items_Ok in Ha.
    destruct Ha as (ois & Hl & Hwk & _ & Hs4). cbn in Hl, Hwk, Hs4.
    apply IH in H. destruct H as (created & Hf & Hids & Hwk' & Hs').
    assert (Hl1 : Forall2 (line_of (working s1) oid) items ois).
    { eapply Forall2_impl; [|exact Hl]. intros a b.
      apply line_of_same. reflexivity. }
    exists ((Order.mk oid
               ("ORD" ++ strftime_now env (step s1) ++ str uid
                      ++ str (randint env (step s1)))%string
               "pending" total (utcnow env (step s1)) (utcnow env (step s1))
               uid rid, ois) :: created).
    split; [constructor|].
    + unfold order_of. cbn. do 3 (split; [reflexivity|]).
      split; [exact Hl1|].
      rewrite Ht, (line_of_total _ _ _ _ Hl1). reflexivity.
    + eapply Forall2_impl; [|exact Hf]. intros a b. apply order_of_same.
      rewrite Hwk. reflexivity.
    + split; [|split].
      * cbn. rewrite Hids, Hs4, Hoid. reflexivity.
      * rewrite Hwk', Hwk. destruct (working s1). cbn.
        rewrite <- !app_assoc. reflexivity.
      * rewrite Hs', Hs4. cbn [List.length]. lia.
Qed.

End PlacementFacts.

Lemma end_begin_request st : end_request (begin_request st) = st.
Proof. destruct st. reflexivity. Qed.

(** The three ways a call of [place_order] ends. *)
Lemma place_order_cases env uid st :
  (filter (cart_of_user uid) (cart (tables st)) = [] /\
   place_order env uid st = (cart_is_empty, st))
  \/
  (filter (cart_of_user uid) (cart (tables st)) <> [] /\
   exists e s, place_order_body env uid (begin_request st) = (Raise e, s) /\
               place_order env uid st =
               (placement_failed, mkStore (tables st) (autoinc s)))
  \/
  (filter (cart_of_user uid) (cart (tables st)) <> [] /\
   exists st' groups created,
     place_order env uid st = (order_placed, st') /\
     groups <> [] /\
     placement uid st st' groups created).
Proof.
  destruct (filter (cart_of_user uid) (cart (tables st))) as [|c l] eqn:E.
  - left. split; [reflexivity|]. unfold place_order.
    rewrite place_order_body_empty by exact E.
    rewrite end_begin_request. reflexivity.
  - right. unfold place_order.
    destruct (place_order_body env uid (begin_request st)) as [[resp|e] s] eqn:B.
    + right. split; [discriminate|].
      rewrite (place_order_body_nonempty env uid _ c l) in B by exact E.
      apply bind_Ok in B. destruct B as (u & s1 & Hw & B).
      apply bind_Ok in B. destruct B as (u' & s2 & Hc & B).
      inversion B; subst resp s2. clear B.
      apply commit_Ok in Hc. destruct Hc as [_ ->].
      unfold place_order_writes in Hw.
      apply bind_Ok in Hw. destruct Hw as (groups & s3 & Hg & Hw).
      apply (group_by_restaurant_Ok (tables st)) in Hg;
        [|reflexivity | split; [constructor | constructor]].
      destruct Hg as (-> & Hgr & Hkeys & Hall).
      apply bind_Ok in Hw. destruct Hw as (u2 & s4 & Ho & Hw).
      apply create_orders_Ok in Ho.
      destruct Ho as (created & Hf & Hids & Hwk & _).
      apply write_Ok in Hw. destruct Hw as [_ ->]. cbn in *.
      exists (end_request
                (mkSession
                   (set_cart (filter (fun c0 => negb (cart_of_user uid c0))
                                     (cart (working s4))) (working s4))
                   (set_cart (filter (fun c0 => negb (cart_of_user uid c0))
                                     (cart (working s4))) (working s4))
                   (autoinc s4) (S (S (step s4))))), groups, created.
      split; [reflexivity|]. split.
      * intros ->. inversion Hall as [|? ? [r Hr] _]; subst.
        apply (Hkeys r). right. exists c. split; [left; reflexivity | exact Hr].
      * unfold placement. split; [exact Hgr|]. split; [|split; [exact Hf|split]].
        -- intros r. rewrite Hkeys, E. cbn. split.
           ++ intros [[]|H]. exact H.
           ++ intros H. right. exact H.
        -- exact Hids.
        -- cbn. rewrite Hwk. destruct (tables st). reflexivity.
    + left. split; [discriminate|]. exists e, s. split; [reflexivity|].
      apply place_order_body_Raise in B. cbn in B.
      unfold end_request, rollback. cbn. rewrite B. reflexivity.
Qed.

Lemma place_order_placed env uid st st' :
  place_order env uid st = (order_placed, st') ->
  exists groups created, groups <> [] /\ placement uid st st' groups created.
Proof.
  intros H.
  destruct (place_order_cases env uid st)
    as [[_ E] | [(_ & e & s & _ & E) | (_ & st1 & g & c & E & Hne & Hp)]];
    rewrite E in H.
  - discriminate H.
  - discriminate H.
  - inversion H; subst. exists g, c. split; assumption.
Qed.

Lemma Forall2_pick_r {A B} (R : A -> B -> Prop) l l' b :
  Forall2 R l l' -> In b l' -> exists a, In a l /\ R a b.
Proof.
  induction 1 as [|x y l l' Hxy _ IH]; simpl.
  - intros [].
  - intros [<-|Hin].
    + exists x. auto.
    + destruct (IH Hin) as (a & Ha & HR). exists a. auto.
Qed.

Lemma order_of_restaurants db uid groups created :
  Forall2 (order_of db uid) groups created ->
  map Order.restaurant_id (map fst created) = map fst groups.
Proof.
  induction 1 as [|g c groups created (Hr & _) _ IH]; simpl.
  - reflexivity.
  - rewrite Hr, IH. reflexivity.
Qed.

Lemma order_of_lines db uid groups created :
  Forall2 (order_of db uid) groups created ->
  Forall (fun c => Forall (fun oi => OrderItem.order_id oi = Order.id (fst c))
                          (snd c)) created.
Proof.
  induction 1 as [|g c groups created (_ & _ & _ & Hl & _) _ IH];
    constructor; [|exact IH].
  clear - Hl. induction Hl as [|item oi items ois (Ho & _) _ IH];
    constructor; assumption.
Qed.

Lemma filter_none {A} (f : A -> bool) l :
  Forall (fun x => f x = false) l -> filter f l = [].
Proof.
  induction 1 as [|x l Hx _ IH]; simpl; [reflexivity|]. rewrite Hx. exact IH.
Qed.

Lemma filter_all {A} (f : A -> bool) l :
  Forall (fun x => f x = true) l -> filter f l = l.
Proof.
  induction 1 as [|x l Hx _ IH]; simpl; [reflexivity|]. rewrite Hx, IH.
  reflexivity.
Qed.

(** Among lines that carry the id of their own order, and orders with
    distinct ids, the lines found by foreign key are the order's own. *)
Lemma lines_of_created (created : list (Order.t * list OrderItem.t)) :
  NoDup (map (fun c => Order.id (fst c)) created) ->
  Forall (fun c => Forall (fun oi => OrderItem.order_id oi = Order.id (fst c))
                          (snd c)) created ->
  forall c, In c created ->
    filter (fun oi => OrderItem.order_id oi =? Order.id (fst c))
           (List.concat (map snd created)) = snd c.
Proof.
  induction created as [|c0 rest IH]; intros Hnd Hall c Hin; [destruct Hin|].
  simpl in *. inversion Hnd as [|? ? Hnotin Hnd']; subst.
  inversion Hall as [|? ? H0 Hrest]; subst.
  rewrite filter_app. destruct Hin as [->|Hin].
  - rewrite filter_all.
    + rewrite filter_none; [apply app_nil_r|].
      apply Forall_concat, Forall_map.
      rewrite Forall_forall in Hrest |- *. intros c1 Hc1.
      specialize (Hrest c1 Hc1). rewrite Forall_forall in Hrest |- *.
      intros oi Hoi. rewrite (Hrest oi Hoi). apply Z.eqb_neq. intros Heq.
      apply Hnotin. rewrite <- Heq.
      apply (in_map (fun c => Order.id (fst c))). exact Hc1.
    + eapply Forall_impl; [|exact H0]. intros oi ->. apply Z.eqb_refl.
  - rewrite filter_none.
    + simpl. apply IH; assumption.
    + eapply Forall_impl; [|exact H0]. intros oi ->. apply Z.eqb_neq.
      intros Heq. apply Hnotin. rewrite Heq.
      apply (in_map (fun c => Order.id (fst c))). exact Hin.
Qed.

(** After a placement the lines of a new order, found by foreign key in
    the tables, are the ones made for it. *)
Lemma order_lines_placed uid st st' groups created c :
  Store_wf st -> placement uid st st' groups created -> In c created ->
  order_lines (tables st') (fst c) = snd c.
Proof.
  intros [_ Hwf] (_ & _ & Hf & Hids & Ht) Hin.
  unfold order_lines. rewrite Ht. cbn. rewrite filter_app.
  rewrite filter_none.
  - simpl. apply lines_of_created.
    + rewrite Hids. apply z_seq_NoDup.
    + eapply order_of_lines, Hf.
    + exact Hin.
  - eapply Forall_impl; [|exact Hwf]. cbn. intros oi Hlt. apply Z.eqb_neq.
    assert (Hb : In (Order.id (fst c)) (z_seq (order_seq (seqs st))
                                              (List.length groups))).
    { rewrite <- Hids. apply (in_map (fun c => Order.id (fst c))). exact Hin. }
    apply z_seq_bounds in Hb. lia.
Qed.

Lemma in_restaurants_in_cart db uid r :
  In r (restaurants_in_cart db uid) <->
  exists item, In item (filter (cart_of_user uid) (cart db)) /\
               restaurant_of_item db item = Some r.
Proof.
  unfold restaurants_in_cart. rewrite in_flat_map. split.
  - intros (item & Hin & Hr). exists item. split; [exact Hin|].
    destruct (restaurant_of_item db item) as [r0|]; [|destruct Hr].
    destruct Hr as [->|[]]. reflexivity.
  - intros (item & Hin & Hr). exists item. split; [exact Hin|].
    rewrite Hr. left. reflexivity.
Qed.

Lemma filter_negb_filter {A} (f : A -> bool) l :
  filter f (filter (fun x => negb (f x)) l) = [].
Proof.
  induction l as [|x l IH]; simpl; [reflexivity|].
  destruct (f x) eqn:E; simpl; [exact IH|]. rewrite E. exact IH.
Qed.

(** ** Editing a menu item touches neither orders nor their lines *)

Lemma edit_menu_item_keeps_orders env uid rid mid form st :
  orders (tables (snd (edit_menu_item env uid rid mid form st))) =
    orders (tables st) /\
  order_items (tables (snd (edit_menu_item env uid rid mid form st))) =
    order_items (tables st).
Proof.
  unfold edit_menu_item, edit_menu_item_body, or_404, bind, query, ret, raise,
    update_menu_item, write, commit, begin_request, end_request, rollback.
  cbn.
  destruct (find _ (restaurants (tables st))); cbn; [|auto].
  destruct (find _ (menu_items (tables st))); cbn; [|auto].
  destruct (fault_at env 0); cbn; [auto|].
  destruct (fault_at env 1); cbn; auto.
Qed.

Lemma apply_edits_keeps_orders edits :
  forall st,
    orders (tables (apply_edits edits st)) = orders (tables st) /\
    order_items (tables (apply_edits edits st)) = order_items (tables st).
Proof.
  induction edits as [|e edits IH]; intros st; simpl; [auto|].
  destruct (IH (snd (edit_menu_item (edit_env e) (edit_user e)
                       (edit_restaurant e) (edit_item e) (edit_form e) st)))
    as [H1 H2].
  destruct (edit_menu_item_keeps_orders (edit_env e) (edit_user e)
              (edit_restaurant e) (edit_item e) (edit_form e) st) as [H3 H4].
  unfold apply_edits in *. rewrite H1, H2. auto.
Qed.

(** ** place_order: the claims *)

(** C1. Atomicity of [place_order].  If any step of the body raises (the
    insert of an order, the insert of an order line, the deletion of the
    cart, the commit, or the lookup of a menu item that is gone), the call
    answers with the generic placement failure and the visible tables are
    exactly the ones before the call: no order, no order line, and the cart
    untouched.  In every case either the tables are unchanged, or the call
    succeeded and the new orders, their lines and the empty cart of the user
    are visible together. *)
Theorem place_order_atomic env uid st resp st' :
  place_order env uid st = (resp, st') ->
  (forall e s,
      place_order_body env uid (begin_request st) = (Raise e, s) ->
      resp = placement_failed /\ tables st' = tables st) /\
  (tables st' = tables st \/
   resp = order_placed /\
   (exists created,
       created <> [] /\
       orders (tables st') = orders (tables st) ++ map fst created /\
       order_items (tables st') =
         order_items (tables st) ++ List.concat (map snd created)) /\
   filter (cart_of_user uid) (cart (tables st')) = []).
Proof.
  intros H. split.
  - intros e s B. unfold place_order in H. rewrite B in H.
    inversion H; subst. split; [reflexivity|]. cbn.
    exact (place_order_body_Raise _ _ _ _ _ B).
  - destruct (place_order_cases env uid st)
      as [[_ E] | [(_ & e & s & _ & E) | (_ & st1 & g & c & E & Hne & Hp)]];
      rewrite E in H; inversion H; subst.
    + left. reflexivity.
    + left. reflexivity.
    + right. split; [reflexivity|].
      destruct Hp as (_ & _ & Hf & _ & Ht). rewrite Ht. cbn. split.
      * exists c. split; [|split; reflexivity].
        intros ->. inversion Hf; subst. apply Hne. reflexivity.
      * apply filter_negb_filter.
Qed.

(** A storage fault on the third write, after the order and the line of the
    first of two restaurants were written. *)
Lemma place_order_atomic_witness :
  fst (place_order (example_env (Some 2%nat)) 5 example_store) = placement_failed /\
  tables (snd (place_order (example_env (Some 2%nat)) 5 example_store)) =
    tables example_store.
Proof.
  refine (proj1 (place_order_atomic (example_env (Some 2%nat)) 5 example_store
                   _ _ eq_refl) StorageFailure _ _).
  vm_compute. reflexivity.
Defined.

(** C2. One order per restaurant.  When the cart of the user is not empty
    and its rows come from exactly [n] distinct restaurants, a successful
    [place_order] appends exactly [n] orders, of pairwise different
    restaurants, which are the restaurants of the cart; every line of a new
    order is a menu item of the order's restaurant; and the user has no cart
    row left. *)
Theorem place_order_partitions env uid st st' n :
  Store_wf st ->
  filter (cart_of_user uid) (cart (tables st)) <> [] ->
  List.length (nodup Z.eq_dec (restaurants_in_cart (tables st) uid)) = n ->
  place_order env uid st = (order_placed, st') ->
  exists new_orders,
    orders (tables st') = orders (tables st) ++ new_orders /\
    List.length new_orders = n /\
    NoDup (map Order.restaurant_id new_orders) /\
    (forall r, In r (map Order.restaurant_id new_orders) <->
               In r (restaurants_in_cart (tables st) uid)) /\
    (forall o oi,
        In o new_orders -> In oi (order_lines (tables st') o) ->
        exists m,
          MenuItem_get (OrderItem.menu_item_id oi) (tables st') = Some m /\
          MenuItem.restaurant_id m = Order.restaurant_id o) /\
    filter (cart_of_user uid) (cart (tables st')) = [].
Proof.
  intros Hwf _ Hn H.
  destruct (place_order_placed _ _ _ _ H) as (groups & created & _ & Hp).
  pose proof Hp as ((Hnd & Hgr) & Hkeys & Hf & Hids & Ht).
  pose proof (order_of_restaurants _ _ _ _ Hf) as Hrs.
  exists (map fst created). split; [rewrite Ht; reflexivity|].
  assert (Hiff : forall r, In r (map fst groups) <->
                           In r (restaurants_in_cart (tables st) uid)).
  { intros r. rewrite Hkeys, in_restaurants_in_cart. reflexivity. }
  split; [|split; [|split; [|split]]].
  - rewrite <- Hn, length_map, <- (Forall2_length Hf), <- (length_map fst groups).
    apply Permutation_length, NoDup_Permutation.
    + exact Hnd.
    + apply NoDup_nodup.
    + intros r. rewrite nodup_In. apply Hiff.
  - rewrite Hrs. exact Hnd.
  - intros r. rewrite Hrs. apply Hiff.
  - intros o oi Ho Hoi. apply in_map_iff in Ho. destruct Ho as (c & <- & Hc).
    rewrite (order_lines_placed _ _ _ _ _ _ Hwf Hp Hc) in Hoi.
    destruct (Forall2_pick_r _ _ _ _ Hf Hc) as (g & Hg & Hr & _ & _ & Hl & _).
    destruct (Forall2_pick_r _ _ _ _ Hl Hoi)
      as (item & Hitem & _ & Hmid & _ & m & Hm & _).
    rewrite Forall_forall in Hgr. destruct (Hgr g Hg) as [_ Hitems].
    rewrite Forall_forall in Hitems. specialize (Hitems item Hitem).
    unfold restaurant_of_item in Hitems. rewrite Hm in Hitems.
    exists m. split.
    + rewrite Hmid, <- Hm. apply MenuItem_get_same. rewrite Ht. reflexivity.
    + rewrite Hr. cbn in Hitems. congruence.
  - rewrite Ht. cbn. apply filter_negb_filter.
Qed.

Lemma example_store_wf : Store_wf example_store.
Proof. split; constructor. Qed.

Lemma place_order_partitions_witness :
  exists new_orders,
    orders (tables (snd (place_order (example_env None) 5 example_store))) =
      orders (tables example_store) ++ new_orders /\
    List.length new_orders = 2%nat /\
    NoDup (map Order.restaurant_id new_orders) /\
    (forall r, In r (map Order.restaurant_id new_orders) <->
               In r (restaurants_in_cart (tables example_store) 5)) /\
    (forall o oi,
        In o new_orders ->
        In oi (order_lines
                 (tables (snd (place_order (example_env None) 5 example_store))) o) ->
        exists m,
          MenuItem_get (OrderItem.menu_item_id oi)
            (tables (snd (place_order (example_env None) 5 example_store))) =
            Some m /\
          MenuItem.restaurant_id m = Order.restaurant_id o) /\
    filter (cart_of_user 5)
      (cart (tables (snd (place_order (example_env None) 5 example_store)))) = [].
Proof.
  apply (place_order_partitions (example_env None) 5 example_store).
  - exact example_store_wf.
  - vm_compute. discriminate.
  - vm_compute. reflexivity.
  - vm_compute. reflexivity.
Defined.

(** C3. Totals and frozen prices.  For every order appended by a
    successful [place_order], [total_amount] is the sum of price times
    quantity over the order's lines; the price of each line is the price
    its menu item had in the catalog at the time of the call; and after any
    later edits of menu items (prices included) the order is still there
    with the same total and the same lines. *)
Theorem place_order_totals env uid st st' :
  Store_wf st ->
  place_order env uid st = (order_placed, st') ->
  exists new_orders,
    new_orders <> [] /\
    orders (tables st') = orders (tables st) ++ new_orders /\
    forall o, In o new_orders ->
      Order.total_amount o = order_lines_total (order_lines (tables st') o) /\
      (forall oi, In oi (order_lines (tables st') o) ->
         exists m,
           MenuItem_get (OrderItem.menu_item_id oi) (tables st) = Some m /\
           OrderItem.price oi = MenuItem.price m) /\
      (forall edits,
         In o (orders (tables (apply_edits edits st'))) /\
         order_lines (tables (apply_edits edits st')) o =
           order_lines (tables st') o /\
         Order.total_amount o =
           order_lines_total (order_lines (tables (apply_edits edits st')) o)).
Proof.
  intros Hwf H.
  destruct (place_order_placed _ _ _ _ H) as (groups & created & Hne & Hp).
  pose proof Hp as (_ & _ & Hf & _ & Ht).
  exists (map fst created). split; [|split; [rewrite Ht; reflexivity|]].
  { intros E. apply map_eq_nil in E. subst created. inversion Hf; subst.
    apply Hne. reflexivity. }
  intros o Ho. apply in_map_iff in Ho. destruct Ho as (c & <- & Hc).
  pose proof (order_lines_placed _ _ _ _ _ _ Hwf Hp Hc) as Hlines.
  destruct (Forall2_pick_r _ _ _ _ Hf Hc) as (g & Hg & _ & _ & _ & Hl & Htot).
  split; [rewrite Hlines; exact Htot|]. split.
  - intros oi Hoi. rewrite Hlines in Hoi.
    destruct (Forall2_pick_r _ _ _ _ Hl Hoi)
      as (item & _ & _ & Hmid & _ & m & Hm & Hprice).
    exists m. rewrite Hmid. auto.
  - intros edits. destruct (apply_edits_keeps_orders edits st') as [Eo Ei].
    assert (El : order_lines (tables (apply_edits edits st')) (fst c) =
                 order_lines (tables st') (fst c)).
    { unfold order_lines. rewrite Ei. reflexivity. }
    split; [|split; [exact El|]].
    + rewrite Eo, Ht. cbn. apply in_or_app. right. apply in_map. exact Hc.
    + rewrite El, Hlines. exact Htot.
Qed.

(** The scenario: totals 30.00 and 5.00, also after item 1 is repriced. *)
Lemma place_order_totals_witness :
  exists new_orders,
    new_orders <> [] /\
    orders (tables (snd (place_order (example_env None) 5 example_store))) =
      orders (tables example_store) ++ new_orders /\
    forall o, In o new_orders ->
      Order.total_amount o =
        order_lines_total
          (order_lines
             (tables (snd (place_order (example_env None) 5 example_store))) o) /\
      (forall oi,
         In oi (order_lines
                  (tables (snd (place_order (example_env None) 5 example_store)))
                  o) ->
         exists m,
           MenuItem_get (OrderItem.menu_item_id oi) (tables example_store) =
             Some m /\
           OrderItem.price oi = MenuItem.price m) /\
      (forall edits,
         In o (orders
                 (tables (apply_edits edits
                            (snd (place_order (example_env None) 5
                                    example_store))))) /\
         order_lines
           (tables (apply_edits edits
                      (snd (place_order (example_env None) 5 example_store)))) o =
           order_lines
             (tables (snd (place_order (example_env None) 5 example_store))) o /\
         Order.total_amount o =
           order_lines_total
             (order_lines
                (tables (apply_edits edits
                           (snd (place_order (example_env None) 5
                                   example_store)))) o)).
Proof.
  apply (place_order_totals (example_env None) 5 example_store).
  - exact example_store_wf.
  - vm_compute. reflexivity.
Defined.

(** C4, as the code has it.  With no cart row the call answers that the
    cart is empty and leaves the store as it is, so no order is created.
    With a cart row the call either answers with the success message and
    has appended at least one order, or answers with the generic failure
    and has changed no table.  The answer is never the list of the created
    order identifiers. *)
Theorem place_order_contract env uid st resp st' :
  place_order env uid st = (resp, st') ->
  (filter (cart_of_user uid) (cart (tables st)) = [] ->
   resp = cart_is_empty /\ st' = st) /\
  (filter (cart_of_user uid) (cart (tables st)) <> [] ->
   (resp = order_placed /\
    exists new_orders,
      new_orders <> [] /\
      orders (tables st') = orders (tables st) ++ new_orders)
   \/ (resp = placement_failed /\ tables st' = tables st)) /\
  (forall ids, resp <> JArr (map JNum ids)).
Proof.
  intros H.
  destruct (place_order_cases env uid st)
    as [[E0 E] | [(E0 & e & s & _ & E) | (E0 & st1 & g & c & E & Hne & Hp)]];
    rewrite E in H; inversion H; subst; clear H.
  - split; [auto|]. split; [intros X; contradiction | discriminate].
  - split; [intros X; contradiction|]. split; [|discriminate].
    intros _. right. auto.
  - split; [intros X; contradiction|]. split; [|discriminate].
    intros _. left. split; [reflexivity|].
    destruct Hp as (_ & _ & Hf & _ & Ht). exists (map fst c).
    split; [|rewrite Ht; reflexivity].
    intros X. apply map_eq_nil in X. subst c. inversion Hf; subst.
    apply Hne. reflexivity.
Qed.

Lemma place_order_contract_witness :
  (filter (cart_of_user 5) (cart (tables example_store)) = [] ->
   fst (place_order (example_env None) 5 example_store) = cart_is_empty /\
   snd (place_order (example_env None) 5 example_store) = example_store) /\
  (filter (cart_of_user 5) (cart (tables example_store)) <> [] ->
   (fst (place_order (example_env None) 5 example_store) = order_placed /\
    exists new_orders,
      new_orders <> [] /\
      orders (tables (snd (place_order (example_env None) 5 example_store))) =
        orders (tables example_store) ++ new_orders)
   \/ (fst (place_order (example_env None) 5 example_store) = placement_failed /\
       tables (snd (place_order (example_env None) 5 example_store)) =
         tables example_store)) /\
  (forall ids,
      fst (place_order (example_env None) 5 example_store) <>
      JArr (map JNum ids)).
Proof.
  apply (place_order_contract (example_env None) 5 example_store).
  vm_compute. reflexivity.
Defined.

(** C4 as it is worded fails: in the scenario the cart is not empty, the
    call succeeds and creates the orders 1 and 2, and what it returns is the
    success message, not the list of their identifiers. *)
Lemma place_order_returns_no_ids :
  filter (cart_of_user 5) (cart (tables example_store)) <> [] /\
  orders (tables example_store) = [] /\
  map Order.id
      (orders (tables (snd (place_order (example_env None) 5 example_store)))) =
    [1; 2] /\
  fst (place_order (example_env None) 5 example_store) = order_placed /\
  fst (place_order (example_env None) 5 example_store) <> JArr [JNum 1; JNum 2].
Proof.
  split; [vm_compute; discriminate|].
  split; [reflexivity|].
  split; [vm_compute; reflexivity|].
  split; [vm_compute; reflexivity|].
  vm_compute. discriminate.
Qed.

(** ** The "mostly ordered" tag *)

Lemma fold_left_add_zsum l : forall acc, fold_left Z.add l acc = acc + zsum l.
Proof.
  induction l as [|x l IH]; intros acc; simpl; [lia|]. rewrite IH. lia.
Qed.

Lemma func_sum_or_0 l : py_or (func_sum l) 0 = zsum l.
Proof.
  destruct l as [|x l]; [reflexivity|]. unfold func_sum, py_or.
  rewrite fold_left_add_zsum. destruct (0 + zsum (x :: l) =? 0) eqn:E.
  - apply Z.eqb_eq in E. lia.
  - lia.
Qed.

Lemma func_sum_coalesce_0 l : func_coalesce (func_sum l) 0 = zsum l.
Proof.
  destruct l as [|x l]; [reflexivity|]. unfold func_sum, func_coalesce.
  rewrite fold_left_add_zsum. lia.
Qed.

Lemma fold_left_max_large l :
  forall x, (fold_left Z.max l x >? 10) = (x >? 10) || any_large l.
Proof.
  induction l as [|y l IH]; intros x; simpl.
  - rewrite orb_false_r. reflexivity.
  - rewrite IH, orb_assoc. f_equal.
    destruct (Z.max_spec x y) as [[Hlt ->]|[Hle ->]];
      destruct (x >? 10) eqn:Ex; destruct (y >? 10) eqn:Ey; try reflexivity;
      rewrite ?Z.gtb_ltb, ?Z.ltb_lt, ?Z.ltb_ge in *; lia.
Qed.

Lemma func_max_coalesce_large l :
  (func_coalesce (func_max l) 0 >? 10) = any_large l.
Proof.
  destruct l as [|x l]; [reflexivity|]. cbn [func_max func_coalesce].
  apply fold_left_max_large.
Qed.

Lemma filter_andb {A} (f g : A -> bool) l :
  filter (fun x => f x && g x) l = filter g (filter f l).
Proof.
  induction l as [|x l IH]; simpl; [reflexivity|].
  destruct (f x); simpl; [|exact IH]. destruct (g x); rewrite IH; reflexivity.
Qed.

Lemma nonempty_large (rows : list (OrderItem.t * Order.t)) :
  match filter (fun r => OrderItem.quantity (fst r) >? 10) rows with
  | [] => false
  | _ :: _ => true
  end = any_large (quantities rows).
Proof.
  induction rows as [|r rows IH]; simpl; [reflexivity|].
  destruct (OrderItem.quantity (fst r) >? 10); simpl; [reflexivity | exact IH].
Qed.

Lemma any_large_iff qs : any_large qs = true <-> exists q, In q qs /\ q > 10.
Proof.
  unfold any_large. rewrite existsb_exists. split; intros (q & Hin & Hq);
    exists q; (split; [exact Hin|]).
  - apply Z.gtb_lt in Hq. lia.
  - apply Z.gtb_lt. lia.
Qed.

(** The property of the model, by the day's quantities. *)
Lemma is_mostly_ordered_eq today item db :
  is_mostly_ordered today item db =
  (zsum (day_quantities today item db) >? 10)
  || any_large (day_quantities today item db).
Proof.
  unfold is_mostly_ordered, order_quantity_today, has_large_single_order_today,
    day_quantities.
  rewrite func_sum_or_0, filter_andb, nonempty_large. reflexivity.
Qed.

(** The loop of the customer view, by the day's quantities. *)
Lemma view_restaurant_mostly_ordered_eq today item db :
  view_restaurant_mostly_ordered today item db =
  (zsum (day_quantities today item db) >? 10)
  || any_large (day_quantities today item db).
Proof.
  unfold view_restaurant_mostly_ordered, day_quantities.
  rewrite func_sum_coalesce_0, filter_andb, <- nonempty_large. f_equal.
  destruct (filter _ (filter (on_date today item) (join_Order db)));
    reflexivity.
Qed.

(** C5, as the code has it.  The tag is set exactly when the quantities
    of the item's order lines in orders created on the day sum to more
    than 10, or one of them is more than 10, in the model property and in
    the customer view alike.  A day sum of 10 in which no line is above 10
    leaves the item untagged, a day sum of 11 tags it, and so does one
    line of 11 alone. *)
Theorem is_mostly_ordered_iff today item db :
  (is_mostly_ordered today item db = true <->
   zsum (day_quantities today item db) > 10 \/
   exists q, In q (day_quantities today item db) /\ q > 10) /\
  view_restaurant_mostly_ordered today item db =
    is_mostly_ordered today item db /\
  (zsum (day_quantities today item db) = 10 ->
   (forall q, In q (day_quantities today item db) -> q <= 10) ->
   is_mostly_ordered today item db = false) /\
  (zsum (day_quantities today item db) = 11 ->
   is_mostly_ordered today item db = true) /\
  (day_quantities today item db = [11] ->
   is_mostly_ordered today item db = true).
Proof.
  rewrite view_restaurant_mostly_ordered_eq, is_mostly_ordered_eq.
  split; [|split; [reflexivity|split; [|split]]].
  - rewrite orb_true_iff, any_large_iff, Z.gtb_lt. intuition lia.
  - intros Hs Hq. rewrite Hs. cbn.
    destruct (any_large (day_quantities today item db)) eqn:E; [|reflexivity].
    apply any_large_iff in E. destruct E as (q & Hin & Hgt).
    specialize (Hq q Hin). lia.
  - intros ->. reflexivity.
  - intros ->. reflexivity.
Qed.

(** The thresholds on days with the lines 4 and 6, 5 and 6, and 11. *)
Lemma is_mostly_ordered_iff_witness :
  is_mostly_ordered 3 (MenuItem.mk 1 1000 true 1) (example_day [4; 6]) = false /\
  is_mostly_ordered 3 (MenuItem.mk 1 1000 true 1) (example_day [5; 6]) = true /\
  is_mostly_ordered 3 (MenuItem.mk 1 1000 true 1) (example_day [11]) = true.
Proof.
  split; [|split].
  - apply (proj1 (proj2 (proj2
      (is_mostly_ordered_iff 3 (MenuItem.mk 1 1000 true 1) (example_day [4; 6]))))).
    + vm_compute. reflexivity.
    + vm_compute. intros q [<-|[<-|[]]]; discriminate.
  - apply (proj1 (proj2 (proj2 (proj2
      (is_mostly_ordered_iff 3 (MenuItem.mk 1 1000 true 1) (example_day [5; 6])))))).
    vm_compute. reflexivity.
  - apply (proj2 (proj2 (proj2 (proj2
      (is_mostly_ordered_iff 3 (MenuItem.mk 1 1000 true 1) (example_day [11])))))).
    vm_compute. reflexivity.
Defined.

(** C5 as it is worded fails: a day sum of exactly 10 can be tagged.
    User 5 orders 11 of item 1, then adds the item with quantity -1, which
    [add_to_cart] stores, and orders again: the day's lines are 11 and -1,
    they sum to 10, and the line of 11 tags the item in the model property
    and in the customer view. *)
Lemma day_sum_10_is_tagged :
  day_quantities 0 (MenuItem.mk 1 1000 true 1)
    (tables
       (snd (place_order (example_env None) 5
          (snd (add_to_cart (example_env None) 5 1 (-1)
             (snd (place_order (example_env None) 5
                (snd (add_to_cart (example_env None) 5 1 11
                        example_empty_cart))))))))) = [11; -1] /\
  zsum (day_quantities 3 (MenuItem.mk 1 1000 true 1) (example_day [11; -1])) = 10 /\
  is_mostly_ordered 3 (MenuItem.mk 1 1000 true 1) (example_day [11; -1]) = true /\
  view_restaurant_mostly_ordered 3 (MenuItem.mk 1 1000 true 1)
    (example_day [11; -1]) = true.
Proof. repeat split; vm_compute; reflexivity. Qed.

(** A timestamp lies between the first and the last microsecond of a day
    exactly when its date is that day. *)
Lemma in_day_iff today ts :
  (start_of_day today <=? ts) && (ts <=? end_of_day today) =
  (func_date ts =? today).
Proof.
  unfold start_of_day, end_of_day, func_date, microseconds_per_day.
  pose proof (Z.div_mod ts 86400000000 ltac:(lia)) as Hdm.
  pose proof (Z.mod_pos_bound ts 86400000000 ltac:(lia)) as Hb.
  destruct (Z.eqb_spec (ts / 86400000000) today) as [E|E].
  - apply andb_true_iff. rewrite !Z.leb_le. lia.
  - apply andb_false_iff. rewrite !Z.leb_gt.
    destruct (Z_le_gt_dec (today * 86400000000) ts); [|left; lia].
    right. lia.
Qed.

Lemma in_day_of_on_date today restaurant item r :
  Order.restaurant_id (snd r) = Restaurant.id restaurant ->
  in_day_of today restaurant item r = on_date today item r.
Proof.
  intros Hr. unfold in_day_of, on_date. rewrite Hr, Z.eqb_refl, andb_true_r.
  rewrite <- andb_assoc, in_day_iff. reflexivity.
Qed.

(** The loop of the public restaurant page, by the day's quantities, when
    the orders holding the item are orders of the restaurant. *)
Lemma restaurant_detail_mostly_ordered_eq today restaurant item db :
  (forall r, In r (join_Order db) ->
             OrderItem.menu_item_id (fst r) = MenuItem.id item ->
             Order.restaurant_id (snd r) = Restaurant.id restaurant) ->
  restaurant_detail_mostly_ordered today restaurant item db =
  (zsum (day_quantities today item db) >? 10)
  || any_large (day_quantities today item db).
Proof.
  intros Hown. unfold restaurant_detail_mostly_ordered, day_quantities.
  rewrite func_sum_coalesce_0, func_max_coalesce_large.
  replace (filter (in_day_of today restaurant item) (join_Order db))
    with (filter (on_date today item) (join_Order db)); [reflexivity|].
  apply filter_ext_in. intros r Hin.
  destruct (OrderItem.menu_item_id (fst r) =? MenuItem.id item) eqn:E.
  - symmetry. apply in_day_of_on_date, Hown; [exact Hin|].
    apply Z.eqb_eq. exact E.
  - unfold in_day_of, on_date. rewrite E. reflexivity.
Qed.

(** C10. For an item of the restaurant on display, when every order that
    holds a line of the item is an order of the item's restaurant, the
    model property, the loop of the customer view and the loop of the
    public restaurant page give the same tag. *)
Theorem mostly_ordered_three_ways today restaurant item db :
  MenuItem.restaurant_id item = Restaurant.id restaurant ->
  (forall oi o, In (oi, o) (join_Order db) ->
                OrderItem.menu_item_id oi = MenuItem.id item ->
                Order.restaurant_id o = MenuItem.restaurant_id item) ->
  is_mostly_ordered today item db =
    view_restaurant_mostly_ordered today item db /\
  view_restaurant_mostly_ordered today item db =
    restaurant_detail_mostly_ordered today restaurant item db.
Proof.
  intros Hitem Hown.
  rewrite is_mostly_ordered_eq, view_restaurant_mostly_ordered_eq.
  rewrite restaurant_detail_mostly_ordered_eq; [split; reflexivity|].
  intros [oi o] Hin Hmid. cbn in *. rewrite <- Hitem. exact (Hown oi o Hin Hmid).
Qed.

Lemma mostly_ordered_three_ways_witness :
  is_mostly_ordered 3 (MenuItem.mk 1 1000 true 1) (example_day [5; 6]) =
    view_restaurant_mostly_ordered 3 (MenuItem.mk 1 1000 true 1)
      (example_day [5; 6]) /\
  view_restaurant_mostly_ordered 3 (MenuItem.mk 1 1000 true 1)
    (example_day [5; 6]) =
    restaurant_detail_mostly_ordered 3 (Restaurant.mk 1 7)
      (MenuItem.mk 1 1000 true 1) (example_day [5; 6]).
Proof.
  apply (mostly_ordered_three_ways 3 (Restaurant.mk 1 7)
           (MenuItem.mk 1 1000 true 1) (example_day [5; 6])).
  - reflexivity.
  - intros oi o Hin _. vm_compute in Hin.
    destruct Hin as [E|[E|[]]]; inversion E; reflexivity.
Defined.

(** ** update_order_status *)

Lemma status_in_iff s l : status_in s l = true <-> In s l.
Proof.
  unfold status_in. rewrite existsb_exists. split.
  - intros (x & Hin & E). apply String.eqb_eq in E. subst. exact Hin.
  - intros Hin. exists s. split; [exact Hin | apply String.eqb_refl].
Qed.

Lemma find_map_update {A} (key : A -> Z) (upd : A -> A) k l a :
  (forall x, key (upd x) = key x) ->
  find (fun x => key x =? k) l = Some a ->
  find (fun x => key x =? k) (map (fun x => if key x =? k then upd x else x) l)
  = Some (upd a).
Proof.
  intros Hkey. induction l as [|x l IH]; simpl; [discriminate|].
  destruct (key x =? k) eqn:E.
  - intros H. inversion H; subst. simpl. rewrite Hkey, E. reflexivity.
  - intros H. simpl. rewrite E. exact (IH H).
Qed.

#[local] Arguments status_in : simpl never.

(** C9. For the owner of the order's restaurant, every status of the
    enumeration is accepted whatever the current status is: the order gets
    the new status and the time of the update, the other orders stay as they
    are; a status outside the enumeration is answered with "Invalid status"
    and the store is left as it is. *)
Theorem update_order_status_unconditional env uid oid new_status st o r :
  Order_get oid (tables st) = Some o ->
  Restaurant_get (Order.restaurant_id o) (tables st) = Some r ->
  Restaurant.owner_id r = uid ->
  (In new_status valid_statuses -> fault env = None ->
   fst (update_order_status env uid oid new_status st) =
     jsonify true "Order status updated!" /\
   orders (tables (snd (update_order_status env uid oid new_status st))) =
     map (fun x => if Order.id x =? oid
                   then with_status new_status (utcnow env 0) x else x)
         (orders (tables st)) /\
   Order_get oid (tables (snd (update_order_status env uid oid new_status st))) =
     Some (with_status new_status (utcnow env 0) o)) /\
  (~ In new_status valid_statuses ->
   update_order_status env uid oid new_status st =
     (jsonify false "Invalid status", st)).
Proof.
  intros Ho Hr Hown.
  assert (Hid : Order.id o = oid).
  { unfold Order_get in Ho. apply find_some in Ho. destruct Ho as [_ E].
    apply Z.eqb_eq. exact E. }
  assert (Hrun : forall ok, status_in new_status valid_statuses = ok ->
            update_order_status env uid oid new_status st =
            if ok
            then match (update_order env (Order.id o) new_status ;;;
                        commit env ;;;
                        ret (jsonify true "Order status updated!"))
                         (begin_request st) with
                 | (Ok resp, s) => (resp, end_request s)
                 | (Raise _, s) =>
                     (jsonify false "Error updating order status", end_request s)
                 end
            else (jsonify false "Invalid status", st)).
  { intros ok Eok.
    unfold update_order_status, update_order_status_body, or_404, restaurant_of,
      bind, query, ret, raise, begin_request.
    cbn. rewrite Ho. cbn. rewrite Hr. cbn. rewrite Hown, Z.eqb_refl, Eok. cbn.
    destruct ok; [reflexivity|]. destruct st. reflexivity. }
  split.
  - intros Hin Hf.
    rewrite (Hrun true) by (apply status_in_iff; exact Hin).
    unfold update_order, write, commit, bind, ret, fault_at, begin_request,
      end_request. rewrite Hf. cbn.
    rewrite Hid. split; [reflexivity|]. split; [reflexivity|].
    unfold Order_get. cbn.
    apply (find_map_update Order.id (with_status new_status (utcnow env 0))).
    + reflexivity.
    + exact Ho.
  - intros Hnot. apply (Hrun false).
    destruct (status_in new_status valid_statuses) eqn:E; [|reflexivity].
    exfalso. apply Hnot. apply (proj1 (status_in_iff _ _) E).
Qed.

(** The owner moves a delivered order back to pending, and is refused
    "shipped". *)
Lemma update_order_status_unconditional_witness :
  (fst (update_order_status (example_env None) 7 1 "pending" example_delivered) =
     jsonify true "Order status updated!" /\
   orders (tables (snd (update_order_status (example_env None) 7 1 "pending"
                          example_delivered))) =
     [Order.mk 1 "ORD1" "pending" 3000 10 1000 5 1]) /\
  update_order_status (example_env None) 7 1 "shipped" example_delivered =
    (jsonify false "Invalid status", example_delivered).
Proof.
  split.
  - destruct (update_order_status_unconditional (example_env None) 7 1 "pending"
                example_delivered
                (Order.mk 1 "ORD1" "delivered" 3000 10 20 5 1)
                (Restaurant.mk 1 7) eq_refl eq_refl eq_refl) as [H _].
    destruct H as (H1 & H2 & _).
    + vm_compute. tauto.
    + reflexivity.
    + split; [exact H1 | exact H2].
  - apply (update_order_status_unconditional (example_env None) 7 1 "shipped"
             example_delivered
             (Order.mk 1 "ORD1" "delivered" 3000 10 20 5 1)
             (Restaurant.mk 1 7) eq_refl eq_refl eq_refl).
    vm_compute. intros H. repeat (destruct H as [H|H]; [discriminate H|]).
    exact H.
Defined.

(** ** The cart *)

(** [add_to_cart], run. *)
Lemma add_to_cart_run env uid mid q st :
  add_to_cart env uid mid q st =
  match MenuItem_get mid (tables st) with
  | None => (add_failed, st)
  | Some _ =>
      if fault_at env 0 then (add_failed, st)
      else
        match find (cart_of uid mid) (cart (tables st)) with
        | Some c =>
            if fault_at env 1 then (add_failed, st)
            else (item_added,
                  mkStore
                    (set_cart (map (bump_quantity (Cart.id c) (Cart.quantity c + q))
                                   (cart (tables st))) (tables st))
                    (seqs st))
        | None =>
            if fault_at env 1
            then (add_failed,
                  mkStore (tables st)
                          (mkSeqs (order_seq (seqs st)) (order_item_seq (seqs st))
                                  (cart_seq (seqs st) + 1)))
            else (item_added,
                  mkStore
                    (set_cart (cart (tables st)
                               ++ [Cart.mk (cart_seq (seqs st)) q uid mid])
                              (tables st))
                    (mkSeqs (order_seq (seqs st)) (order_item_seq (seqs st))
                            (cart_seq (seqs st) + 1)))
        end
  end.
Proof.
  unfold add_to_cart, add_to_cart_body, or_404, bind, query, ret, raise,
    update_cart_quantity, insert_cart, write, commit, begin_request, end_request.
  cbn. destruct st as [db sq]. cbn.
  destruct (MenuItem_get mid db); cbn; [|reflexivity].
  destruct (find (cart_of uid mid) (cart db)) as [c|]; cbn;
    destruct (fault_at env 0); cbn; try reflexivity;
    destruct (fault_at env 1); cbn; reflexivity.
Qed.

Lemma find_filter {A} (f : A -> bool) l : find f l = hd_error (filter f l).
Proof.
  induction l as [|x l IH]; simpl; [reflexivity|].
  destruct (f x); [reflexivity | exact IH].
Qed.

Lemma cart_of_bump uid mid cid nq c :
  cart_of uid mid (bump_quantity cid nq c) = cart_of uid mid c.
Proof. unfold bump_quantity. destruct (Cart.id c =? cid); reflexivity. Qed.

Lemma filter_bump uid mid cid nq l :
  filter (cart_of uid mid) (map (bump_quantity cid nq) l) =
  map (bump_quantity cid nq) (filter (cart_of uid mid) l).
Proof.
  induction l as [|c l IH]; simpl; [reflexivity|].
  rewrite cart_of_bump. destruct (cart_of uid mid c); simpl; rewrite IH;
    reflexivity.
Qed.

Lemma cart_of_iff uid mid c :
  cart_of uid mid c = true <-> Cart.user_id c = uid /\ Cart.menu_item_id c = mid.
Proof. unfold cart_of. rewrite andb_true_iff, !Z.eqb_eq. reflexivity. Qed.

(** One call of [add_to_cart] keeps the rows of every pair unique. *)
Lemma add_to_cart_unique env uid mid q st :
  cart_unique (tables st) ->
  cart_unique (tables (snd (add_to_cart env uid mid q st))).
Proof.
  intros Hu. rewrite add_to_cart_run.
  destruct (MenuItem_get mid (tables st)); [|exact Hu].
  destruct (fault_at env 0); [exact Hu|].
  destruct (find (cart_of uid mid) (cart (tables st))) as [c|] eqn:Ef;
    destruct (fault_at env 1); try exact Hu; cbn; intros u m; cbn.
  - rewrite filter_bump, length_map. apply Hu.
  - rewrite filter_app, length_app. cbn.
    destruct (cart_of u m (Cart.mk (cart_seq (seqs st)) q uid mid)) eqn:E.
    + apply cart_of_iff in E. cbn in E. destruct E as [<- <-].
      rewrite find_filter in Ef.
      destruct (filter (cart_of uid mid) (cart (tables st))); [cbn; lia|].
      discriminate Ef.
    + cbn. rewrite Nat.add_0_r. apply Hu.
Qed.

Lemma run_adds_unique calls :
  forall st, cart_unique (tables st) -> cart_unique (tables (run_adds calls st)).
Proof.
  induction calls as [|c calls IH]; intros st Hu; [exact Hu|].
  apply IH, add_to_cart_unique, Hu.
Qed.

(** C6. Adding an existing menu item twice, with quantities [q1] and [q2],
    for a user who has no row for it, leaves exactly one row of that user
    and item, with quantity [q1 + q2]; and any sequence of calls of
    [add_to_cart], whatever their users, items, quantities and storage
    faults, keeps at most one row per user and item. *)
Theorem add_to_cart_no_duplicate env1 env2 uid mid q1 q2 st m :
  MenuItem_get mid (tables st) = Some m ->
  fault env1 = None -> fault env2 = None ->
  filter (cart_of uid mid) (cart (tables st)) = [] ->
  (exists cid,
      filter (cart_of uid mid)
        (cart (tables (snd (add_to_cart env2 uid mid q2
                              (snd (add_to_cart env1 uid mid q1 st)))))) =
      [Cart.mk cid (q1 + q2) uid mid]) /\
  (forall calls st0,
      cart_unique (tables st0) -> cart_unique (tables (run_adds calls st0))).
Proof.
  intros Hm Hf1 Hf2 Hnone. split; [|intros calls st0; apply run_adds_unique].
  exists (cart_seq (seqs st)).
  assert (Hfind : find (cart_of uid mid) (cart (tables st)) = None).
  { rewrite find_filter, Hnone. reflexivity. }
  rewrite (add_to_cart_run env1). rewrite Hm, Hfind.
  unfold fault_at. rewrite Hf1. cbn [snd].
  rewrite (add_to_cart_run env2). unfold fault_at. rewrite Hf2. cbn.
  unfold MenuItem_get in *. cbn. rewrite Hm.
  assert (Hself : forall i q, cart_of uid mid (Cart.mk i q uid mid) = true).
  { intros i q. apply cart_of_iff. split; reflexivity. }
  rewrite find_filter, filter_app, Hnone. cbn. rewrite Hself. cbn.
  rewrite map_app, filter_app, filter_bump, Hnone. cbn.
  unfold bump_quantity. cbn. rewrite ?Z.eqb_refl. cbn.
  rewrite Hself. reflexivity.
Qed.

Lemma add_to_cart_no_duplicate_witness :
  (exists cid,
      filter (cart_of 5 1)
        (cart (tables (snd (add_to_cart (example_env None) 5 1 2
                              (snd (add_to_cart (example_env None) 5 1 3
                                      example_empty_cart)))))) =
      [Cart.mk cid (3 + 2) 5 1]) /\
  (forall calls st0,
      cart_unique (tables st0) -> cart_unique (tables (run_adds calls st0))).
Proof.
  apply (add_to_cart_no_duplicate (example_env None) (example_env None) 5 1 3 2
           example_empty_cart (MenuItem.mk 1 1000 true 1));
    reflexivity.
Defined.

(** C7, as the code has it.  [add_to_cart] checks that the menu item
    exists and nothing else.  When it does not exist the lookup raises
    NotFound, the handler answers with the generic failure and the store is
    left as it is.  When it exists and no write is refused, the call
    succeeds and the row of the user and item is incremented, or created
    when there is none, whatever the item's [is_available] says. *)
Theorem add_to_cart_checks_existence env uid mid q st :
  (MenuItem_get mid (tables st) = None ->
   add_to_cart_body env uid mid q (begin_request st) =
     (Raise NotFound, begin_request st) /\
   add_to_cart env uid mid q st = (add_failed, st)) /\
  (forall m,
      MenuItem_get mid (tables st) = Some m -> fault env = None ->
      fst (add_to_cart env uid mid q st) = item_added /\
      cart (tables (snd (add_to_cart env uid mid q st))) =
        match find (cart_of uid mid) (cart (tables st)) with
        | Some c => map (bump_quantity (Cart.id c) (Cart.quantity c + q))
                        (cart (tables st))
        | None => cart (tables st) ++ [Cart.mk (cart_seq (seqs st)) q uid mid]
        end).
Proof.
  split.
  - intros Hnone. split.
    + unfold add_to_cart_body, or_404, bind, query, raise. cbn.
      rewrite Hnone. reflexivity.
    + rewrite add_to_cart_run, Hnone. reflexivity.
  - intros m Hm Hf. rewrite add_to_cart_run, Hm. unfold fault_at. rewrite Hf.
    destruct (find (cart_of uid mid) (cart (tables st))); split; reflexivity.
Qed.

Lemma add_to_cart_checks_existence_witness :
  add_to_cart (example_env None) 5 9 1 example_empty_cart =
    (add_failed, example_empty_cart) /\
  cart (tables (snd (add_to_cart (example_env None) 5 2 4 example_empty_cart))) =
    [Cart.mk 1 4 5 2].
Proof.
  split.
  - apply (proj1 (add_to_cart_checks_existence (example_env None) 5 9 1
                    example_empty_cart)).
    reflexivity.
  - apply (proj2 (add_to_cart_checks_existence (example_env None) 5 2 4
                    example_empty_cart) (MenuItem.mk 2 500 true 2));
      reflexivity.
Defined.

(** C7 as it is worded fails: item 3 exists and is not available, and
    adding it succeeds and creates the cart row. *)
Lemma add_to_cart_unavailable_item :
  option_map MenuItem.is_available (MenuItem_get 3 (tables example_empty_cart)) =
    Some false /\
  cart (tables example_empty_cart) = [] /\
  fst (add_to_cart (example_env None) 5 3 1 example_empty_cart) = item_added /\
  cart (tables (snd (add_to_cart (example_env None) 5 3 1 example_empty_cart))) =
    [Cart.mk 1 1 5 3].
Proof. repeat split; vm_compute; reflexivity. Qed.

(** [update_cart], run on a row of the caller. *)
Lemma update_cart_positive env uid cid q st :
  Forall (fun c => 1 <= Cart.quantity c) (cart (tables st)) ->
  Forall (fun c => 1 <= Cart.quantity c)
         (cart (tables (snd (update_cart env uid cid q st)))).
Proof.
  intros Hpos.
  unfold update_cart, update_cart_body, or_404, bind, query, ret, raise,
    delete_cart_row, update_cart_quantity, write, commit, begin_request,
    end_request.
  cbn. destruct (Cart_get cid (tables st)) as [c|]; cbn; [|exact Hpos].
  destruct (Cart.user_id c =? uid); cbn; [|exact Hpos].
  destruct (Z.leb_spec q 0) as [Hq|Hq]; cbn;
    destruct (fault_at env 0); cbn; try exact Hpos;
    destruct (fault_at env 1); cbn; try exact Hpos.
  - rewrite Forall_forall in Hpos |- *. intros x Hx.
    apply filter_In in Hx. apply Hpos, Hx.
  - rewrite Forall_forall in Hpos |- *. intros x Hx.
    apply in_map_iff in Hx. destruct Hx as (y & <- & Hy).
    destruct (Cart.id y =? Cart.id c); cbn; [lia | apply Hpos, Hy].
Qed.

(** C8 at the inputs that break it.  [update_cart] keeps every quantity
    at 1 or more ([update_cart_positive]), but [add_to_cart] stores what it
    is given: a request for quantity 0 creates a row of quantity 0, and a
    request for -5 on a row of quantity 1 leaves it at -4. *)
Theorem add_to_cart_stores_nonpositive :
  add_to_cart (example_env None) 5 1 0 example_empty_cart =
    (item_added,
     mkStore (set_cart [Cart.mk 1 0 5 1] (tables example_empty_cart))
             (mkSeqs 1 1 2)) /\
  cart (tables (snd (add_to_cart (example_env None) 5 1 (-5)
                       (snd (add_to_cart (example_env None) 5 1 1
                               example_empty_cart))))) =
    [Cart.mk 1 (-4) 5 1] /\
  ~ Forall (fun c => 1 <= Cart.quantity c)
           (cart (tables (snd (add_to_cart (example_env None) 5 1 0
                                 example_empty_cart)))).
Proof.
  split; [vm_compute; reflexivity|]. split; [vm_compute; reflexivity|].
  intros H. vm_compute in H. inversion H as [|? ? Hq _]. apply Hq. reflexivity.
Qed.

(** * Further properties of the routes *)

(** ** update_cart and remove_from_cart *)

Lemma Cart_get_id cid db c : Cart_get cid db = Some c -> Cart.id c = cid.
Proof.
  unfold Cart_get. intros H. apply find_some in H. destruct H as [_ E].
  apply Z.eqb_eq. exact E.
Qed.

(** [update_cart], run. *)
Lemma update_cart_run env uid cid q st :
  update_cart env uid cid q st =
  match Cart_get cid (tables st) with
  | None => (jsonify false "Error updating cart", st)
  | Some c =>
      if negb (Cart.user_id c =? uid) then (jsonify false "Unauthorized", st)
      else if fault_at env 0 then (jsonify false "Error updating cart", st)
      else if fault_at env 1 then (jsonify false "Error updating cart", st)
      else (jsonify true "Cart updated!",
            mkStore
              (set_cart
                 (if q <=? 0
                  then filter (fun x => negb (Cart.id x =? Cart.id c))
                              (cart (tables st))
                  else map (bump_quantity (Cart.id c) q) (cart (tables st)))
                 (tables st))
              (seqs st))
  end.
Proof.
  unfold update_cart, update_cart_body, or_404, bind, query, ret, raise,
    delete_cart_row, update_cart_quantity, write, commit, begin_request,
    end_request.
  cbn. destruct st as [db sq]. cbn.
  destruct (Cart_get cid db) as [c|]; cbn; [|reflexivity].
  destruct (Cart.user_id c =? uid); cbn; [|reflexivity].
  destruct (q <=? 0); cbn;
    destruct (fault_at env 0); cbn; try reflexivity;
    destruct (fault_at env 1); cbn; reflexivity.
Qed.

(** [remove_from_cart], run. *)
Lemma remove_from_cart_run env uid cid st :
  remove_from_cart env uid cid st =
  match Cart_get cid (tables st) with
  | None => ("Error removing item from cart."%string, st)
  | Some c =>
      if negb (Cart.user_id c =? uid) then ("Unauthorized access."%string, st)
      else if fault_at env 0 then ("Error removing item from cart."%string, st)
      else if fault_at env 1 then ("Error removing item from cart."%string, st)
      else ("Item removed from cart."%string,
            mkStore
              (set_cart (filter (fun x => negb (Cart.id x =? Cart.id c))
                                (cart (tables st))) (tables st))
              (seqs st))
  end.
Proof.
  unfold remove_from_cart, remove_from_cart_body, or_404, bind, query, ret,
    raise, delete_cart_row, write, commit, begin_request, end_request.
  cbn. destruct st as [db sq]. cbn.
  destruct (Cart_get cid db) as [c|]; cbn; [|reflexivity].
  destruct (Cart.user_id c =? uid); cbn; [|reflexivity].
  destruct (fault_at env 0); cbn; try reflexivity;
    destruct (fault_at env 1); cbn; reflexivity.
Qed.

Lemma find_filter_out {A} (key : A -> Z) k l :
  find (fun x => key x =? k) (filter (fun x => negb (key x =? k)) l) = None.
Proof.
  induction l as [|x l IH]; simpl; [reflexivity|].
  destruct (key x =? k) eqn:E; simpl; [exact IH|]. rewrite E. exact IH.
Qed.

(** X1. [update_cart] by the owner of the row, when no write is refused:
    a quantity of 0 or less deletes the row, so that it can no longer be
    looked up; a positive quantity replaces the stored one (it is not
    added to it), and the row keeps its user and menu item. *)
Theorem update_cart_sets_or_deletes env uid cid q st c :
  Cart_get cid (tables st) = Some c ->
  Cart.user_id c = uid ->
  fault env = None ->
  fst (update_cart env uid cid q st) = jsonify true "Cart updated!" /\
  (q <= 0 ->
   Cart_get cid (tables (snd (update_cart env uid cid q st))) = None /\
   cart (tables (snd (update_cart env uid cid q st))) =
     filter (fun x => negb (Cart.id x =? cid)) (cart (tables st))) /\
  (0 < q ->
   Cart_get cid (tables (snd (update_cart env uid cid q st))) =
     Some (Cart.mk cid q uid (Cart.menu_item_id c)) /\
   cart (tables (snd (update_cart env uid cid q st))) =
     map (bump_quantity cid q) (cart (tables st))).
Proof.
  intros Hc Hu Hf. pose proof (Cart_get_id _ _ _ Hc) as Hid.
  rewrite update_cart_run, Hc, Hu, Z.eqb_refl. unfold fault_at. rewrite Hf.
  cbn [negb fst snd tables]. rewrite Hid. split; [reflexivity|]. split.
  - intros Hq. apply Z.leb_le in Hq. rewrite Hq. cbn. split; [|reflexivity].
    unfold Cart_get. cbn. apply (find_filter_out Cart.id).
  - intros Hq. apply Z.leb_gt in Hq. rewrite Hq. cbn. split; [|reflexivity].
    unfold Cart_get, bump_quantity. cbn.
    rewrite (find_map_update Cart.id
               (fun x => Cart.mk (Cart.id x) q (Cart.user_id x)
                                 (Cart.menu_item_id x)) cid _ c).
    + rewrite Hid, Hu. reflexivity.
    + reflexivity.
    + exact Hc.
Qed.

Lemma update_cart_sets_or_deletes_witness :
  cart (tables (snd (update_cart (example_env None) 5 1 7 example_store))) =
    [Cart.mk 1 7 5 1; Cart.mk 2 1 5 2] /\
  cart (tables (snd (update_cart (example_env None) 5 1 0 example_store))) =
    [Cart.mk 2 1 5 2].
Proof.
  split.
  - apply (proj2 (proj2 (update_cart_sets_or_deletes (example_env None) 5 1 7
                           example_store (Cart.mk 1 3 5 1)
                           eq_refl eq_refl eq_refl))).
    lia.
  - apply (proj1 (proj2 (update_cart_sets_or_deletes (example_env None) 5 1 0
                           example_store (Cart.mk 1 3 5 1)
                           eq_refl eq_refl eq_refl))).
    lia.
Defined.

(** X2. A cart row that does not exist or belongs to another user is out
    of reach: [update_cart] and [remove_from_cart] answer with a failure
    ("Unauthorized" for a row of another user, the generic error for a
    missing one) and leave the store exactly as it is, whatever the
    quantity asked for. *)
Theorem cart_row_of_another_user env uid cid q st :
  (forall c, Cart_get cid (tables st) = Some c -> Cart.user_id c <> uid) ->
  snd (update_cart env uid cid q st) = st /\
  snd (remove_from_cart env uid cid st) = st /\
  fst (update_cart env uid cid q st) =
    match Cart_get cid (tables st) with
    | Some _ => jsonify false "Unauthorized"
    | None => jsonify false "Error updating cart"
    end /\
  fst (remove_from_cart env uid cid st) =
    match Cart_get cid (tables st) with
    | Some _ => "Unauthorized access."%string
    | None => "Error removing item from cart."%string
    end.
Proof.
  intros Hown. rewrite update_cart_run, remove_from_cart_run.
  destruct (Cart_get cid (tables st)) as [c|]; [|repeat split].
  specialize (Hown c eq_refl).
  destruct (Cart.user_id c =? uid) eqn:E.
  - apply Z.eqb_eq in E. contradiction.
  - repeat split.
Qed.

Lemma cart_row_of_another_user_witness :
  snd (update_cart (example_env None) 6 1 9 example_store) = example_store /\
  snd (remove_from_cart (example_env None) 6 1 example_store) = example_store /\
  fst (update_cart (example_env None) 6 1 9 example_store) =
    jsonify false "Unauthorized" /\
  fst (remove_from_cart (example_env None) 6 1 example_store) =
    "Unauthorized access."%string.
Proof.
  apply (cart_row_of_another_user (example_env None) 6 1 9 example_store).
  intros c Hc. vm_compute in Hc. inversion Hc. cbn. discriminate.
Defined.

(** X3. [remove_from_cart] by the owner of the row, when no write is
    refused, deletes the row: it can no longer be looked up, and the rows
    with another id are all kept, in their order. *)
Theorem remove_from_cart_removes env uid cid st c :
  Cart_get cid (tables st) = Some c ->
  Cart.user_id c = uid ->
  fault env = None ->
  fst (remove_from_cart env uid cid st) = "Item removed from cart."%string /\
  Cart_get cid (tables (snd (remove_from_cart env uid cid st))) = None /\
  cart (tables (snd (remove_from_cart env uid cid st))) =
    filter (fun x => negb (Cart.id x =? cid)) (cart (tables st)).
Proof.
  intros Hc Hu Hf. pose proof (Cart_get_id _ _ _ Hc) as Hid.
  rewrite remove_from_cart_run, Hc, Hu, Z.eqb_refl. unfold fault_at.
  rewrite Hf. cbn. rewrite Hid. split; [reflexivity|]. split; [|reflexivity].
  unfold Cart_get. cbn. apply (find_filter_out Cart.id).
Qed.

Lemma remove_from_cart_removes_witness :
  fst (remove_from_cart (example_env None) 5 1 example_store) =
    "Item removed from cart."%string /\
  Cart_get 1 (tables (snd (remove_from_cart (example_env None) 5 1
                             example_store))) = None /\
  cart (tables (snd (remove_from_cart (example_env None) 5 1 example_store))) =
    filter (fun x => negb (Cart.id x =? 1)) (cart (tables example_store)).
Proof.
  apply (remove_from_cart_removes (example_env None) 5 1 example_store
           (Cart.mk 1 3 5 1)); reflexivity.
Defined.

Lemma filter_filter_length {A} (f g : A -> bool) l :
  (List.length (filter f (filter g l)) <= List.length (filter f l))%nat.
Proof.
  induction l as [|x l IH]; simpl; [lia|].
  destruct (g x); simpl; destruct (f x); simpl; lia.
Qed.

Lemma update_cart_unique env uid cid q st :
  cart_unique (tables st) ->
  cart_unique (tables (snd (update_cart env uid cid q st))).
Proof.
  intros Hu. rewrite update_cart_run.
  destruct (Cart_get cid (tables st)) as [c|]; [|exact Hu].
  destruct (negb (Cart.user_id c =? uid)); [exact Hu|].
  destruct (fault_at env 0); [exact Hu|].
  destruct (fault_at env 1); [exact Hu|].
  intros u m. cbn. destruct (q <=? 0).
  - eapply Nat.le_trans; [apply filter_filter_length | apply Hu].
  - rewrite filter_bump, length_map. apply Hu.
Qed.

Lemma remove_from_cart_unique env uid cid st :
  cart_unique (tables st) ->
  cart_unique (tables (snd (remove_from_cart env uid cid st))).
Proof.
  intros Hu. rewrite remove_from_cart_run.
  destruct (Cart_get cid (tables st)) as [c|]; [|exact Hu].
  destruct (negb (Cart.user_id c =? uid)); [exact Hu|].
  destruct (fault_at env 0); [exact Hu|].
  destruct (fault_at env 1); [exact Hu|].
  intros u m. cbn.
  eapply Nat.le_trans; [apply filter_filter_length | apply Hu].
Qed.

(** X4. Any sequence of [add_to_cart], [update_cart] and
    [remove_from_cart] requests, by any users, with any arguments and any
    refused writes, keeps at most one cart row per user and menu item. *)
Theorem cart_ops_keep_unique ops st :
  cart_unique (tables st) -> cart_unique (tables (run_cart_ops ops st)).
Proof.
  revert st. induction ops as [|op ops IH]; intros st Hu; [exact Hu|].
  apply IH. destruct op as [env u m q | env u c q | env u c]; cbn.
  - apply add_to_cart_unique, Hu.
  - apply update_cart_unique, Hu.
  - apply remove_from_cart_unique, Hu.
Qed.

Lemma cart_ops_keep_unique_witness :
  cart_unique
    (tables (run_cart_ops
               [OpAdd (example_env None) 5 1 2;
                OpUpdate (example_env None) 5 2 4;
                OpRemove (example_env None) 5 1]
               example_store)).
Proof.
  apply (cart_ops_keep_unique _ example_store).
  intros u m. cbn.
  destruct (cart_of u m (Cart.mk 1 3 5 1)) eqn:E1;
    destruct (cart_of u m (Cart.mk 2 1 5 2)) eqn:E2; cbn; try lia.
  apply cart_of_iff in E1. apply cart_of_iff in E2. cbn in *.
  destruct E1 as [_ <-]. destruct E2 as [_ E]. discriminate E.
Defined.

Lemma add_to_cart_positive env uid mid q st :
  1 <= q ->
  Forall (fun c => 1 <= Cart.quantity c) (cart (tables st)) ->
  Forall (fun c => 1 <= Cart.quantity c)
         (cart (tables (snd (add_to_cart env uid mid q st)))).
Proof.
  intros Hq Hpos. rewrite add_to_cart_run.
  destruct (MenuItem_get mid (tables st)); [|exact Hpos].
  destruct (fault_at env 0); [exact Hpos|].
  destruct (find (cart_of uid mid) (cart (tables st))) as [c|] eqn:Ef;
    destruct (fault_at env 1); try exact Hpos; cbn.
  - apply find_some in Ef. destruct Ef as [Hin _].
    rewrite Forall_forall in Hpos. pose proof (Hpos c Hin) as Hc.
    apply Forall_forall. intros x Hx. apply in_map_iff in Hx.
    destruct Hx as (y & <- & Hy). unfold bump_quantity.
    destruct (Cart.id y =? Cart.id c); cbn; [lia | apply Hpos, Hy].
  - apply Forall_app. split; [exact Hpos|]. constructor; [exact Hq|constructor].
Qed.

Lemma remove_from_cart_positive env uid cid st :
  Forall (fun c => 1 <= Cart.quantity c) (cart (tables st)) ->
  Forall (fun c => 1 <= Cart.quantity c)
         (cart (tables (snd (remove_from_cart env uid cid st)))).
Proof.
  intros Hpos. rewrite remove_from_cart_run.
  destruct (Cart_get cid (tables st)) as [c|]; [|exact Hpos].
  destruct (negb (Cart.user_id c =? uid)); [exact Hpos|].
  destruct (fault_at env 0); [exact Hpos|].
  destruct (fault_at env 1); [exact Hpos|].
  cbn. rewrite Forall_forall in Hpos |- *. intros x Hx.
  apply filter_In in Hx. apply Hpos, Hx.
Qed.

(** X5. As long as every [add_to_cart] request asks for a quantity of at
    least 1, any sequence of cart requests keeps every stored quantity at 1
    or more: [update_cart] and [remove_from_cart] never store less, for
    any quantity asked. *)
Theorem cart_ops_keep_positive ops st :
  Forall (fun op => match op with
                    | OpAdd _ _ _ q => 1 <= q
                    | _ => True
                    end) ops ->
  Forall (fun c => 1 <= Cart.quantity c) (cart (tables st)) ->
  Forall (fun c => 1 <= Cart.quantity c) (cart (tables (run_cart_ops ops st))).
Proof.
  revert st. induction ops as [|op ops IH]; intros st Hops Hpos; [exact Hpos|].
  inversion Hops as [|? ? Hop Hrest]; subst. apply IH; [exact Hrest|].
  destruct op as [env u m q | env u c q | env u c]; cbn.
  - apply add_to_cart_positive; assumption.
  - apply update_cart_positive, Hpos.
  - apply remove_from_cart_positive, Hpos.
Qed.

Lemma cart_ops_keep_positive_witness :
  Forall (fun c => 1 <= Cart.quantity c)
    (cart (tables (run_cart_ops
                     [OpAdd (example_env None) 5 1 2;
                      OpUpdate (example_env None) 5 2 (-3);
                      OpRemove (example_env None) 6 1]
                     example_store))).
Proof.
  apply (cart_ops_keep_positive _ example_store).
  - repeat constructor. lia.
  - repeat constructor; cbn; lia.
Defined.

(** ** place_order, continued *)

Lemma filter_idem {A} (f : A -> bool) l : filter f (filter f l) = filter f l.
Proof.
  induction l as [|x l IH]; simpl; [reflexivity|].
  destruct (f x) eqn:E; simpl; [rewrite E, IH; reflexivity | exact IH].
Qed.

(** X6. A successful [place_order] cannot be replayed: a second call for
    the same user, straight after, finds the cart empty, answers so and
    changes nothing, so no order is created twice. *)
Theorem place_order_twice env env2 uid st st' :
  place_order env uid st = (order_placed, st') ->
  place_order env2 uid st' = (cart_is_empty, st').
Proof.
  intros H. destruct (place_order_placed _ _ _ _ H) as (g & c & _ & Hp).
  destruct Hp as (_ & _ & _ & _ & Ht).
  unfold place_order. rewrite place_order_body_empty.
  - rewrite end_begin_request. reflexivity.
  - cbn. rewrite Ht. cbn. apply filter_negb_filter.
Qed.

Lemma place_order_twice_witness :
  place_order (example_env (Some 1%nat)) 5
    (snd (place_order (example_env None) 5 example_store)) =
  (cart_is_empty, snd (place_order (example_env None) 5 example_store)).
Proof.
  apply (place_order_twice (example_env None) (example_env (Some 1%nat)) 5
           example_store).
  vm_compute. reflexivity.
Defined.

(** X7. What [place_order] never touches, whether it succeeds, fails or
    finds the cart empty: restaurants and menu items are unchanged,
    existing orders and order lines are kept as they are (new ones are
    only appended), and the cart rows of every other user are unchanged.
    The user's own rows are either all kept or all gone. *)
Theorem place_order_frame env uid st :
  restaurants (tables (snd (place_order env uid st))) = restaurants (tables st) /\
  menu_items (tables (snd (place_order env uid st))) = menu_items (tables st) /\
  (exists new_orders,
      orders (tables (snd (place_order env uid st))) =
        orders (tables st) ++ new_orders) /\
  (exists new_lines,
      order_items (tables (snd (place_order env uid st))) =
        order_items (tables st) ++ new_lines) /\
  filter (fun c => negb (cart_of_user uid c))
         (cart (tables (snd (place_order env uid st)))) =
    filter (fun c => negb (cart_of_user uid c)) (cart (tables st)) /\
  (cart (tables (snd (place_order env uid st))) = cart (tables st) \/
   filter (cart_of_user uid) (cart (tables (snd (place_order env uid st)))) = []).
Proof.
  destruct (place_order_cases env uid st)
    as [[_ E] | [(_ & e & s & _ & E) | (_ & st1 & g & c & E & _ & Hp)]];
    rewrite E; cbn [snd tables].
  - repeat split; try (exists []; rewrite app_nil_r; reflexivity). left; reflexivity.
  - repeat split; try (exists []; rewrite app_nil_r; reflexivity). left; reflexivity.
  - destruct Hp as (_ & _ & _ & _ & Ht). rewrite Ht. cbn.
    split; [reflexivity|]. split; [reflexivity|].
    split; [eexists; reflexivity|]. split; [eexists; reflexivity|].
    split; [apply filter_idem|]. right. apply filter_negb_filter.
Qed.

Lemma group_by_restaurant_dangling items :
  forall d s,
    existsb (fun item => negb (resolvable (working s) item)) items = true ->
    group_by_restaurant items d s = (Raise AttributeError, s).
Proof.
  induction items as [|item rest IH]; intros d s H; simpl in H; [discriminate|].
  simpl. unfold bind at 1, menu_item_of, bind, query.
  unfold resolvable in H at 1.
  destruct (MenuItem_get (Cart.menu_item_id item) (working s)) as [m|]; cbn.
  - cbn in H. apply IH. exact H.
  - reflexivity.
Qed.

(** X8. A cart row whose menu item is no longer in the catalog blocks the
    checkout: [place_order] answers with the placement failure and leaves
    the whole store, counters included, as it is; no order is written for
    the other rows either. *)
Theorem place_order_dangling_row env uid st :
  existsb (fun item => negb (resolvable (tables st) item))
          (filter (cart_of_user uid) (cart (tables st))) = true ->
  place_order env uid st = (placement_failed, st).
Proof.
  intros H.
  destruct (filter (cart_of_user uid) (cart (tables st))) as [|c l] eqn:E;
    [discriminate H|].
  unfold place_order.
  rewrite (place_order_body_nonempty env uid _ c l) by exact E.
  unfold place_order_writes, bind.
  rewrite group_by_restaurant_dangling by exact H.
  unfold rollback, end_request. cbn. destruct st. reflexivity.
Qed.

Lemma place_order_dangling_row_witness :
  place_order (example_env None) 5 example_dangling =
  (placement_failed, example_dangling).
Proof.
  apply (place_order_dangling_row (example_env None) 5 example_dangling).
  vm_compute. reflexivity.
Defined.

(** The steps of a successful [place_order]. *)
Lemma place_order_trace env uid st st' :
  place_order env uid st = (order_placed, st') ->
  exists groups s1 s2,
    filter (cart_of_user uid) (cart (tables st)) <> [] /\
    group_by_restaurant (filter (cart_of_user uid) (cart (tables st))) []
      (begin_request st) = (Ok groups, begin_request st) /\
    create_orders env uid groups (begin_request st) = (Ok tt, s1) /\
    delete_cart_of_user env uid s1 = (Ok tt, s2) /\
    fault_at env (step s2) = false /\
    st' = mkStore (working s2) (autoinc s2).
Proof.
  unfold place_order.
  destruct (place_order_body env uid (begin_request st)) as [[resp|e] s] eqn:B;
    intros H; [|discriminate H].
  inversion H; subst resp st'. clear H.
  destruct (filter (cart_of_user uid) (cart (tables st))) as [|c l] eqn:E.
  - rewrite place_order_body_empty in B by exact E. discriminate B.
  - rewrite (place_order_body_nonempty env uid _ c l) in B by exact E.
    apply bind_Ok in B. destruct B as (u & s1 & Hw & B).
    apply bind_Ok in B. destruct B as (u' & s2 & Hc & B).
    inversion B; subst s2. clear B.
    apply commit_Ok in Hc. destruct Hc as [Hfc ->].
    unfold place_order_writes in Hw.
    apply bind_Ok in Hw. destruct Hw as (groups & s3 & Hg & Hw).
    pose proof Hg as Hg'.
    apply (group_by_restaurant_Ok (tables st)) in Hg';
      [|reflexivity | split; [constructor | constructor]].
    destruct Hg' as (-> & _).
    apply bind_Ok in Hw. destruct Hw as ([] & s4 & Ho & Hw).
    destruct u.
    exists groups, s4, s1. split; [discriminate|].
    repeat split; assumption.
Qed.

Lemma zsum_app l l' : zsum (l ++ l') = zsum l + zsum l'.
Proof. induction l as [|x l IH]; simpl; [reflexivity|]. rewrite IH. lia. Qed.

Lemma dict_sum_setdefault f rid item d :
  dict_sum f (setdefault_append rid item d) = dict_sum f d + f item.
Proof.
  unfold dict_sum. induction d as [|[k v] d IH]; simpl; [lia|].
  destruct (k =? rid); simpl.
  - rewrite map_app, zsum_app. simpl. lia.
  - rewrite IH. lia.
Qed.

Lemma dict_sum_at_setdefault r f rid item d :
  dict_sum_at r f (setdefault_append rid item d) =
  dict_sum_at r f d + (if rid =? r then f item else 0).
Proof.
  unfold dict_sum_at. induction d as [|[k v] d IH]; simpl;
    [destruct (rid =? r); simpl; lia|].
  destruct (k =? rid) eqn:E; simpl.
  - apply Z.eqb_eq in E. subst k. destruct (rid =? r); [|lia].
    rewrite map_app, zsum_app. simpl. lia.
  - rewrite IH. lia.
Qed.

(** The rows of a user's cart that belong to one restaurant. *)
Lemma group_by_restaurant_sums db items :
  forall d s d' s',
    working s = db ->
    group_by_restaurant items d s = (Ok d', s') ->
    (forall f, dict_sum f d' = dict_sum f d + zsum (map f items)) /\
    (forall r f,
        dict_sum_at r f d' =
        dict_sum_at r f d +
        zsum (map f (filter (fun item =>
                               match restaurant_of_item db item with
                               | Some k => k =? r
                               | None => false
                               end) items))).
Proof.
  induction items as [|item rest IH]; intros d s d' s' Hw H; simpl in H.
  - inversion H; subst. split; intros; simpl; lia.
  - apply bind_Ok in H. destruct H as (m & s1 & Hm & H).
    apply menu_item_of_Ok in Hm. destruct Hm as [-> Hm]. rewrite Hw in Hm.
    destruct (IH _ _ _ _ Hw H) as [H1 H2]. split.
    + intros f. rewrite H1, dict_sum_setdefault. simpl. lia.
    + intros r f. rewrite H2, dict_sum_at_setdefault. simpl.
      unfold restaurant_of_item at 2. rewrite Hm. cbn.
      destruct (MenuItem.restaurant_id m =? r); simpl; unfold zsum; lia.
Qed.

Lemma order_of_sums db uid groups created :
  Forall2 (order_of db uid) groups created ->
  zsum (map Order.total_amount (map fst created)) =
    dict_sum (line_total db) groups /\
  Z.of_nat (List.length (List.concat (map snd created))) =
    dict_sum (fun _ => 1) groups /\
  (forall r,
      zsum (map Order.total_amount
                (filter (fun o => Order.restaurant_id o =? r) (map fst created))) =
      dict_sum_at r (line_total db) groups).
Proof.
  unfold dict_sum, dict_sum_at.
  induction 1 as [|g c groups created (Hr & _ & _ & Hl & Ht) _ (IH1 & IH2 & IH3)];
    simpl.
  - repeat split.
  - pose proof (line_of_total _ _ _ _ Hl) as Hsum.
    split; [|split].
    + rewrite IH1, Ht, Hsum. reflexivity.
    + rewrite length_app, Nat2Z.inj_add, IH2. f_equal.
      clear - Hl. induction Hl as [|? ? ? ? _ _ IH]; [reflexivity|].
      cbn [List.length map zsum fold_right]. unfold zsum in IH.
      rewrite <- IH. lia.
    + intros r. rewrite Hr. destruct (fst g =? r); simpl.
      * rewrite IH3, Ht, Hsum. reflexivity.
      * rewrite IH3. reflexivity.
Qed.

Lemma sum_prices_resolvable items :
  forall acc s,
    forallb (resolvable (working s)) items = true ->
    sum_prices items acc s =
    (Ok (acc + zsum (map (line_total (working s)) items)), s).
Proof.
  induction items as [|item rest IH]; intros acc s H; simpl in *.
  - unfold ret. f_equal. f_equal. lia.
  - apply andb_true_iff in H. destruct H as [Hi Hr].
    unfold bind at 1, menu_item_of, bind, query. unfold resolvable in Hi.
    unfold line_total at 1.
    destruct (MenuItem_get (Cart.menu_item_id item) (working s)) as [m|];
      [|discriminate Hi].
    cbn. rewrite (IH _ _ Hr). f_equal. f_equal. lia.
Qed.

Lemma zsum_ones {A} (l : list A) : zsum (map (fun _ => 1) l) = Z.of_nat (List.length l).
Proof.
  induction l as [|x l IH]; [reflexivity|].
  cbn [map List.length]. rewrite Nat2Z.inj_succ, <- IH. unfold zsum.
  cbn [fold_right]. lia.
Qed.

(** What a successful [place_order] has written, from its steps. *)
Lemma place_order_written env uid st st' :
  place_order env uid st = (order_placed, st') ->
  exists groups created,
    group_by_restaurant (filter (cart_of_user uid) (cart (tables st))) []
      (begin_request st) = (Ok groups, begin_request st) /\
    Forall2 (order_of (tables st) uid) groups created /\
    map (fun c => Order.id (fst c)) created =
      z_seq (order_seq (seqs st)) (List.length groups) /\
    tables st' =
      mkDB (restaurants (tables st)) (menu_items (tables st))
           (orders (tables st) ++ map fst created)
           (order_items (tables st) ++ List.concat (map snd created))
           (filter (fun c => negb (cart_of_user uid c)) (cart (tables st))) /\
    order_seq (seqs st') = order_seq (seqs st) + Z.of_nat (List.length groups).
Proof.
  intros H.
  destruct (place_order_trace _ _ _ _ H)
    as (groups & s1 & s2 & _ & Hg & Ho & Hd & _ & ->).
  apply create_orders_Ok in Ho. destruct Ho as (created & Hf & Hids & Hwk & Hseq).
  apply write_Ok in Hd. destruct Hd as [_ ->]. cbn in *.
  exists groups, created. split; [exact Hg|]. split; [exact Hf|].
  split; [exact Hids|]. split; [|exact Hseq].
  rewrite Hwk. destruct (tables st). reflexivity.
Qed.

(** X9. Nothing is lost or invented at checkout: the totals of the
    orders created by a successful [place_order] add up to the total that
    [get_cart_total] and [view_cart] showed for the cart before the call,
    and there is one new order line per cart row. *)
Theorem place_order_conserves_total env uid st st' :
  place_order env uid st = (order_placed, st') ->
  exists new_orders new_lines,
    orders (tables st') = orders (tables st) ++ new_orders /\
    order_items (tables st') = order_items (tables st) ++ new_lines /\
    get_cart_total uid (begin_request st) =
      (Ok (zsum (map Order.total_amount new_orders)), begin_request st) /\
    view_cart uid st =
      Some (filter (cart_of_user uid) (cart (tables st)),
            zsum (map Order.total_amount new_orders)) /\
    List.length new_lines =
      List.length (filter (cart_of_user uid) (cart (tables st))).
Proof.
  intros H.
  destruct (place_order_written _ _ _ _ H)
    as (groups & created & Hg & Hf & _ & Ht & _).
  exists (map fst created), (List.concat (map snd created)).
  rewrite Ht. cbn. split; [reflexivity|]. split; [reflexivity|].
  destruct (order_of_sums _ _ _ _ Hf) as (Htot & Hlen & _).
  destruct (group_by_restaurant_sums (tables st) _ _ (begin_request st) _ _
              eq_refl Hg) as [Hsum _].
  apply (group_by_restaurant_Ok (tables st)) in Hg;
    [|reflexivity | split; [constructor | constructor]].
  destruct Hg as (_ & _ & _ & Hall).
  assert (Hres : forallb (resolvable (tables st))
                   (filter (cart_of_user uid) (cart (tables st))) = true).
  { apply forallb_forall. intros item Hin. rewrite Forall_forall in Hall.
    destruct (Hall item Hin) as [r Hr]. unfold restaurant_of_item in Hr.
    unfold resolvable.
    destruct (MenuItem_get (Cart.menu_item_id item) (tables st));
      [reflexivity | discriminate Hr]. }
  assert (Hrun : sum_prices (filter (cart_of_user uid) (cart (tables st))) 0
                   (begin_request st) =
                 (Ok (zsum (map Order.total_amount (map fst created))),
                  begin_request st)).
  { rewrite sum_prices_resolvable by exact Hres.
    rewrite Htot, Hsum. cbn. reflexivity. }
  split; [|split].
  - unfold get_cart_total, bind, query. cbn. exact Hrun.
  - unfold view_cart, bind, query. cbn. cbn in Hrun. rewrite Hrun. reflexivity.
  - apply Nat2Z.inj. rewrite Hlen, Hsum, zsum_ones. cbn. lia.
Qed.

Lemma place_order_conserves_total_witness :
  exists new_orders new_lines,
    orders (tables (snd (place_order (example_env None) 5 example_store))) =
      orders (tables example_store) ++ new_orders /\
    order_items (tables (snd (place_order (example_env None) 5 example_store))) =
      order_items (tables example_store) ++ new_lines /\
    get_cart_total 5 (begin_request example_store) =
      (Ok (zsum (map Order.total_amount new_orders)),
       begin_request example_store) /\
    view_cart 5 example_store =
      Some (filter (cart_of_user 5) (cart (tables example_store)),
            zsum (map Order.total_amount new_orders)) /\
    List.length new_lines =
      List.length (filter (cart_of_user 5) (cart (tables example_store))).
Proof.
  apply (place_order_conserves_total (example_env None) 5 example_store).
  vm_compute. reflexivity.
Defined.

(** X10. The dashboard's revenue of a restaurant grows, on a successful
    [place_order], by exactly the value of the user's cart rows of that
    restaurant: the sum of catalog price times quantity over them. *)
Theorem place_order_revenue env uid st st' restaurant :
  place_order env uid st = (order_placed, st') ->
  total_revenue restaurant (tables st') =
  total_revenue restaurant (tables st) +
  zsum (map (line_total (tables st))
            (filter (fun item =>
                       match restaurant_of_item (tables st) item with
                       | Some k => k =? Restaurant.id restaurant
                       | None => false
                       end)
                    (filter (cart_of_user uid) (cart (tables st))))).
Proof.
  intros H.
  destruct (place_order_written _ _ _ _ H)
    as (groups & created & Hg & Hf & _ & Ht & _).
  unfold total_revenue. rewrite !func_sum_or_0, Ht. cbn [orders].
  rewrite filter_app, map_app, zsum_app. f_equal.
  destruct (order_of_sums _ _ _ _ Hf) as (_ & _ & Hrev).
  rewrite Hrev.
  destruct (group_by_restaurant_sums (tables st) _ _ (begin_request st) _ _
              eq_refl Hg) as [_ Hsum].
  rewrite Hsum. reflexivity.
Qed.

Lemma place_order_revenue_witness :
  total_revenue (Restaurant.mk 1 7)
    (tables (snd (place_order (example_env None) 5 example_store))) =
  total_revenue (Restaurant.mk 1 7) (tables example_store) +
  zsum (map (line_total (tables example_store))
            (filter (fun item =>
                       match restaurant_of_item (tables example_store) item with
                       | Some k => k =? Restaurant.id (Restaurant.mk 1 7)
                       | None => false
                       end)
                    (filter (cart_of_user 5) (cart (tables example_store))))).
Proof.
  apply (place_order_revenue (example_env None) 5 example_store).
  vm_compute. reflexivity.
Defined.

(** *** The counter of order ids *)

Lemma grows_ret {A} (a : A) : order_seq_grows (ret a).
Proof. intros s r s' H. inversion H. lia. Qed.

Lemma grows_raise {A} (e : Exc) : order_seq_grows (@raise A e).
Proof. intros s r s' H. inversion H. lia. Qed.

Lemma grows_query {A} (q : DB -> A) : order_seq_grows (query q).
Proof. intros s r s' H. inversion H. lia. Qed.

Lemma grows_bind {A B} (m : M A) (f : A -> M B) :
  order_seq_grows m -> (forall a, order_seq_grows (f a)) ->
  order_seq_grows (bind m f).
Proof.
  intros Hm Hf s r s'. unfold bind.
  destruct (m s) as [[a|e] s1] eqn:E; intros H.
  - pose proof (Hm _ _ _ E). pose proof (Hf a _ _ _ H). lia.
  - inversion H; subst. exact (Hm _ _ _ E).
Qed.

Lemma grows_write env upd :
  (forall k sq db, order_seq sq <= order_seq (snd (upd k sq db))) ->
  order_seq_grows (write env upd).
Proof.
  intros Hupd s r s'. unfold write.
  destruct (fault_at env (step s)).
  - intros H. inversion H. lia.
  - pose proof (Hupd (step s) (autoinc s) (working s)) as Hle.
    destruct (upd (step s) (autoinc s) (working s)) as [db sq].
    intros H. inversion H. exact Hle.
Qed.

Lemma grows_commit env : order_seq_grows (commit env).
Proof.
  intros s r s'. unfold commit.
  destruct (fault_at env (step s)); intros H; inversion H; cbn; lia.
Qed.

Lemma grows_menu_item_of item : order_seq_grows (menu_item_of item).
Proof.
  apply grows_bind; [apply grows_query|].
  intros [m|]; [apply grows_ret | apply grows_raise].
Qed.

Lemma grows_group_by_restaurant items :
  forall d, order_seq_grows (group_by_restaurant items d).
Proof.
  induction items as [|item rest IH]; intros d; simpl.
  - apply grows_ret.
  - apply grows_bind; [apply grows_menu_item_of | intros m; apply IH].
Qed.

Lemma grows_sum_prices items : forall acc, order_seq_grows (sum_prices items acc).
Proof.
  induction items as [|item rest IH]; intros acc; simpl.
  - apply grows_ret.
  - apply grows_bind; [apply grows_menu_item_of | intros m; apply IH].
Qed.

Lemma grows_add_order_items env oid items :
  order_seq_grows (add_order_items env oid items).
Proof.
  induction items as [|item rest IH]; simpl.
  - apply grows_ret.
  - apply grows_bind; [apply grows_menu_item_of | intros m].
    apply grows_bind; [|intros _; exact IH].
    apply grows_write. intros k sq db. cbn. lia.
Qed.

Lemma grows_create_orders env uid groups :
  order_seq_grows (create_orders env uid groups).
Proof.
  induction groups as [|[rid items] rest IH]; simpl.
  - apply grows_ret.
  - apply grows_bind; [intros s r s' H; inversion H; lia | intros k].
    apply grows_bind; [apply grows_sum_prices | intros total].
    apply grows_bind; [|intros oid].
    + apply grows_bind; [intros s r s' H; inversion H; lia | intros i].
      apply grows_bind; [|intros _; apply grows_ret].
      apply grows_write. intros k0 sq db. cbn. lia.
    + apply grows_bind; [apply grows_add_order_items | intros _; exact IH].
Qed.

Lemma grows_place_order_body env uid : order_seq_grows (place_order_body env uid).
Proof.
  apply grows_bind; [apply grows_query | intros items].
  destruct items as [|c l]; [apply grows_ret|].
  apply grows_bind; [apply grows_group_by_restaurant | intros d].
  apply grows_bind; [apply grows_create_orders | intros _].
  apply grows_bind; [|intros _].
  - apply grows_write. intros k sq db. cbn. lia.
  - apply grows_bind; [apply grows_commit | intros _; apply grows_ret].
Qed.

(** X11. [place_order] keeps the counter of order ids above every order
    id in use, in the orders and in the foreign keys of the order lines,
    whether it succeeds, fails part way or finds the cart empty; so the
    next order it creates never takes over the lines of an older one. *)
Theorem place_order_keeps_wf env uid st :
  Store_wf st -> Store_wf (snd (place_order env uid st)).
Proof.
  intros [Ho Hi].
  destruct (place_order_cases env uid st)
    as [[_ E] | [(_ & e & s & B & E) | (_ & st1 & g & c & E & _ & _)]].
  - rewrite E. split; assumption.
  - rewrite E. cbn [snd]. apply grows_place_order_body in B. cbn in B.
    split; cbn.
    + eapply Forall_impl; [|exact Ho]. cbn. intros o Hlt. lia.
    + eapply Forall_impl; [|exact Hi]. cbn. intros oi Hlt. lia.
  - rewrite E. cbn [snd].
    destruct (place_order_written _ _ _ _ E)
      as (groups & created & _ & Hf & Hids & Ht & Hseq).
    assert (Hnew : forall x, In x created ->
                             Order.id (fst x) < order_seq (seqs st1)).
    { intros x Hx. rewrite Hseq.
      assert (Hb : In (Order.id (fst x))
                      (z_seq (order_seq (seqs st)) (List.length groups))).
      { rewrite <- Hids. apply (in_map (fun c => Order.id (fst c))). exact Hx. }
      apply z_seq_bounds in Hb. lia. }
    split; rewrite Ht; cbn; apply Forall_app; split.
    + eapply Forall_impl; [|exact Ho]. cbn. intros o Hlt. lia.
    + apply Forall_forall. intros o Hin. apply in_map_iff in Hin.
      destruct Hin as (x & <- & Hx). apply Hnew, Hx.
    + eapply Forall_impl; [|exact Hi]. cbn. intros oi Hlt. lia.
    + apply Forall_forall. intros oi Hin. apply in_concat in Hin.
      destruct Hin as (l & Hl & Hoi). apply in_map_iff in Hl.
      destruct Hl as (x & <- & Hx).
      pose proof (order_of_lines _ _ _ _ Hf) as Hown.
      rewrite Forall_forall in Hown. specialize (Hown x Hx).
      rewrite Forall_forall in Hown. rewrite (Hown oi Hoi). apply Hnew, Hx.
Qed.

Lemma place_order_keeps_wf_witness :
  Store_wf (snd (place_order (example_env (Some 2%nat)) 5 example_store)) /\
  Store_wf (snd (place_order (example_env None) 5 example_store)).
Proof.
  split; apply place_order_keeps_wf; split; constructor.
Defined.

(** *** Which writes a placement needs *)

Lemma resolvable_same db db' item :
  menu_items db' = menu_items db -> resolvable db' item = resolvable db item.
Proof.
  intros E. unfold resolvable. rewrite (MenuItem_get_same _ _ _ E). reflexivity.
Qed.

Lemma all_resolvable_same db db' items :
  menu_items db' = menu_items db ->
  forallb (resolvable db') items = forallb (resolvable db) items.
Proof.
  intros E. induction items as [|x l IH]; simpl; [reflexivity|].
  rewrite IH, (resolvable_same _ _ _ E). reflexivity.
Qed.

Lemma writes_accepted_split env a n m :
  writes_accepted env a (n + m) <->
  writes_accepted env a n /\ writes_accepted env (a + n) m.
Proof.
  unfold writes_accepted. split.
  - intros H. split; intros k Hk; apply H; lia.
  - intros [H1 H2] k Hk. destruct (Nat.lt_ge_cases k (a + n)).
    + apply H1. lia.
    + apply H2. lia.
Qed.

Lemma writes_accepted_one env a :
  writes_accepted env a 1 <-> fault_at env a = false.
Proof.
  unfold writes_accepted. split.
  - intros H. apply H. lia.
  - intros H k Hk. replace k with a by lia. exact H.
Qed.

Lemma add_order_items_steps env oid items :
  forall s u s',
    add_order_items env oid items s = (Ok u, s') ->
    step s' = (step s + List.length items)%nat /\
    writes_accepted env (step s) (List.length items).
Proof.
  induction items as [|item rest IH]; intros s u s' H; simpl in H.
  - inversion H; subst. split; [cbn; lia|]. intros k Hk. simpl in Hk. lia.
  - apply bind_Ok in H. destruct H as (m & s1 & Hm & H).
    apply menu_item_of_Ok in Hm. destruct Hm as [-> _].
    apply bind_Ok in H. destruct H as (u1 & s2 & Hw & H).
    apply write_Ok in Hw. destruct Hw as [Hf ->].
    apply IH in H. cbn in H. destruct H as [Hs Ha]. cbn [List.length].
    split; [lia|].
    apply (writes_accepted_split env (step s) 1 (List.length rest)).
    split; [apply writes_accepted_one, Hf|].
    replace (step s + 1)%nat with (S (step s)) by lia. exact Ha.
Qed.

Lemma create_orders_steps env uid groups :
  forall s u s',
    create_orders env uid groups s = (Ok u, s') ->
    step s' = (step s + (List.length groups
                         + List.length (List.concat (map snd groups))))%nat /\
    writes_accepted env (step s)
      (List.length groups + List.length (List.concat (map snd groups))).
Proof.
  induction groups as [|[rid items] rest IH]; intros s u s' H; simpl in H.
  - inversion H; subst. split; [cbn; lia|]. intros k Hk. cbn in Hk. lia.
  - apply bind_Ok in H. destruct H as (k & s1 & Hk & H). inversion Hk; subst.
    apply bind_Ok in H. destruct H as (total & s2 & Ht & H).
    apply sum_prices_Ok in Ht. destruct Ht as [-> _].
    apply bind_Ok in H. destruct H as (oid & s3 & Ho & H).
    unfold insert_order in Ho.
    apply bind_Ok in Ho. destruct Ho as (i & s4 & Hi & Ho). inversion Hi; subst.
    apply bind_Ok in Ho. destruct Ho as (u0 & s5 & Hw & Ho).
    apply write_Ok in Hw. destruct Hw as [Hf ->]. inversion Ho; subst.
    apply bind_Ok in H. destruct H as (u1 & s6 & Ha & H).
    apply add_order_items_steps in Ha. cbn in Ha. destruct Ha as [Hs6 Ha6].
    apply IH in H. destruct H as [Hs' Ha'].
    cbn [List.length map List.concat snd]. rewrite length_app.
    split; [lia|].
    replace (S (List.length rest)
             + (List.length items
                + List.length (List.concat (map snd rest))))%nat
      with (1 + (List.length items
                 + (List.length rest
                    + List.length (List.concat (map snd rest)))))%nat by lia.
    apply writes_accepted_split. split; [apply writes_accepted_one, Hf|].
    apply writes_accepted_split. split.
    + rewrite Nat.add_1_r. exact Ha6.
    + match goal with
      | |- writes_accepted _ ?a _ => replace a with (step s6) by lia
      end.
      exact Ha'.
Qed.

Lemma group_by_restaurant_succeeds items :
  forall d s,
    forallb (resolvable (working s)) items = true ->
    exists d', group_by_restaurant items d s = (Ok d', s).
Proof.
  induction items as [|item rest IH]; intros d s H; simpl in *.
  - exists d. reflexivity.
  - apply andb_true_iff in H. destruct H as [Hi Hr].
    unfold bind at 1, menu_item_of, bind, query. unfold resolvable in Hi.
    destruct (MenuItem_get (Cart.menu_item_id item) (working s)) as [m|];
      [|discriminate Hi].
    cbn. apply IH, Hr.
Qed.

Lemma write_accepted env upd s :
  fault_at env (step s) = false ->
  write env upd s =
  (Ok tt, mkSession (committed s)
            (fst (upd (step s) (autoinc s) (working s)))
            (snd (upd (step s) (autoinc s) (working s)))
            (S (step s))).
Proof.
  intros H. unfold write. rewrite H.
  destruct (upd (step s) (autoinc s) (working s)). reflexivity.
Qed.

Lemma add_order_items_succeeds env oid items :
  forall s,
    forallb (resolvable (working s)) items = true ->
    writes_accepted env (step s) (List.length items) ->
    exists s',
      add_order_items env oid items s = (Ok tt, s') /\
      step s' = (step s + List.length items)%nat /\
      menu_items (working s') = menu_items (working s).
Proof.
  induction items as [|item rest IH]; intros s Hres Hacc; simpl in *.
  - exists s. repeat split. lia.
  - apply andb_true_iff in Hres. destruct Hres as [Hi Hr].
    apply (writes_accepted_split env (step s) 1 (List.length rest)) in Hacc.
    destruct Hacc as [H1 H2]. apply writes_accepted_one in H1.
    unfold bind at 1, menu_item_of, bind at 1, query. unfold resolvable in Hi.
    destruct (MenuItem_get (Cart.menu_item_id item) (working s)) as [m|];
      [|discriminate Hi].
    cbn -[insert_order_item]. unfold bind, insert_order_item.
    rewrite write_accepted by exact H1. cbn.
    match goal with
    | |- exists s', add_order_items _ _ _ ?s1 = _ /\ _ =>
        destruct (IH s1) as (s' & Hrun & Hstep & Hmenu)
    end.
    + rewrite <- Hr. apply all_resolvable_same. reflexivity.
    + cbn. replace (S (step s)) with (step s + 1)%nat by lia. exact H2.
    + exists s'. split; [exact Hrun|]. cbn in Hstep, Hmenu.
      split; [lia | exact Hmenu].
Qed.

Lemma create_orders_succeeds env uid groups :
  forall s,
    forallb (resolvable (working s)) (List.concat (map snd groups)) = true ->
    writes_accepted env (step s)
      (List.length groups + List.length (List.concat (map snd groups))) ->
    exists s', create_orders env uid groups s = (Ok tt, s').
Proof.
  induction groups as [|[rid items] rest IH]; intros s Hres Hacc.
  - exists s. reflexivity.
  - cbn [map List.concat snd List.length] in Hres, Hacc.
    rewrite forallb_app in Hres. apply andb_true_iff in Hres.
    destruct Hres as [Hitems Hrest]. rewrite length_app in Hacc.
    replace (S (List.length rest)
             + (List.length items
                + List.length (List.concat (map snd rest))))%nat
      with (1 + (List.length items
                 + (List.length rest
                    + List.length (List.concat (map snd rest)))))%nat
      in Hacc by lia.
    apply writes_accepted_split in Hacc. destruct Hacc as [H1 Hacc].
    apply writes_accepted_one in H1.
    apply writes_accepted_split in Hacc. destruct Hacc as [H2 H3].
    cbn [create_orders]. unfold bind at 1, written.
    unfold bind at 1. rewrite sum_prices_resolvable by exact Hitems.
    unfold bind at 1, insert_order, bind at 1, next_order_id, bind at 1.
    rewrite write_accepted by exact H1. unfold bind at 1, ret at 1.
    match goal with
    | |- context [add_order_items _ ?oid _ ?s1] =>
        destruct (add_order_items_succeeds env oid items s1)
          as (s2 & Hrun & Hstep & Hmenu)
    end.
    + rewrite <- Hitems. apply all_resolvable_same. reflexivity.
    + cbn. replace (S (step s)) with (step s + 1)%nat by lia. exact H2.
    + rewrite Hrun. cbn in Hstep, Hmenu. apply IH.
      * rewrite <- Hrest. apply all_resolvable_same. exact Hmenu.
      * replace (step s2) with (step s + 1 + List.length items)%nat by lia.
        exact H3.
Qed.

Lemma dict_sum_ones d :
  dict_sum (fun _ => 1) d = Z.of_nat (List.length (List.concat (map snd d))).
Proof.
  unfold dict_sum. induction d as [|g d IH]; [reflexivity|].
  cbn [map List.concat zsum fold_right]. rewrite length_app, Nat2Z.inj_add.
  fold (zsum (map (fun g0 : Z * list Cart.t =>
                     zsum (map (fun _ : Cart.t => 1) (snd g0))) d)).
  rewrite IH, zsum_ones. reflexivity.
Qed.

(** The dict of a cart: one key per restaurant, every row once, all rows
    in the catalog. *)
Lemma groups_of_cart uid st groups :
  group_by_restaurant (filter (cart_of_user uid) (cart (tables st))) []
    (begin_request st) = (Ok groups, begin_request st) ->
  List.length groups =
    List.length (nodup Z.eq_dec (restaurants_in_cart (tables st) uid)) /\
  List.length (List.concat (map snd groups)) =
    List.length (filter (cart_of_user uid) (cart (tables st))) /\
  forallb (resolvable (tables st)) (List.concat (map snd groups)) = true /\
  forallb (resolvable (tables st))
          (filter (cart_of_user uid) (cart (tables st))) = true.
Proof.
  intros Hg.
  destruct (group_by_restaurant_sums (tables st) _ _ (begin_request st) _ _
              eq_refl Hg) as [Hsum _].
  apply (group_by_restaurant_Ok (tables st)) in Hg;
    [|reflexivity | split; [constructor | constructor]].
  destruct Hg as (_ & (Hnd & Hgr) & Hkeys & Hall).
  split; [|split; [|split]].
  - rewrite <- (length_map fst groups).
    apply Permutation_length, NoDup_Permutation.
    + exact Hnd.
    + apply NoDup_nodup.
    + intros r. rewrite nodup_In, Hkeys, in_restaurants_in_cart. cbn.
      split; [intros [[]|H]; exact H | intros H; right; exact H].
  - apply Nat2Z.inj. rewrite <- dict_sum_ones, Hsum, zsum_ones. cbn. lia.
  - apply forallb_forall. intros item Hin. apply in_concat in Hin.
    destruct Hin as (l & Hl & Hitem). apply in_map_iff in Hl.
    destruct Hl as (g & <- & Hgin). rewrite Forall_forall in Hgr.
    destruct (Hgr g Hgin) as [_ Hitems]. rewrite Forall_forall in Hitems.
    specialize (Hitems item Hitem). unfold restaurant_of_item in Hitems.
    unfold resolvable.
    destruct (MenuItem_get (Cart.menu_item_id item) (tables st));
      [reflexivity | discriminate Hitems].
  - apply forallb_forall. intros item Hin. rewrite Forall_forall in Hall.
    destruct (Hall item Hin) as [r Hr]. unfold restaurant_of_item in Hr.
    unfold resolvable.
    destruct (MenuItem_get (Cart.menu_item_id item) (tables st));
      [reflexivity | discriminate Hr].
Qed.

(** X12. When the cart is not empty, [place_order] succeeds exactly when
    every cart row of the user names a menu item of the catalog and the
    database accepts all the writes of the placement: one insert per
    distinct restaurant, one per cart row, the deletion of the cart and
    the commit.  A refusal of any one of them makes the call fail. *)
Theorem place_order_succeeds_iff env uid st :
  filter (cart_of_user uid) (cart (tables st)) <> [] ->
  (fst (place_order env uid st) = order_placed <->
   forallb (resolvable (tables st))
           (filter (cart_of_user uid) (cart (tables st))) = true /\
   writes_accepted env 0 (placement_writes (tables st) uid)).
Proof.
  intros Hne. unfold placement_writes. split.
  - intros H.
    assert (E : place_order env uid st =
                (order_placed, snd (place_order env uid st))).
    { rewrite <- H. destruct (place_order env uid st). reflexivity. }
    destruct (place_order_trace _ _ _ _ E)
      as (groups & s1 & s2 & _ & Hg & Ho & Hd & Hfc & _).
    destruct (groups_of_cart _ _ _ Hg) as (Hn & Hrows & _ & Hres).
    split; [exact Hres|].
    apply create_orders_steps in Ho. cbn in Ho. destruct Ho as [Hs1 Hacc].
    apply write_Ok in Hd. destruct Hd as [Hfd ->]. cbn in Hfc.
    rewrite <- Hn, <- Hrows.
    replace (List.length groups + List.length (List.concat (map snd groups)) + 2)%nat
      with ((List.length groups + List.length (List.concat (map snd groups)))
            + (1 + 1))%nat by lia.
    apply writes_accepted_split. split; [exact Hacc|].
    apply writes_accepted_split. cbn [Nat.add]. rewrite <- Hs1.
    split; apply writes_accepted_one; [exact Hfd|].
    rewrite Nat.add_1_r. exact Hfc.
  - intros [Hres Hacc].
    destruct (filter (cart_of_user uid) (cart (tables st))) as [|c l] eqn:E;
      [contradiction Hne; reflexivity|].
    destruct (group_by_restaurant_succeeds (c :: l) [] (begin_request st) Hres)
      as [groups Hg].
    rewrite <- E in Hg. destruct (groups_of_cart _ _ _ Hg) as (Hn & Hrows & Hgres & _).
    rewrite E in Hg, Hrows. rewrite <- Hn, <- Hrows in Hacc.
    replace (List.length groups + List.length (List.concat (map snd groups)) + 2)%nat
      with ((List.length groups + List.length (List.concat (map snd groups)))
            + (1 + 1))%nat in Hacc by lia.
    apply writes_accepted_split in Hacc. destruct Hacc as [Hacc Htail].
    apply writes_accepted_split in Htail. destruct Htail as [Hfd Hfc].
    apply writes_accepted_one in Hfd. apply writes_accepted_one in Hfc.
    destruct (create_orders_succeeds env uid groups (begin_request st) Hgres Hacc)
      as [s1 Ho].
    pose proof (create_orders_steps _ _ _ _ _ _ Ho) as [Hs1 _]. cbn in Hs1.
    cbn [Nat.add] in Hfd, Hfc. rewrite <- Hs1 in Hfd, Hfc.
    unfold place_order.
    rewrite (place_order_body_nonempty env uid _ c l) by exact E.
    unfold place_order_writes, bind. rewrite Hg, Ho.
    unfold delete_cart_of_user. rewrite write_accepted by exact Hfd.
    unfold commit. cbn [step]. rewrite Nat.add_1_r in Hfc. rewrite Hfc.
    reflexivity.
Qed.

Lemma place_order_succeeds_iff_witness :
  fst (place_order (example_env (Some 6%nat)) 5 example_store) = order_placed /\
  fst (place_order (example_env (Some 3%nat)) 5 example_store) <> order_placed.
Proof.
  split.
  - apply (proj2 (place_order_succeeds_iff (example_env (Some 6%nat)) 5
                    example_store ltac:(discriminate))).
    split; [reflexivity|]. intros k Hk.
    assert (Hlt : (k < 6)%nat) by (vm_compute in Hk; lia).
    unfold fault_at, example_env. cbn [fault]. apply Nat.eqb_neq. lia.
  - intros H.
    apply (proj1 (place_order_succeeds_iff (example_env (Some 3%nat)) 5
                    example_store ltac:(discriminate))) in H.
    destruct H as [_ H]. specialize (H 3%nat). unfold fault_at in H. cbn in H.
    assert (Hk : (0 <= 3 < 0 + placement_writes (tables example_store) 5)%nat)
      by (vm_compute; lia).
    specialize (H Hk). discriminate H.
Defined.

(** ** delete_menu_item, delete_restaurant, update_order_status *)

Lemma MenuItem_get_id mid db m : MenuItem_get mid db = Some m -> MenuItem.id m = mid.
Proof.
  unfold MenuItem_get. intros H. apply find_some in H. destruct H as [_ E].
  apply Z.eqb_eq. exact E.
Qed.

Lemma Restaurant_get_id rid db r :
  Restaurant_get rid db = Some r -> Restaurant.id r = rid.
Proof.
  unfold Restaurant_get. intros H. apply find_some in H. destruct H as [_ E].
  apply Z.eqb_eq. exact E.
Qed.

Lemma find_filter_other {A} (key : A -> Z) k k0 l :
  k <> k0 ->
  find (fun x => key x =? k) (filter (fun x => negb (key x =? k0)) l) =
  find (fun x => key x =? k) l.
Proof.
  intros Hne. induction l as [|x l IH]; simpl; [reflexivity|].
  destruct (key x =? k0) eqn:E0; simpl.
  - apply Z.eqb_eq in E0. destruct (key x =? k) eqn:E; [|exact IH].
    apply Z.eqb_eq in E. congruence.
  - rewrite IH. reflexivity.
Qed.

Lemma count_zero {A} (l : list A) : (Z.of_nat (List.length l) >? 0) = false -> l = [].
Proof.
  destruct l; [reflexivity|]. intros H.
  rewrite Z.gtb_ltb in H. apply Z.ltb_ge in H. cbn [List.length] in H. lia.
Qed.

(** [delete_menu_item], run. *)
Lemma delete_menu_item_run env uid rid mid st :
  delete_menu_item env uid rid mid st =
  match Restaurant_get rid (tables st), MenuItem_get mid (tables st) with
  | Some r, Some m =>
      if negb (Restaurant.owner_id r =? uid)
         || negb (MenuItem.restaurant_id m =? Restaurant.id r)
      then ("Unauthorized access."%string, st)
      else if Z.of_nat (List.length
                 (filter (fun oi => OrderItem.menu_item_id oi =? MenuItem.id m)
                         (order_items (tables st)))) >? 0
      then ("Cannot delete this menu item because it is part of existing orders."%string,
            st)
      else if fault_at env 0 then ("Error deleting menu item."%string, st)
      else if fault_at env 1 then ("Error deleting menu item."%string, st)
      else ("Menu item deleted successfully!"%string,
            mkStore
              (set_menu_items
                 (filter (fun x => negb (MenuItem.id x =? MenuItem.id m))
                         (menu_items (tables st))) (tables st))
              (seqs st))
  | _, _ => ("Error deleting menu item."%string, st)
  end.
Proof.
  unfold delete_menu_item, delete_menu_item_body, or_404, bind, query, ret,
    raise, delete_menu_item_row, write, commit, begin_request, end_request.
  cbn. destruct st as [db sq]. cbn.
  destruct (Restaurant_get rid db) as [r|]; cbn; [|reflexivity].
  destruct (MenuItem_get mid db) as [m|]; cbn; [|reflexivity].
  destruct (negb (Restaurant.owner_id r =? uid)
            || negb (MenuItem.restaurant_id m =? Restaurant.id r)); cbn;
    [reflexivity|].
  destruct (Z.of_nat _ >? 0); cbn; [reflexivity|].
  destruct (fault_at env 0); cbn; try reflexivity;
    destruct (fault_at env 1); cbn; reflexivity.
Qed.

(** X13. [delete_menu_item] never leaves an order line without its menu
    item: when every order line names a menu item of the catalog before
    the call, it still does after; and a menu item named by an order line
    is not deleted, the store stays exactly as it is. *)
Theorem delete_menu_item_keeps_lines env uid rid mid st :
  lines_resolve (tables st) ->
  lines_resolve (tables (snd (delete_menu_item env uid rid mid st))) /\
  ((exists oi, In oi (order_items (tables st)) /\
               OrderItem.menu_item_id oi = mid) ->
   snd (delete_menu_item env uid rid mid st) = st).
Proof.
  intros Hres. rewrite delete_menu_item_run.
  destruct (Restaurant_get rid (tables st)) as [r|]; [|split; [exact Hres|reflexivity]].
  destruct (MenuItem_get mid (tables st)) as [m|] eqn:Hm;
    [|split; [exact Hres|reflexivity]].
  pose proof (MenuItem_get_id _ _ _ Hm) as Hid.
  destruct (negb (Restaurant.owner_id r =? uid)
            || negb (MenuItem.restaurant_id m =? Restaurant.id r));
    [split; [exact Hres|reflexivity]|].
  destruct (Z.of_nat _ >? 0) eqn:Hcount; [split; [exact Hres|reflexivity]|].
  apply count_zero in Hcount.
  assert (Hfree : forall oi, In oi (order_items (tables st)) ->
                             OrderItem.menu_item_id oi <> MenuItem.id m).
  { intros oi Hin Heq.
    assert (Hx : In oi (filter (fun oi => OrderItem.menu_item_id oi
                                          =? MenuItem.id m)
                               (order_items (tables st)))).
    { apply filter_In. split; [exact Hin | apply Z.eqb_eq, Heq]. }
    rewrite Hcount in Hx. destruct Hx. }
  destruct (fault_at env 0); [split; [exact Hres|reflexivity]|].
  destruct (fault_at env 1); [split; [exact Hres|reflexivity]|].
  cbn [snd]. split.
  - unfold lines_resolve in *. cbn. rewrite Forall_forall in Hres |- *.
    intros oi Hin. unfold MenuItem_get. cbn.
    rewrite (find_filter_other MenuItem.id) by (apply Hfree, Hin).
    apply Hres, Hin.
  - intros (oi & Hin & Heq). exfalso. apply (Hfree oi Hin). congruence.
Qed.

Lemma example_ordered_lines : lines_resolve (tables example_ordered).
Proof. repeat constructor. discriminate. Qed.

Lemma delete_menu_item_keeps_lines_witness :
  lines_resolve (tables (snd (delete_menu_item (example_env None) 7 1 1
                                example_ordered))) /\
  snd (delete_menu_item (example_env None) 7 1 1 example_ordered) =
    example_ordered.
Proof.
  destruct (delete_menu_item_keeps_lines (example_env None) 7 1 1
              example_ordered example_ordered_lines) as [H1 H2].
  split; [exact H1|]. apply H2.
  exists (OrderItem.mk 1 3 1000 1 1). split; [left; reflexivity | reflexivity].
Defined.



Lemma keeps_delete_menu_items env items :
  keeps_committed (delete_menu_items env items).
Proof.
  induction items as [|item rest IH]; simpl.
  - apply keeps_ret.
  - apply keeps_bind; [apply keeps_write | intros _; exact IH].
Qed.

Lemma delete_menu_items_Ok env items :
  forall s u s',
    delete_menu_items env items s = (Ok u, s') ->
    working s' = set_menu_items (menu_items (working s')) (working s) /\
    forall m, In m (menu_items (working s')) <->
              In m (menu_items (working s)) /\
              ~ In (MenuItem.id m) (map MenuItem.id items).
Proof.
  induction items as [|item rest IH]; intros s u s' H; simpl in H.
  - inversion H; subst. split; [destruct (working s'); reflexivity|].
    intros m. cbn. tauto.
  - apply bind_Ok in H. destruct H as (u1 & s1 & Hw & H).
    apply write_Ok in Hw. destruct Hw as [_ ->].
    apply IH in H. cbn in H. destruct H as [Hwk Hin]. split.
    + rewrite Hwk at 1. destruct (working s). reflexivity.
    + intros m. rewrite Hin, filter_In. cbn [map In].
      rewrite negb_true_iff, Z.eqb_neq. intuition congruence.
Qed.

(** [delete_restaurant]: the checks, then the writes. *)
Lemma delete_restaurant_body_run env uid rid s :
  delete_restaurant_body env uid rid s =
  match Restaurant_get rid (working s) with
  | None => (Raise NotFound, s)
  | Some r =>
      if negb (Restaurant.owner_id r =? uid)
      then (Ok "Unauthorized access."%string, s)
      else if Z.of_nat (List.length
                 (filter (fun o => Order.restaurant_id o =? Restaurant.id r)
                         (orders (working s)))) >? 0
      then (Ok "Cannot delete this restaurant because it has existing orders."%string,
            s)
      else
        ((delete_menu_items env
            (filter (fun m => MenuItem.restaurant_id m =? Restaurant.id r)
                    (menu_items (working s))) ;;;
          delete_restaurant_row env (Restaurant.id r)) ;;;
         commit env ;;;
         ret "Restaurant deleted successfully."%string) s
  end.
Proof.
  unfold delete_restaurant_body, or_404, bind, query, ret, raise.
  destruct (Restaurant_get rid (working s)) as [r|]; [|reflexivity].
  destruct (negb (Restaurant.owner_id r =? uid)); [reflexivity|].
  destruct (Z.of_nat _ >? 0); [reflexivity|].
  destruct (delete_menu_items env _ s) as [[u|e] s1]; [|reflexivity].
  destruct (delete_restaurant_row env (Restaurant.id r) s1) as [[u'|e] s2];
    reflexivity.
Qed.

(** The two ways a call of [delete_restaurant] ends. *)
Lemma delete_restaurant_cases env uid rid st :
  (tables (snd (delete_restaurant env uid rid st)) = tables st /\
   fst (delete_restaurant env uid rid st) <>
     "Restaurant deleted successfully."%string)
  \/
  (exists r,
      Restaurant_get rid (tables st) = Some r /\
      Restaurant.owner_id r = uid /\
      filter (fun o => Order.restaurant_id o =? rid) (orders (tables st)) = [] /\
      fst (delete_restaurant env uid rid st) =
        "Restaurant deleted successfully."%string /\
      tables (snd (delete_restaurant env uid rid st)) =
        set_restaurants
          (filter (fun x => negb (Restaurant.id x =? rid))
                  (restaurants (tables st)))
          (set_menu_items
             (menu_items (tables (snd (delete_restaurant env uid rid st))))
             (tables st)) /\
      forall m,
        In m (menu_items (tables (snd (delete_restaurant env uid rid st)))) ->
        In m (menu_items (tables st)) /\ MenuItem.restaurant_id m <> rid).
Proof.
  unfold delete_restaurant. rewrite delete_restaurant_body_run.
  change (working (begin_request st)) with (tables st).
  destruct (Restaurant_get rid (tables st)) as [r|] eqn:Hr;
    [|left; split; [reflexivity | discriminate]].
  pose proof (Restaurant_get_id _ _ _ Hr) as Hid.
  destruct (Restaurant.owner_id r =? uid) eqn:Eo; cbn [negb];
    [|left; split; [reflexivity | discriminate]].
  destruct (Z.of_nat _ >? 0) eqn:Hcount;
    [left; split; [reflexivity | discriminate]|].
  apply count_zero in Hcount. rewrite Hid in *.
  match goal with
  | |- context [bind ?m ?f (begin_request st)] =>
      destruct (bind m f (begin_request st)) as [[flash|e] s] eqn:B
  end.
  - right. exists r. split; [reflexivity|]. apply Z.eqb_eq in Eo.
    split; [exact Eo|]. split; [exact Hcount|].
    apply bind_Ok in B. destruct B as (u & s1 & Hw & B).
    apply bind_Ok in B. destruct B as (u' & s2 & Hc & B).
    inversion B; subst flash s2. clear B.
    apply commit_Ok in Hc. destruct Hc as [_ ->].
    apply bind_Ok in Hw. destruct Hw as (u2 & s3 & Hd & Hw).
    apply delete_menu_items_Ok in Hd. cbn in Hd. destruct Hd as [Hwk Hin].
    apply write_Ok in Hw. destruct Hw as [_ ->]. cbn.
    split; [reflexivity|]. split.
    + set (ms := menu_items (working s3)) in *. rewrite Hwk.
      destruct (tables st). reflexivity.
    + intros m Hm. apply Hin in Hm. destruct Hm as [Hm Hnot].
      split; [exact Hm|]. intros Heq. apply Hnot.
      apply in_map, filter_In. split; [exact Hm | apply Z.eqb_eq, Heq].
  - left. split; [|discriminate]. cbn.
    apply bind_Raise in B. destruct B as [B | (u & s1 & Hw & B)].
    + assert (K : keeps_committed
                    (delete_menu_items env
                       (filter (fun m => MenuItem.restaurant_id m =? rid)
                               (menu_items (tables st))) ;;;
                     delete_restaurant_row env rid)).
      { apply keeps_bind; [apply keeps_delete_menu_items |
                           intros _; apply keeps_write]. }
      exact (K _ _ _ B).
    + assert (K : keeps_committed
                    (delete_menu_items env
                       (filter (fun m => MenuItem.restaurant_id m =? rid)
                               (menu_items (tables st))) ;;;
                     delete_restaurant_row env rid)).
      { apply keeps_bind; [apply keeps_delete_menu_items |
                           intros _; apply keeps_write]. }
      apply bind_Raise in B. destruct B as [B | (u' & s2 & _ & B)];
        [|discriminate B].
      apply commit_Raise in B. subst s. exact (K _ _ _ Hw).
Qed.

(** X15. [delete_restaurant] never leaves an order without its
    restaurant: when every order is an order of a restaurant of the
    catalog before the call, it still is after; and a restaurant that has
    an order is not deleted, no table changes and no deletion is
    reported. *)
Theorem delete_restaurant_keeps_orders env uid rid st :
  orders_resolve (tables st) ->
  orders_resolve (tables (snd (delete_restaurant env uid rid st))) /\
  ((exists o, In o (orders (tables st)) /\ Order.restaurant_id o = rid) ->
   tables (snd (delete_restaurant env uid rid st)) = tables st /\
   fst (delete_restaurant env uid rid st) <>
     "Restaurant deleted successfully."%string).
Proof.
  intros Hres.
  destruct (delete_restaurant_cases env uid rid st)
    as [[Ht Hf] | (r & Hr & _ & Hnone & _ & Ht & _)].
  - rewrite Ht. split; [exact Hres|]. intros _. split; [reflexivity | exact Hf].
  - assert (Hfree : forall o, In o (orders (tables st)) ->
                              Order.restaurant_id o <> rid).
    { intros o Hin Heq.
      assert (Hx : In o (filter (fun o => Order.restaurant_id o =? rid)
                                (orders (tables st)))).
      { apply filter_In. split; [exact Hin | apply Z.eqb_eq, Heq]. }
      rewrite Hnone in Hx. destruct Hx. }
    split.
    + unfold orders_resolve in *. rewrite Ht. cbn.
      rewrite Forall_forall in Hres |- *. intros o Hin.
      unfold Restaurant_get. cbn.
      rewrite (find_filter_other Restaurant.id) by (apply Hfree, Hin).
      apply Hres, Hin.
    + intros (o & Hin & Heq). destruct (Hfree o Hin Heq).
Qed.

Lemma example_ordered_orders : orders_resolve (tables example_ordered).
Proof. repeat constructor. discriminate. Qed.

Lemma delete_restaurant_keeps_orders_witness :
  orders_resolve (tables (snd (delete_restaurant (example_env None) 7 1
                                 example_ordered))) /\
  tables (snd (delete_restaurant (example_env None) 7 1 example_ordered)) =
    tables example_ordered.
Proof.
  destruct (delete_restaurant_keeps_orders (example_env None) 7 1
              example_ordered example_ordered_orders) as [H1 H2].
  split; [exact H1|]. apply H2.
  exists (Order.mk 1 "ORD1" "pending" 3000 10 10 5 1).
  split; [left; reflexivity | reflexivity].
Defined.



(** [update_order_status], run. *)
Lemma update_order_status_run env uid oid new_status st :
  update_order_status env uid oid new_status st =
  match Order_get oid (tables st) with
  | None => (jsonify false "Error updating order status", st)
  | Some o =>
      match Restaurant_get (Order.restaurant_id o) (tables st) with
      | None => (jsonify false "Error updating order status", st)
      | Some r =>
          if negb (Restaurant.owner_id r =? uid)
          then (jsonify false "Unauthorized", st)
          else if negb (status_in new_status valid_statuses)
          then (jsonify false "Invalid status", st)
          else if fault_at env 0
          then (jsonify false "Error updating order status", st)
          else if fault_at env 1
          then (jsonify false "Error updating order status", st)
          else (jsonify true "Order status updated!",
                mkStore
                  (set_orders
                     (map (fun x => if Order.id x =? Order.id o
                                    then with_status new_status (utcnow env 0) x
                                    else x)
                          (orders (tables st))) (tables st))
                  (seqs st))
      end
  end.
Proof.
  unfold update_order_status, update_order_status_body, or_404, restaurant_of,
    bind, query, ret, raise, update_order, write, commit, begin_request,
    end_request.
  cbn. destruct st as [db sq]. cbn.
  destruct (Order_get oid db) as [o|]; cbn; [|reflexivity].
  destruct (Restaurant_get (Order.restaurant_id o) db) as [r|]; cbn;
    [|reflexivity].
  destruct (Restaurant.owner_id r =? uid); cbn; [|reflexivity].
  destruct (status_in new_status valid_statuses); cbn; [|reflexivity].
  destruct (fault_at env 0); cbn; try reflexivity;
    destruct (fault_at env 1); cbn; reflexivity.
Qed.

(** X17. [update_order_status] changes nothing but the status and the
    update time of orders: for every caller, order id, status and refused
    write, the other tables are unchanged and every order keeps its id,
    number, total, creation time, customer and restaurant.  A caller who
    does not own the restaurant of the order, or a missing order, leaves
    the whole store as it is. *)
Theorem update_order_status_frame env uid oid new_status st :
  restaurants (tables (snd (update_order_status env uid oid new_status st))) =
    restaurants (tables st) /\
  menu_items (tables (snd (update_order_status env uid oid new_status st))) =
    menu_items (tables st) /\
  order_items (tables (snd (update_order_status env uid oid new_status st))) =
    order_items (tables st) /\
  cart (tables (snd (update_order_status env uid oid new_status st))) =
    cart (tables st) /\
  map order_core
      (orders (tables (snd (update_order_status env uid oid new_status st)))) =
    map order_core (orders (tables st)) /\
  ((forall o r,
       Order_get oid (tables st) = Some o ->
       Restaurant_get (Order.restaurant_id o) (tables st) = Some r ->
       Restaurant.owner_id r <> uid) ->
   snd (update_order_status env uid oid new_status st) = st).
Proof.
  rewrite update_order_status_run.
  destruct (Order_get oid (tables st)) as [o|]; [|repeat split].
  destruct (Restaurant_get (Order.restaurant_id o) (tables st)) as [r|] eqn:Hr;
    [|repeat split].
  destruct (Restaurant.owner_id r =? uid) eqn:Eo; [|repeat split].
  apply Z.eqb_eq in Eo. cbn [negb].
  assert (Hno : (forall o0 r0, Some o = Some o0 ->
                   Restaurant_get (Order.restaurant_id o0) (tables st) = Some r0 ->
                   Restaurant.owner_id r0 <> uid) -> False).
  { intros H. exact (H o r eq_refl Hr Eo). }
  destruct (negb (status_in new_status valid_statuses));
    [repeat split; intros H; destruct (Hno H)|].
  destruct (fault_at env 0); [repeat split; intros H; destruct (Hno H)|].
  destruct (fault_at env 1); [repeat split; intros H; destruct (Hno H)|].
  cbn. repeat split; [|intros H; destruct (Hno H)].
  rewrite map_map. apply map_ext. intros x.
  destruct (Order.id x =? Order.id o); reflexivity.
Qed.

Lemma update_order_status_frame_witness :
  snd (update_order_status (example_env None) 8 1 "cancelled" example_delivered) =
    example_delivered.
Proof.
  apply (update_order_status_frame (example_env None) 8 1 "cancelled"
           example_delivered).
  intros o r Ho Hr. vm_compute in Ho. inversion Ho; subst. vm_compute in Hr.
  inversion Hr. cbn. discriminate.
Defined.

(** ** utils.py *)

Ltac known_status :=
  cbn; split; [lia|];
  split; [split; [intros _; eexists; cbn; auto 12 | intros _; auto 12]|];
  split; [intros H; exfalso; apply H; auto 12|];
  split; intros; first [reflexivity | discriminate | lia].

(** X18. The progress map and the status workflow agree: the statuses
    that [update_order_status] accepts are exactly the keys of the map;
    every other string has progress 0; progress is always between 0 and
    100, and is 100 for "delivered" only. *)
Theorem progress_of_status s :
  0 <= get_order_status_progress s <= 100 /\
  (In s valid_statuses <-> exists p, In (s, p) progress_map) /\
  (~ In s valid_statuses -> get_order_status_progress s = 0) /\
  (get_order_status_progress s = 100 <-> s = "delivered"%string).
Proof.
  unfold get_order_status_progress, dict_get, progress_map, valid_statuses.
  cbn [find fst snd].
  destruct (String.eqb_spec "pending" s) as [<-|H1]; [known_status|].
  destruct (String.eqb_spec "confirmed" s) as [<-|H2]; [known_status|].
  destruct (String.eqb_spec "preparing" s) as [<-|H3]; [known_status|].
  destruct (String.eqb_spec "ready" s) as [<-|H4]; [known_status|].
  destruct (String.eqb_spec "delivered" s) as [<-|H5]; [known_status|].
  destruct (String.eqb_spec "cancelled" s) as [<-|H6]; [known_status|].
  cbn. split; [lia|]. split; [split|split].
  - intros H. repeat (destruct H as [H|H]; [congruence|]). destruct H.
  - intros [p H]. repeat (destruct H as [H|H]; [inversion H; congruence|]).
    destruct H.
  - reflexivity.
  - split; [discriminate | congruence].
Qed.

Lemma string_has_app c s1 s2 :
  string_has c (s1 ++ s2)%string = string_has c s1 || string_has c s2.
Proof.
  induction s1 as [|x s1 IH]; simpl; [reflexivity|].
  rewrite IH, orb_assoc. reflexivity.
Qed.

Lemma string_app_assoc (a b c : string) :
  ((a ++ b) ++ c)%string = (a ++ (b ++ c))%string.
Proof. induction a as [|x a IH]; simpl; [reflexivity|]. rewrite IH. reflexivity. Qed.

Lemma replace_char_app old new s1 s2 :
  replace_char old new (s1 ++ s2)%string =
  (replace_char old new s1 ++ replace_char old new s2)%string.
Proof.
  induction s1 as [|x s1 IH]; simpl; [reflexivity|].
  rewrite IH. destruct (Ascii.eqb x old); simpl.
  - rewrite string_app_assoc. reflexivity.
  - reflexivity.
Qed.

Lemma escape_all_cons c rest :
  escape_all (String c rest) =
  (escape_all (String c EmptyString) ++ escape_all rest)%string.
Proof.
  change (String c rest) with (String c EmptyString ++ rest)%string.
  unfold escape_all. rewrite !replace_char_app. reflexivity.
Qed.

Lemma escape_all_one c x :
  In x special_chars -> string_has x (escape_all (String c EmptyString)) = false.
Proof.
  intros Hx. unfold special_chars in Hx.
  destruct Hx as [<-|[<-|[<-|[<-|[]]]]];
    destruct c as [[] [] [] [] [] [] [] []]; vm_compute; reflexivity.
Qed.

Lemma replace_char_absent old new s :
  string_has old s = false -> replace_char old new s = s.
Proof.
  induction s as [|x s IH]; simpl; [reflexivity|].
  intros H. apply orb_false_iff in H. destruct H as [Hx Hs].
  rewrite Hx, (IH Hs). reflexivity.
Qed.

(** X20. [sanitize_input] never lets an angle bracket or a quote
    through: its output holds no [<], [>], double quote or single quote,
    for every text, and is empty for no text.  A text without those
    characters and without ampersand comes back unchanged. *)
Theorem sanitize_input_escapes text :
  (forall x, In x special_chars -> string_has x (sanitize_input text) = false) /\
  (forall t, text = Some t ->
             (forall x, In x (amp :: special_chars) -> string_has x t = false) ->
             sanitize_input text = t).
Proof.
  assert (E : forall t, sanitize_input (Some t) = escape_all t).
  { intros [|c t]; reflexivity. }
  split.
  - intros x Hx. destruct text as [t|]; [|reflexivity]. rewrite E.
    induction t as [|c t IH]; [reflexivity|].
    rewrite escape_all_cons, string_has_app, IH, (escape_all_one c x Hx).
    reflexivity.
  - intros t -> Hfree. rewrite E. unfold escape_all.
    rewrite (replace_char_absent amp) by (apply Hfree; cbn; auto).
    rewrite (replace_char_absent lt_sign) by (apply Hfree; cbn; auto).
    rewrite (replace_char_absent gt_sign) by (apply Hfree; cbn; auto).
    rewrite (replace_char_absent double_quote) by (apply Hfree; cbn; auto).
    apply replace_char_absent. apply Hfree. cbn. auto 10.
Qed.

(** ** add_to_cart and the cart total *)

Lemma sum_prices_dangling items :
  forall acc s,
    forallb (resolvable (working s)) items = false ->
    sum_prices items acc s = (Raise AttributeError, s).
Proof.
  induction items as [|item rest IH]; intros acc s H; simpl in *;
    [discriminate H|].
  unfold bind at 1, menu_item_of, bind, query. unfold resolvable in H at 1.
  destruct (MenuItem_get (Cart.menu_item_id item) (working s)) as [m|]; cbn.
  - cbn in H. apply IH. exact H.
  - reflexivity.
Qed.

(** [view_cart], run. *)
Lemma view_cart_run uid st :
  view_cart uid st =
  if forallb (resolvable (tables st)) (filter (cart_of_user uid) (cart (tables st)))
  then Some (filter (cart_of_user uid) (cart (tables st)),
             zsum (map (line_total (tables st))
                       (filter (cart_of_user uid) (cart (tables st)))))
  else None.
Proof.
  unfold view_cart, bind, query. cbn [begin_request working].
  destruct (forallb _ _) eqn:E.
  - rewrite (sum_prices_resolvable _ 0 (begin_request st)) by exact E.
    reflexivity.
  - rewrite (sum_prices_dangling _ 0 (begin_request st)) by exact E.
    reflexivity.
Qed.

Lemma NoDup_map_filter {A B} (f : A -> B) (p : A -> bool) l :
  NoDup (map f l) -> NoDup (map f (filter p l)).
Proof.
  induction l as [|x l IH]; simpl; intros H; [constructor|].
  inversion H as [|? ? Hx Hl]; subst.
  destruct (p x); simpl; [|auto]. constructor; [|auto].
  intros Hin. apply Hx. apply in_map_iff in Hin.
  destruct Hin as (y & Hy & Hyin). apply filter_In in Hyin.
  rewrite <- Hy. apply in_map. apply Hyin.
Qed.

Lemma bump_other cid nq l :
  ~ In cid (map Cart.id l) -> map (bump_quantity cid nq) l = l.
Proof.
  induction l as [|x l IH]; simpl; intros H; [reflexivity|].
  unfold bump_quantity at 1. destruct (Cart.id x =? cid) eqn:E.
  - apply Z.eqb_eq in E. exfalso. apply H. left. exact E.
  - rewrite IH; [reflexivity|]. intros Hin. apply H. right. exact Hin.
Qed.

(** Changing the quantity of the one row with a given id moves a sum over
    the rows by the difference on that row. *)
Lemma zsum_bump (f : Cart.t -> Z) l c nq :
  NoDup (map Cart.id l) -> In c l ->
  zsum (map f (map (bump_quantity (Cart.id c) nq) l)) =
  zsum (map f l)
  + (f (Cart.mk (Cart.id c) nq (Cart.user_id c) (Cart.menu_item_id c)) - f c).
Proof.
  induction l as [|x l IH]; intros Hnd Hin; [destruct Hin|].
  inversion Hnd as [|? ? Hx Hl]; subst. cbn [map zsum fold_right].
  fold (zsum (map f (map (bump_quantity (Cart.id c) nq) l))).
  fold (zsum (map f l)).
  destruct Hin as [->|Hin].
  - rewrite bump_other by exact Hx. unfold bump_quantity.
    rewrite Z.eqb_refl. lia.
  - rewrite (IH Hl Hin). unfold bump_quantity at 1.
    destruct (Cart.id x =? Cart.id c) eqn:E; [|lia].
    apply Z.eqb_eq in E. exfalso. apply Hx. rewrite E.
    apply in_map. exact Hin.
Qed.

Lemma filter_user_bump uid cid nq l :
  filter (cart_of_user uid) (map (bump_quantity cid nq) l) =
  map (bump_quantity cid nq) (filter (cart_of_user uid) l).
Proof.
  induction l as [|c l IH]; simpl; [reflexivity|].
  assert (E : cart_of_user uid (bump_quantity cid nq c) = cart_of_user uid c).
  { unfold bump_quantity. destruct (Cart.id c =? cid); reflexivity. }
  rewrite E. destruct (cart_of_user uid c); simpl; rewrite IH; reflexivity.
Qed.

Lemma all_resolvable_bump db cid nq l :
  forallb (resolvable db) (map (bump_quantity cid nq) l) =
  forallb (resolvable db) l.
Proof.
  induction l as [|c l IH]; simpl; [reflexivity|]. rewrite IH. f_equal.
  unfold bump_quantity, resolvable. destruct (Cart.id c =? cid); reflexivity.
Qed.

(** X22. Adding an existing menu item, with quantity [q], to a cart whose
    total [view_cart] can show raises that total by the item's price
    times [q], whether the row is created or an existing row is
    incremented (cart row ids are unique, no write is refused). *)
Theorem add_to_cart_raises_total env uid mid q st m rows t :
  NoDup (map Cart.id (cart (tables st))) ->
  MenuItem_get mid (tables st) = Some m ->
  fault env = None ->
  view_cart uid st = Some (rows, t) ->
  exists rows',
    view_cart uid (snd (add_to_cart env uid mid q st)) =
    Some (rows', t + MenuItem.price m * q).
Proof.
  intros Hnd Hm Hf Hview. rewrite view_cart_run in Hview.
  destruct (forallb (resolvable (tables st))
                    (filter (cart_of_user uid) (cart (tables st)))) eqn:Hres;
    [|discriminate Hview].
  inversion Hview; subst rows t. clear Hview.
  rewrite add_to_cart_run, Hm. unfold fault_at. rewrite Hf.
  destruct (find (cart_of uid mid) (cart (tables st))) as [c|] eqn:Ef;
    cbn [snd]; rewrite view_cart_run; cbn [tables cart set_cart].
  - apply find_some in Ef. destruct Ef as [Hin Hc].
    apply cart_of_iff in Hc. destruct Hc as [Hcu Hcm].
    rewrite filter_user_bump.
    rewrite (all_resolvable_same (tables st)) by reflexivity.
    rewrite all_resolvable_bump, Hres. eexists. f_equal. f_equal.
    rewrite (map_ext (line_total (set_cart _ (tables st)))
                     (line_total (tables st))) by reflexivity.
    rewrite zsum_bump.
    + unfold line_total. cbn. rewrite Hcm, Hm. lia.
    + apply NoDup_map_filter. exact Hnd.
    + apply filter_In. split; [exact Hin|]. unfold cart_of_user.
      apply Z.eqb_eq. exact Hcu.
  - set (new := Cart.mk (cart_seq (seqs st)) q uid mid).
    assert (Hu : cart_of_user uid new = true)
      by (unfold cart_of_user; cbn; apply Z.eqb_refl).
    assert (Hr : resolvable (tables st) new = true)
      by (unfold resolvable; cbn; rewrite Hm; reflexivity).
    assert (Ht : line_total (tables st) new = MenuItem.price m * q)
      by (unfold line_total; cbn; rewrite Hm; reflexivity).
    rewrite filter_app. cbn [filter]. rewrite Hu.
    rewrite (all_resolvable_same (tables st)) by reflexivity.
    rewrite forallb_app, Hres. cbn [forallb]. rewrite Hr. cbn [andb].
    eexists. f_equal. f_equal.
    rewrite (map_ext (line_total (set_cart _ (tables st)))
                     (line_total (tables st))) by reflexivity.
    rewrite map_app, zsum_app. cbn [map zsum fold_right]. rewrite Ht. lia.
Qed.

Lemma add_to_cart_raises_total_witness :
  exists rows',
    view_cart 5 (snd (add_to_cart (example_env None) 5 2 4 example_store)) =
    Some (rows', 3500 + 500 * 4).
Proof.
  apply (add_to_cart_raises_total (example_env None) 5 2 4 example_store
           (MenuItem.mk 2 500 true 2) [Cart.mk 1 3 5 1; Cart.mk 2 1 5 2] 3500).
  - repeat constructor; cbn; intuition discriminate.
  - reflexivity.
  - reflexivity.
  - reflexivity.
Defined.

(** X23. Every order created by a successful [place_order] starts the
    workflow as "pending" (a status of the enumeration, progress 20),
    belongs to the calling user, and takes the next free ids of the
    counter, in the order of creation. *)
Theorem place_order_new_orders env uid st st' :
  place_order env uid st = (order_placed, st') ->
  exists new_orders,
    orders (tables st') = orders (tables st) ++ new_orders /\
    Forall (fun o => Order.status o = "pending"%string /\
                     Order.customer_id o = uid /\
                     In (Order.status o) valid_statuses /\
                     get_order_status_progress (Order.status o) = 20)
           new_orders /\
    map Order.id new_orders =
      z_seq (order_seq (seqs st)) (List.length new_orders).
Proof.
  intros H.
  destruct (place_order_written _ _ _ _ H)
    as (groups & created & _ & Hf & Hids & Ht & _).
  exists (map fst created). rewrite Ht. cbn. split; [reflexivity|]. split.
  - clear - Hf. induction Hf as [|g c groups created (_ & Hu & Hs & _) _ IH];
      cbn; constructor; [|exact IH].
    rewrite Hs. repeat split; [exact Hu | left; reflexivity].
  - rewrite map_map, length_map, <- (Forall2_length Hf). exact Hids.
Qed.

Lemma place_order_new_orders_witness :
  exists new_orders,
    orders (tables (snd (place_order (example_env None) 5 example_store))) =
      orders (tables example_store) ++ new_orders /\
    Forall (fun o => Order.status o = "pending"%string /\
                     Order.customer_id o = 5 /\
                     In (Order.status o) valid_statuses /\
                     get_order_status_progress (Order.status o) = 20)
           new_orders /\
    map Order.id new_orders =
      z_seq (order_seq (seqs example_store)) (List.length new_orders).
Proof.
  apply (place_order_new_orders (example_env None) 5 example_store).
  vm_compute. reflexivity.
Defined.
